(** * Verified Health Scoring Pipeline

    A shallow embedding of the scoring pipeline of the Fantasy Life League
    project, and the properties its specification states about it.

    Two sources are embedded:
    - [src/healthApiIntegration.js]: the browser-side [healthState],
      [calculateHealthPoints], [fetchHealthStatus] and the asynchronous
      [syncHealthData];
    - the Swift [HealthKitManager] carried in [src/webpage.jsx]: the
      metric fetchers, [validateDataConsistency], [createVerifiedData]
      and [fetchVerifiedHealthData].
    Beside them stand the card of [updateHealthUI] with
    [formatTimeAgo], the descriptions of [HealthKitError], and, of the
    web application of [src/webpage.jsx], the API client [request], the
    route guards and the authentication state.

    Numbers.  A JavaScript number and a Swift [Double] (also a
    [TimeInterval]) are modelled twice.  [Double.t] is the number type
    itself: the finite doubles by their rational value, the two
    infinities and NaN, with every operation rounded to the nearest
    double.  The validator, the fetchers, the signer,
    [calculateHealthPoints] and the [mockData] of a sync are embedded
    over it in [IEEE], and what depends on how a product, a sum or a
    quotient is rounded, or on a value that is not finite, is stated
    there.  The other embedding is
    over the exact rationals [Q]: it computes without rounding and has
    neither NaN nor infinity, and it carries the properties that
    compare inputs with constants, follow the control flow or order the
    events of the page.  The two agree where the rounding does not
    reach the result; for [calculateHealthPoints] that is so on every
    [mockData] of a sync.
    The time coordinate of a [Date] is only compared, and is exact.

    Effects.  A Swift [throws] function returns a [Result]; the system
    clock is a sequence of readings, one for each call of [Date()]; an
    [async] JavaScript function is cut at its [await] into the part that
    runs when it is called and the part that runs when it is resumed, and
    the page's event loop interleaves such parts.  What lies outside the
    repository (HealthKit, the calendar, the JSON encoder, the MAC, the
    host page's functions) enters as a parameter or by its documented
    contract, as said where it is introduced. *)

From Stdlib Require Import ZArith QArith Qround Qabs Bool List String Lia.
From Stdlib Require Import Sorting.Sorted Sorting.Permutation Lqa.
From Stdlib Require Import DecimalString Qpower.
Import ListNotations.

Local Open Scope Q_scope.

(** ** Numbers *)

Module Num.

(** [a > b] on doubles, as a boolean. *)
Definition gtb (a b : Q) : bool := negb (Qle_bool a b).

(** [a < b] on doubles, as a boolean. *)
Definition ltb (a b : Q) : bool := negb (Qle_bool b a).

(** [a == b] on doubles. *)
Definition eqb (a b : Q) : bool := Qeq_bool a b.

(** [Math.floor]. *)
Definition floor (x : Q) : Q := inject_Z (Qfloor x).

(** [Math.round]: the nearest integer, a tie going towards plus
    infinity. *)
Definition round (x : Q) : Q := inject_Z (Qfloor (x + (1 # 2))).

(** JavaScript [x || 0] on a number: [0] (and NaN, which the model does
    not have) is falsy, every other number is kept. *)
Definition or_zero (x : Q) : Q := if eqb x 0 then 0 else x.

End Num.

(** ** PointsCalculator ([src/healthApiIntegration.js]) *)

Module Points.

(** The object handed to [calculateHealthPoints]: [mockData] of
    [syncHealthData].  [distance] is in kilometres. *)
Record HealthData := mkHealthData {
  steps : Q;
  calories : Q;
  distance : Q;
  workouts : Q
}.

(** [Math.floor(data.steps / 1000)] *)
Definition stepsPoints (data : HealthData) : Q :=
  Num.floor (steps data / 1000).

(** [Math.floor(data.calories / 100)] *)
Definition caloriesPoints (data : HealthData) : Q :=
  Num.floor (calories data / 100).

(** [(data.workouts || 0) * 5] *)
Definition workoutPoints (data : HealthData) : Q :=
  Num.or_zero (workouts data) * 5.

(** [if (data.distance > 5) points += (data.distance - 5) * 2] *)
Definition distanceBonusPoints (data : HealthData) : Q :=
  if Num.gtb (distance data) 5 then (distance data - 5) * 2 else 0.

(** [calculateHealthPoints]: the four contributions are added to
    [points], starting from [0], in the order of the source; the result
    is [Math.round(points * 10) / 10]. *)
Definition calculateHealthPoints (data : HealthData) : Q :=
  let points := 0 in
  let points := points + stepsPoints data in
  let points := points + caloriesPoints data in
  let points := points + workoutPoints data in
  let points := points + distanceBonusPoints data in
  Num.round (points * 10) / 10.

Definition scenario : HealthData :=
  {| steps := 12000; calories := 650; distance := 8; workouts := 1 |}.

End Points.


(** ** Swift results ([src/webpage.jsx], [HealthKitManager]) *)

(** A point in time: the time coordinate of a Swift [Date], in seconds. *)
Definition Date : Type := Q.

(** A Swift [Data] value. *)
Definition Data : Type := list Byte.byte.

(** [enum HealthKitError] *)
Inductive HealthKitError : Type :=
| notAvailable
| inconsistentData (reason : string)
| unauthorized.

(** What a [throws] function of [HealthKitManager] can throw: an error of
    the repository, the error a HealthKit query failed with, or the
    [EncodingError] of [JSONEncoder]. *)
Inductive Error : Type :=
| healthKitError (e : HealthKitError)
| queryError (code : Z)
| encodingError.

(** The outcome of a [throws] function. *)
Inductive Result (A : Type) : Type :=
| Ok (a : A)
| Throw (e : Error).

Arguments Ok {A} a.
Arguments Throw {A} e.

Definition bind {A B : Type} (c : Result A) (k : A -> Result B) : Result B :=
  match c with
  | Ok a => k a
  | Throw e => Throw e
  end.

Notation "x <- c ;; k" := (bind c (fun x => k))
  (at level 61, c at next level, right associativity).
Notation "'do' c ;; k" := (bind c (fun _ => k))
  (at level 61, c at next level, right associativity).

(** The error of a failed consistency check. *)
Definition rejection (reason : string) : Error :=
  healthKitError (inconsistentData reason).

(** [throw HealthKitError.inconsistentData(reason)] *)
Definition throwInconsistent {A : Type} (reason : string) : Result A :=
  Throw (rejection reason).

(** [if cond { throw HealthKitError.inconsistentData(reason) }] *)
Definition throwIf (cond : bool) (reason : string) : Result unit :=
  if cond then throwInconsistent reason else Ok tt.

(** ** Data models *)

(** [struct WorkoutData] *)
Module WorkoutData.
Record t : Type := mk {
  type : N;
  duration : Q;
  calories : Q;
  distance : Q;
  startDate : Date;
  endDate : Date;
  source : string
}.
End WorkoutData.

(** [struct HeartRateReading] *)
Module HeartRateReading.
Record t : Type := mk {
  bpm : Q;
  timestamp : Date
}.
End HeartRateReading.

(** [struct DeviceInfo] *)
Module DeviceInfo.
Record t : Type := mk {
  model : string;
  systemVersion : string;
  identifierForVendor : string
}.
End DeviceInfo.

(** [struct RawHealthData] *)
Module RawHealthData.
Record t : Type := mk {
  date : Date;
  steps : Q;
  calories : Q;
  distance : Q;
  workouts : list WorkoutData.t;
  heartRateReadings : list HeartRateReading.t;
  deviceInfo : DeviceInfo.t;
  timestamp : Date
}.
End RawHealthData.

(** [struct VerifiedHealthData] *)
Module VerifiedHealthData.
Record t : Type := mk {
  rawData : RawHealthData.t;
  signature : string;
  version : string
}.
End VerifiedHealthData.

(** ** ConsistencyValidator *)

Module Validator.

(** The reasons the validator throws, as the source spells them. *)
Definition reasonCorrelation : string := "Steps and distance don't correlate".
Definition reasonCalories : string := "Calories burned without activity".
Definition reasonDuration : string := "Workout duration exceeds 24 hours".
Definition reasonFuture : string := "Workout in the future".
Definition reasonHeartRate : string := "Heart rate outside realistic range".
Definition reasonSteps : string := "Unrealistic step count".
Definition reasonCalorieBurn : string := "Unrealistic calorie burn".

(** The loop of rule 3.  A workout whose duration check passes is
    compared with [Date()], a fresh reading of the clock: [now k] is the
    reading of the [k]-th call of [Date()] this validation makes
    (counted from [0]), so the workout at position [k] meets [now k]. *)
Fixpoint validateWorkouts (now : nat -> Date) (k : nat)
    (workouts : list WorkoutData.t) : Result unit :=
  match workouts with
  | [] => Ok tt
  | workout :: rest =>
      do throwIf (Num.gtb (WorkoutData.duration workout) 86400)
                 reasonDuration ;;
      do throwIf (Num.gtb (WorkoutData.startDate workout) (now k))
                 reasonFuture ;;
      validateWorkouts now (S k) rest
  end.

(** The loop of rule 4. *)
Fixpoint validateHeartRates (readings : list HeartRateReading.t)
    : Result unit :=
  match readings with
  | [] => Ok tt
  | reading :: rest =>
      do throwIf (Num.ltb (HeartRateReading.bpm reading) 30
                  || Num.gtb (HeartRateReading.bpm reading) 250)
                 reasonHeartRate ;;
      validateHeartRates rest
  end.

(** [data.workouts.reduce(0.0) { $0 + $1.calories }] *)
Definition workoutCalories (data : RawHealthData.t) : Q :=
  fold_left (fun acc w => acc + WorkoutData.calories w)
            (RawHealthData.workouts data) 0.

(** [data.steps * 0.75] *)
Definition expectedDistance (data : RawHealthData.t) : Q :=
  RawHealthData.steps data * (75 # 100).

(** [abs(data.distance - expectedDistance) / expectedDistance].  With
    [steps = 0] the source divides by zero and gets an infinity or a
    NaN, where [Q] gives [0]; the quotient is only looked at under
    [data.steps > 1000], where the denominator is positive.  The
    quotient is the exact one; the rounded one of the code is
    [IEEE.distanceVariance]. *)
Definition distanceVariance (data : RawHealthData.t) : Q :=
  Qabs (RawHealthData.distance data - expectedDistance data)
  / expectedDistance data.

(** [data.steps > 1000 && distanceVariance > 0.5] *)
Definition correlationCheck (data : RawHealthData.t) : bool :=
  Num.gtb (RawHealthData.steps data) 1000
  && Num.gtb (distanceVariance data) (5 # 10).

(** [data.calories > 0 && workoutCalories == 0 && data.steps < 100] *)
Definition caloriesCheck (data : RawHealthData.t) : bool :=
  Num.gtb (RawHealthData.calories data) 0
  && Num.eqb (workoutCalories data) 0
  && Num.ltb (RawHealthData.steps data) 100.

(** [validateDataConsistency]: returns normally or throws the reason of
    the check that tripped. *)
Definition validateDataConsistency (now : nat -> Date)
    (data : RawHealthData.t) : Result unit :=
  (* 1. steps vs distance correlation *)
  do throwIf (correlationCheck data) reasonCorrelation ;;
  (* 2. calories vs activity *)
  do throwIf (caloriesCheck data) reasonCalories ;;
  (* 3. workout data *)
  do validateWorkouts now 0 (RawHealthData.workouts data) ;;
  (* 4. heart rate readings *)
  do validateHeartRates (RawHealthData.heartRateReadings data) ;;
  (* 5. impossibly high values *)
  do throwIf (Num.gtb (RawHealthData.steps data) 100000) reasonSteps ;;
  do throwIf (Num.gtb (RawHealthData.calories data) 10000)
             reasonCalorieBurn ;;
  Ok tt.

End Validator.

(** The five rules as the specification lists them, each as a property
    of the record (and, for rule 3, of the clock readings), independent
    of the order in which the validator consults them. *)
Module Rules.

(** [sum(workout.calories)] *)
Definition sumCalories (workouts : list WorkoutData.t) : Q :=
  fold_right (fun w acc => WorkoutData.calories w + acc) 0 workouts.

(** 1. Steps/distance correlation. *)
Definition correlationFails (data : RawHealthData.t) : Prop :=
  1000 < RawHealthData.steps data /\
  5 # 10 <
    Qabs (RawHealthData.distance data
          - (75 # 100) * RawHealthData.steps data)
    / ((75 # 100) * RawHealthData.steps data).

(** 2. Calorie plausibility. *)
Definition caloriesFail (data : RawHealthData.t) : Prop :=
  0 < RawHealthData.calories data /\
  sumCalories (RawHealthData.workouts data) == 0 /\
  RawHealthData.steps data < 100.

(** 3. Workout sanity; the workout at position [k] is compared with
    the clock reading [now k]. *)
Definition workoutFails (now : nat -> Date) (k : nat)
    (w : WorkoutData.t) : Prop :=
  86400 < WorkoutData.duration w \/ now k < WorkoutData.startDate w.

Definition workoutsFail (now : nat -> Date) (data : RawHealthData.t)
    : Prop :=
  exists k w, nth_error (RawHealthData.workouts data) k = Some w /\
              workoutFails now k w.

(** 4. Heart-rate plausibility. *)
Definition heartRateFails (data : RawHealthData.t) : Prop :=
  exists r, In r (RawHealthData.heartRateReadings data) /\
            (HeartRateReading.bpm r < 30 \/ 250 < HeartRateReading.bpm r).

(** 5. Absolute caps. *)
Definition capsFail (data : RawHealthData.t) : Prop :=
  100000 < RawHealthData.steps data \/
  10000 < RawHealthData.calories data.

(** Rule [n] of the list fails. *)
Definition fails (now : nat -> Date) (n : nat) (data : RawHealthData.t)
    : Prop :=
  match n with
  | 1%nat => correlationFails data
  | 2%nat => caloriesFail data
  | 3%nat => workoutsFail now data
  | 4%nat => heartRateFails data
  | 5%nat => capsFail data
  | _ => False
  end.

(** The rule a rejection reason belongs to ([0]: none). *)
Definition ruleOf (reason : string) : nat :=
  if String.eqb reason Validator.reasonCorrelation then 1
  else if String.eqb reason Validator.reasonCalories then 2
  else if String.eqb reason Validator.reasonDuration then 3
  else if String.eqb reason Validator.reasonFuture then 3
  else if String.eqb reason Validator.reasonHeartRate then 4
  else if String.eqb reason Validator.reasonSteps then 5
  else if String.eqb reason Validator.reasonCalorieBurn then 5
  else 0.

End Rules.

(** ** HealthKit

    HealthKit is a framework outside the repository.  Its store is
    modelled by the samples it holds, and a sample query by its documented
    contract: the samples that satisfy the predicates, sorted by the sort
    descriptor; a query can also fail with an error. *)

Module HealthKit.

Inductive HKQuantityTypeIdentifier : Type :=
| stepCount
| activeEnergyBurned
| distanceWalkingRunning
| heartRate.

Definition sameType (a b : HKQuantityTypeIdentifier) : bool :=
  match a, b with
  | stepCount, stepCount => true
  | activeEnergyBurned, activeEnergyBurned => true
  | distanceWalkingRunning, distanceWalkingRunning => true
  | heartRate, heartRate => true
  | _, _ => false
  end.

(** [HKQuantitySample]; [quantity] is the value in the unit the fetcher
    asks for (count, kilocalorie, meter, count per minute). *)
Module HKQuantitySample.
Record t : Type := mk {
  quantityType : HKQuantityTypeIdentifier;
  startDate : Date;
  quantity : Q
}.
End HKQuantitySample.

(** [HKWorkout]; [source] is
    [sourceRevision.source.bundleIdentifier]. *)
Module HKWorkout.
Record t : Type := mk {
  workoutActivityType : N;
  duration : Q;
  totalEnergyBurned : option Q;
  totalDistance : option Q;
  startDate : Date;
  endDate : Date;
  source : string
}.
End HKWorkout.

(** What a query is about. *)
Inductive SampleType : Type :=
| quantitySample (type : HKQuantityTypeIdentifier)
| workout.

(** [HKHealthStore]: its samples, and the error (if any) a query for a
    sample type fails with. *)
Module HKHealthStore.
Record t : Type := mk {
  quantitySamples : list HKQuantitySample.t;
  workouts : list HKWorkout.t;
  failure : SampleType -> option Z
}.
End HKHealthStore.

(** [SortDescriptor(\.startDate, order: ...)] *)
Inductive SortOrder : Type := forward | reverse.

(** [a] may come before [b] under the order. *)
Definition inOrder (order : SortOrder) (a b : Date) : bool :=
  match order with
  | forward => Qle_bool a b
  | reverse => Qle_bool b a
  end.

(** The order of the sort descriptor, on samples. *)
Definition before {A : Type} (key : A -> Date) (order : SortOrder)
    (a b : A) : Prop :=
  inOrder order (key a) (key b) = true.

Fixpoint insert {A : Type} (key : A -> Date) (order : SortOrder)
    (x : A) (l : list A) : list A :=
  match l with
  | [] => [x]
  | y :: l' =>
      if inOrder order (key x) (key y) then x :: y :: l'
      else y :: insert key order x l'
  end.

(** Sorting by [key] under the sort descriptor's order. *)
Fixpoint sorted {A : Type} (key : A -> Date) (order : SortOrder)
    (l : list A) : list A :=
  match l with
  | [] => []
  | x :: l' => insert key order x (sorted key order l')
  end.

(** [HKQuery.predicateForSamples(withStart:end:options: .strictStartDate)]:
    the sample starts within [[start, end)]. *)
Definition predicateForSamples (start finish : Date) (startDate : Date)
    : bool :=
  Qle_bool start startDate && Num.ltb startDate finish.

(** [HKSampleQueryDescriptor(...).result(for: healthStore)] for a
    quantity type. *)
Definition quantityResult (healthStore : HKHealthStore.t)
    (type : HKQuantityTypeIdentifier) (start finish : Date)
    (order : SortOrder) : Result (list HKQuantitySample.t) :=
  match HKHealthStore.failure healthStore (quantitySample type) with
  | Some code => Throw (queryError code)
  | None =>
      Ok (sorted HKQuantitySample.startDate order
            (filter (fun s =>
                       sameType (HKQuantitySample.quantityType s) type
                       && predicateForSamples start finish
                            (HKQuantitySample.startDate s))
                    (HKHealthStore.quantitySamples healthStore)))
  end.

(** [HKSampleQueryDescriptor(...).result(for: healthStore)] for
    workouts. *)
Definition workoutResult (healthStore : HKHealthStore.t)
    (start finish : Date) (order : SortOrder)
    : Result (list HKWorkout.t) :=
  match HKHealthStore.failure healthStore workout with
  | Some code => Throw (queryError code)
  | None =>
      Ok (sorted HKWorkout.startDate order
            (filter (fun w => predicateForSamples start finish
                                (HKWorkout.startDate w))
                    (HKHealthStore.workouts healthStore)))
  end.

End HealthKit.

(** ** HealthKitManager *)

Module Manager.
Import HealthKit.

(** [UIDevice.current], as far as [getDeviceInfo] reads it. *)
Module UIDevice.
Record t : Type := mk {
  model : string;
  systemVersion : string;
  identifierForVendor : option string
}.
End UIDevice.

Section HealthKitManager.

(** [Calendar.current]: the start of the day a date lies in, and
    [date(byAdding: .day, value: 1, to:)]. *)
Variable startOfDay : Date -> Date.
Variable addingOneDay : Date -> Date.

(** [JSONEncoder] with the ISO 8601 date strategy.  It throws only on
    a [Double] that is not finite, which the numbers of this model
    never are, so encoding is a function. *)
Variable encode : RawHealthData.t -> Data.

(** [HMAC<SHA256>.authenticationCode(for:using:)] and
    [base64EncodedString()], from CryptoKit and Foundation. *)
Variable authenticationCode : Data -> Data -> Data.
Variable base64EncodedString : Data -> string.

(** [private let signingKey: String] *)
Variable signingKey : string.

(** [fetchSamples(for:on:)]: the quantity samples of the day, oldest
    first. *)
Definition fetchSamples (healthStore : HKHealthStore.t)
    (type : HKQuantityTypeIdentifier) (date : Date)
    : Result (list HKQuantitySample.t) :=
  let startOfDay := startOfDay date in
  let endOfDay := addingOneDay startOfDay in
  quantityResult healthStore type startOfDay endOfDay forward.

(** [samples.reduce(0.0) { sum, sample in sum + sample.quantity... }],
    as an exact sum; the rounded sum of the code is [IEEE.total]. *)
Definition total (samples : list HKQuantitySample.t) : Q :=
  fold_left (fun sum sample => sum + HKQuantitySample.quantity sample)
            samples 0.

Definition fetchSteps (healthStore : HKHealthStore.t) (date : Date)
    : Result Q :=
  samples <- fetchSamples healthStore stepCount date ;;
  Ok (total samples).

Definition fetchCalories (healthStore : HKHealthStore.t) (date : Date)
    : Result Q :=
  samples <- fetchSamples healthStore activeEnergyBurned date ;;
  Ok (total samples).

Definition fetchDistance (healthStore : HKHealthStore.t) (date : Date)
    : Result Q :=
  samples <- fetchSamples healthStore distanceWalkingRunning date ;;
  Ok (total samples).

(** [x ?? 0] *)
Definition orZero (x : option Q) : Q :=
  match x with
  | Some v => v
  | None => 0
  end.

(** The closure [fetchWorkouts] maps over the query's result. *)
Definition toWorkoutData (workout : HKWorkout.t) : WorkoutData.t :=
  {| WorkoutData.type := HKWorkout.workoutActivityType workout;
     WorkoutData.duration := HKWorkout.duration workout;
     WorkoutData.calories := orZero (HKWorkout.totalEnergyBurned workout);
     WorkoutData.distance := orZero (HKWorkout.totalDistance workout);
     WorkoutData.startDate := HKWorkout.startDate workout;
     WorkoutData.endDate := HKWorkout.endDate workout;
     WorkoutData.source := HKWorkout.source workout |}.

(** [fetchWorkouts(for:)]: its own query, with the sort descriptor
    [SortDescriptor(\.startDate, order: .reverse)]. *)
Definition fetchWorkouts (healthStore : HKHealthStore.t) (date : Date)
    : Result (list WorkoutData.t) :=
  let startOfDay := startOfDay date in
  let endOfDay := addingOneDay startOfDay in
  workouts <- workoutResult healthStore startOfDay endOfDay reverse ;;
  Ok (map toWorkoutData workouts).

(** [fetchHeartRateReadings(for:)] *)
Definition fetchHeartRateReadings (healthStore : HKHealthStore.t)
    (date : Date) : Result (list HeartRateReading.t) :=
  samples <- fetchSamples healthStore heartRate date ;;
  Ok (map (fun sample =>
             {| HeartRateReading.bpm := HKQuantitySample.quantity sample;
                HeartRateReading.timestamp :=
                  HKQuantitySample.startDate sample |})
          samples).

(** [getDeviceInfo()] *)
Definition getDeviceInfo (device : UIDevice.t) : DeviceInfo.t :=
  {| DeviceInfo.model := UIDevice.model device;
     DeviceInfo.systemVersion := UIDevice.systemVersion device;
     DeviceInfo.identifierForVendor :=
       match UIDevice.identifierForVendor device with
       | Some uuidString => uuidString
       | None => "unknown"
       end |}.

(** [createVerifiedData(from:)].  The exact numbers are all finite, and
    the encoder takes every record of them; the encoder that throws is
    in [IEEE.createVerifiedData]. *)
Definition createVerifiedData (rawData : RawHealthData.t)
    : Result VerifiedHealthData.t :=
  let jsonData := encode rawData in
  let key := list_byte_of_string signingKey in
  let signature := authenticationCode jsonData key in
  let signatureString := base64EncodedString signature in
  Ok {| VerifiedHealthData.rawData := rawData;
        VerifiedHealthData.signature := signatureString;
        VerifiedHealthData.version := "1.0" |}.

(** The first half of [fetchVerifiedHealthData]: the five fetches, in
    the order of the source, and the [RawHealthData] built from them.
    The fetches are awaited one after the other; [healthStore k] is
    the store as the [k]-th query finds it.  [now 0] is the reading
    of [Date()] for [timestamp]. *)
Definition aggregate (healthStore : nat -> HKHealthStore.t)
    (device : UIDevice.t) (now : nat -> Date) (date : Date)
    : Result RawHealthData.t :=
  steps <- fetchSteps (healthStore 0%nat) date ;;
  calories <- fetchCalories (healthStore 1%nat) date ;;
  distance <- fetchDistance (healthStore 2%nat) date ;;
  workouts <- fetchWorkouts (healthStore 3%nat) date ;;
  heartRateReadings <- fetchHeartRateReadings (healthStore 4%nat) date ;;
  Ok {| RawHealthData.date := date;
        RawHealthData.steps := steps;
        RawHealthData.calories := calories;
        RawHealthData.distance := distance;
        RawHealthData.workouts := workouts;
        RawHealthData.heartRateReadings := heartRateReadings;
        RawHealthData.deviceInfo := getDeviceInfo device;
        RawHealthData.timestamp := now 0%nat |}.

(** The clock as the validation sees it: the readings after the one
    taken for [timestamp]. *)
Definition afterTimestamp (now : nat -> Date) : nat -> Date :=
  fun k => now (S k).

(** [fetchVerifiedHealthData(for:)] *)
Definition fetchVerifiedHealthData (healthStore : nat -> HKHealthStore.t)
    (device : UIDevice.t) (now : nat -> Date) (date : Date)
    : Result VerifiedHealthData.t :=
  steps <- fetchSteps (healthStore 0%nat) date ;;
  calories <- fetchCalories (healthStore 1%nat) date ;;
  distance <- fetchDistance (healthStore 2%nat) date ;;
  workouts <- fetchWorkouts (healthStore 3%nat) date ;;
  heartRateReadings <- fetchHeartRateReadings (healthStore 4%nat) date ;;
  let rawData :=
    {| RawHealthData.date := date;
       RawHealthData.steps := steps;
       RawHealthData.calories := calories;
       RawHealthData.distance := distance;
       RawHealthData.workouts := workouts;
       RawHealthData.heartRateReadings := heartRateReadings;
       RawHealthData.deviceInfo := getDeviceInfo device;
       RawHealthData.timestamp := now 0%nat |} in
  do Validator.validateDataConsistency (afterTimestamp now) rawData ;;
  verifiedData <- createVerifiedData rawData ;;
  Ok verifiedData.

(** Modelled from the spec: [verifyRecord(record, key)], the
    verification entry point; the source only signs.  A record is
    authentic when the MAC recomputed over the serialization of
    [rawData] equals the stored signature. *)
Definition verifyRecord (record : VerifiedHealthData.t) (key : string)
    : bool :=
  String.eqb
    (base64EncodedString
       (authenticationCode (encode (VerifiedHealthData.rawData record))
                           (list_byte_of_string key)))
    (VerifiedHealthData.signature record).

End HealthKitManager.

(** Oldest first, and newest first. *)
Definition ascending {A : Type} (key : A -> Date) (l : list A) : Prop :=
  StronglySorted (fun a b => key a <= key b) l.
Definition descending {A : Type} (key : A -> Date) (l : list A) : Prop :=
  StronglySorted (fun a b => key b <= key a) l.

(** A calendar whose days are the multiples of 86400 seconds. *)
Definition utcStartOfDay (date : Date) : Date :=
  inject_Z (Qfloor (date / 86400)) * 86400.
Definition utcAddingOneDay (date : Date) : Date := date + 86400.

End Manager.

(** ** SyncCoordinator ([src/healthApiIntegration.js]) *)

Module Sync.

(** [healthState.status] *)
Inductive Status : Type := notSynced | synced | error.

(** [healthState.data] holds one of two shapes of object: the one of
    the initial state and of [fetchHealthStatus]
    ([workouts: [], heartRate: 0]), or the [mockData] of a sync. *)
Inductive DataObject : Type :=
| statusData (steps calories distance : Q)
| mockData (data : Points.HealthData).

(** [let healthState] *)
Record HealthState : Type := mkHealthState {
  lastSync : option Date;
  isSyncing : bool;
  data : DataObject;
  points : Q;
  status : Status
}.

(** The host page's [state], as far as [syncHealthData] touches it:
    [state.matchup.userScore] and [state.weekPoints]. *)
Record AppState : Type := mkAppState {
  userScore : Q;
  weekPoints : Q
}.

Record World : Type := mkWorld {
  healthState : HealthState;
  state : AppState
}.

(** The initial [healthState] of the source. *)
Definition initialHealthState : HealthState :=
  {| lastSync := None; isSyncing := false; data := statusData 0 0 0;
     points := 0; status := notSynced |}.

(** What [showToast] is asked to show. *)
Inductive Toast : Type :=
| toastSynced (points : Q)
| toastFailed.

(** The functions of the host page the sync calls; they are not under
    [src/].  They read the world, and return or throw. *)
Inductive External : Type :=
| saveState
| updateUI
| showToast (toast : Toast).

(** A thrown exception, by the call that threw it. *)
Inductive Thrown : Type := thrownBy (call : External).

(** How the promise of an [async] function settles: fulfilled with
    [undefined], or rejected. *)
Inductive Completion : Type :=
| fulfilled
| rejected (e : Thrown).

(** A statement sequence: a new world, and normal completion or an
    exception. *)
Definition JS : Type := World -> World * option Thrown.

Definition seq (a b : JS) : JS :=
  fun w =>
    match a w with
    | (w1, None) => b w1
    | (w1, Some e) => (w1, Some e)
    end.

Notation "a >> b" := (seq a b) (at level 62, right associativity).

(** A statement that changes the world and cannot throw. *)
Definition assign (f : World -> World) : JS := fun w => (f w, None).

(** [try { body } catch (error) { handler } finally { final }] *)
Definition tryCatchFinally (body handler final : JS) : JS :=
  fun w =>
    match body w with
    | (w1, None) => final w1
    | (w1, Some _) =>
        match handler w1 with
        | (w2, None) => final w2
        | (w2, Some e) =>
            match final w2 with
            | (w3, None) => (w3, Some e)
            | (w3, Some e') => (w3, Some e')
            end
        end
    end.

Definition setHealth (f : HealthState -> HealthState) : World -> World :=
  fun w => {| healthState := f (healthState w); state := state w |}.

Definition setIsSyncing (b : bool) : World -> World :=
  setHealth (fun h =>
    {| lastSync := lastSync h; isSyncing := b; data := data h;
       points := points h; status := status h |}).

Definition setData (d : DataObject) : World -> World :=
  setHealth (fun h =>
    {| lastSync := lastSync h; isSyncing := isSyncing h; data := d;
       points := points h; status := status h |}).

Definition setPoints (p : Q) : World -> World :=
  setHealth (fun h =>
    {| lastSync := lastSync h; isSyncing := isSyncing h; data := data h;
       points := p; status := status h |}).

Definition setStatus (s : Status) : World -> World :=
  setHealth (fun h =>
    {| lastSync := lastSync h; isSyncing := isSyncing h; data := data h;
       points := points h; status := s |}).

Definition setLastSync (d : Date) : World -> World :=
  setHealth (fun h =>
    {| lastSync := Some d; isSyncing := isSyncing h; data := data h;
       points := points h; status := status h |}).

(** [state.matchup.userScore += healthState.points] *)
Definition addToUserScore (w : World) : World :=
  {| healthState := healthState w;
     state := {| userScore := userScore (state w) + points (healthState w);
                 weekPoints := weekPoints (state w) |} |}.

(** [state.weekPoints += healthState.points] *)
Definition addToWeekPoints (w : World) : World :=
  {| healthState := healthState w;
     state := {| userScore := userScore (state w);
                 weekPoints :=
                   weekPoints (state w) + points (healthState w) |} |}.

(** [updateHealthUI()] renders [healthState] into the page: it changes
    nothing of the world, and it does not throw (the fields it formats
    are numbers in every [healthState.data] the source assigns). *)
Definition updateHealthUI : JS := assign (fun w => w).

(** The [mockData] of a sync; [random k] is the [k]-th draw of
    [Math.random()].  The product of a draw is taken exactly; the code
    floors the rounded product, which for some draws is the next whole
    number (at a draw of 0.6, 10000 steps for 9999). *)
Definition drawMockData (random : nat -> Q) : Points.HealthData :=
  {| Points.steps := Num.floor (random 0%nat * 5000) + 7000;
     Points.calories := Num.floor (random 1%nat * 300) + 400;
     Points.distance := Num.floor (random 2%nat * 3) + 5;
     Points.workouts := Num.floor (random 3%nat * 2) + 1 |}.

(** What a call of [syncHealthData] has done when it gives control
    back: its promise has settled, or it is suspended at
    [await new Promise(resolve => setTimeout(resolve, 2000))]
    holding its [mockData]. *)
Inductive Started : Type :=
| settled (c : Completion)
| suspended (mock : Points.HealthData).

(** [syncHealthData], up to its [await]. *)
Definition syncHealthData_begin (random : nat -> Q) (w : World)
    : World * Started :=
  if isSyncing (healthState w) then (w, settled fulfilled)
  else
    let w := setIsSyncing true w in
    let (w, _) := updateHealthUI w in
    (w, suspended (drawMockData random)).

Section Host.

(** Whether a call of a host function throws, in a given world. *)
Variable throws : External -> World -> bool.

Definition call (f : External) : JS :=
  fun w => (w, if throws f w then Some (thrownBy f) else None).

(** The [try] block after the [await]; [now] is [new Date()]. *)
Definition tryBlock (mock : Points.HealthData) (now : Date) : JS :=
  assign (setData (mockData mock)) >>
  assign (setPoints (Points.calculateHealthPoints mock)) >>
  assign (setStatus synced) >>
  assign (setLastSync now) >>
  assign addToUserScore >>
  assign addToWeekPoints >>
  call saveState >>
  call updateUI >>
  updateHealthUI >>
  (fun w => call (showToast (toastSynced (points (healthState w)))) w).

(** The [catch] block. *)
Definition catchBlock : JS :=
  assign (setStatus error) >>
  updateHealthUI >>
  call (showToast toastFailed).

(** The [finally] block. *)
Definition finallyBlock : JS :=
  assign (setIsSyncing false) >>
  updateHealthUI.

(** [syncHealthData], from its [await] to its end. *)
Definition syncHealthData_resume (mock : Points.HealthData)
    (now : Date) (w : World) : World * Completion :=
  match tryCatchFinally (tryBlock mock now) catchBlock finallyBlock w with
  | (w', None) => (w', fulfilled)
  | (w', Some e) => (w', rejected e)
  end.

(** The answer [fetchHealthStatus] gets: the request fails, or the
    server has no data, or it has the statistics
    ([averageSteps], [averageCalories], [averageDistance]). *)
Inductive StatusResponse : Type :=
| requestFailed
| noData
| hasData (averageSteps averageCalories averageDistance : Q).

(** [fetchHealthStatus], from its answer on. *)
Definition fetchHealthStatus_resume (response : StatusResponse)
    (now : Date) (w : World) : World :=
  match response with
  | requestFailed => setStatus error w
  | noData => w
  | hasData averageSteps averageCalories averageDistance =>
      setLastSync now
        (setStatus synced
           (setData (statusData (Num.round averageSteps)
                                (Num.round averageCalories)
                                (Num.round (averageDistance / 1000)))
                    w))
  end.

(** The page: the world, and the syncs suspended at their [await]. *)
Record Page : Type := mkPage {
  world : World;
  inFlight : list Points.HealthData
}.

(** What the event loop runs next: a call of [syncHealthData]; the
    timer of the [k]-th suspended sync; the answer to a
    [fetchHealthStatus]. *)
Inductive Event : Type :=
| syncRequested (random : nat -> Q)
| timerFired (k : nat) (now : Date)
| statusAnswered (response : StatusResponse) (now : Date).

Fixpoint removeNth {A : Type} (k : nat) (l : list A) : list A :=
  match k, l with
  | _, [] => []
  | O, _ :: l' => l'
  | S k', x :: l' => x :: removeNth k' l'
  end.

Definition step (p : Page) (e : Event) : Page :=
  match e with
  | syncRequested random =>
      match syncHealthData_begin random (world p) with
      | (w, settled _) => {| world := w; inFlight := inFlight p |}
      | (w, suspended mock) =>
          {| world := w; inFlight := inFlight p ++ [mock] |}
      end
  | timerFired k now =>
      match nth_error (inFlight p) k with
      | Some mock =>
          {| world := fst (syncHealthData_resume mock now (world p));
             inFlight := removeNth k (inFlight p) |}
      | None => p
      end
  | statusAnswered response now =>
      {| world := fetchHealthStatus_resume response now (world p);
         inFlight := inFlight p |}
  end.

Definition run (events : list Event) (p : Page) : Page :=
  fold_left step events p.

(** The page after loading: the initial [healthState], no sync
    suspended. *)
Definition loaded (app : AppState) : Page :=
  {| world := {| healthState := initialHealthState; state := app |};
     inFlight := [] |}.

End Host.

(** The page's invariant: [isSyncing] is set exactly while one sync is
    suspended. *)
Definition oneInFlight (p : Page) : Prop :=
  if isSyncing (healthState (world p))
  then exists mock, inFlight p = [mock]
  else inFlight p = [].

End Sync.

(** ** Sample inputs *)

Module Samples.

Definition device : DeviceInfo.t :=
  {| DeviceInfo.model := "iPhone";
     DeviceInfo.systemVersion := "17.0";
     DeviceInfo.identifierForVendor := "unknown" |}.

(** A record of day [0], collected at time [0]. *)
Definition record (steps calories distance : Q)
    (workouts : list WorkoutData.t) (readings : list HeartRateReading.t)
    : RawHealthData.t :=
  {| RawHealthData.date := 0;
     RawHealthData.steps := steps;
     RawHealthData.calories := calories;
     RawHealthData.distance := distance;
     RawHealthData.workouts := workouts;
     RawHealthData.heartRateReadings := readings;
     RawHealthData.deviceInfo := device;
     RawHealthData.timestamp := 0 |}.

(** A clock that stands at [t]. *)
Definition clockAt (t : Date) : nat -> Date := fun _ => t.

(** Nothing recorded. *)
Definition idle : RawHealthData.t := record 0 0 0 [] [].

(** No steps, no calories, one heart-rate reading of 20 bpm. *)
Definition lowPulse : RawHealthData.t :=
  record 0 0 0 []
    [ {| HeartRateReading.bpm := 20; HeartRateReading.timestamp := 0 |} ].



(** A HealthKit store of day [0]: two heart-rate samples, entered out
    of order, and two workouts; no steps, energy or distance. *)
Definition pulseAt (t bpm : Q) : HealthKit.HKQuantitySample.t :=
  {| HealthKit.HKQuantitySample.quantityType := HealthKit.heartRate;
     HealthKit.HKQuantitySample.startDate := t;
     HealthKit.HKQuantitySample.quantity := bpm |}.

Definition workoutAt (t : Q) : HealthKit.HKWorkout.t :=
  {| HealthKit.HKWorkout.workoutActivityType := 37;
     HealthKit.HKWorkout.duration := 60;
     HealthKit.HKWorkout.totalEnergyBurned := Some 10;
     HealthKit.HKWorkout.totalDistance := None;
     HealthKit.HKWorkout.startDate := t;
     HealthKit.HKWorkout.endDate := t + 60;
     HealthKit.HKWorkout.source := "com.example.run" |}.

Definition store : HealthKit.HKHealthStore.t :=
  {| HealthKit.HKHealthStore.quantitySamples :=
       [pulseAt 300 70; pulseAt 200 60];
     HealthKit.HKHealthStore.workouts := [workoutAt 10; workoutAt 20];
     HealthKit.HKHealthStore.failure := fun _ => None |}.

Definition phone : Manager.UIDevice.t :=
  {| Manager.UIDevice.model := "iPhone";
     Manager.UIDevice.systemVersion := "17.0";
     Manager.UIDevice.identifierForVendor := None |}.

(** Stand-ins for the encoder, the MAC and the base-64 printer, to run
    the signer on. *)
Definition plainEncode (rawData : RawHealthData.t) : Data := [].
Definition plainCode (message key : Data) : Data := (message ++ key)%list.
Definition plainString (bytes : Data) : string := string_of_list_byte bytes.

(** What the aggregator builds from [store] when the clock stands at
    [t]. *)
Definition aggregated (t : Date) : RawHealthData.t :=
  {| RawHealthData.date := 0;
     RawHealthData.steps := 0;
     RawHealthData.calories := 0;
     RawHealthData.distance := 0;
     RawHealthData.workouts :=
       [Manager.toWorkoutData (workoutAt 20);
        Manager.toWorkoutData (workoutAt 10)];
     RawHealthData.heartRateReadings :=
       [ {| HeartRateReading.bpm := 60; HeartRateReading.timestamp := 200 |};
         {| HeartRateReading.bpm := 70; HeartRateReading.timestamp := 300 |} ];
     RawHealthData.deviceInfo := Manager.getDeviceInfo phone;
     RawHealthData.timestamp := t |}.

(** Host functions that never throw, and a host whose [saveState]
    throws (its storage is full). *)
Definition neverThrows (f : Sync.External) (w : Sync.World) : bool := false.
Definition storageFull (f : Sync.External) (w : Sync.World) : bool :=
  match f with
  | Sync.saveState => true
  | _ => false
  end.

(** [Math.random()] returning [0] at every draw. *)
Definition zeroDraws : nat -> Q := fun _ => 0.

(** The host page's scores before the sync. *)
Definition scores : Sync.AppState :=
  {| Sync.userScore := 100; Sync.weekPoints := 40 |}.

(** The page after one call of [syncHealthData]: the sync is suspended
    at its [await]. *)
Definition syncing (throws : Sync.External -> Sync.World -> bool)
    : Sync.Page :=
  Sync.run throws [Sync.syncRequested zeroDraws] (Sync.loaded scores).

(** The world while that sync is suspended, and the world once its
    timer has fired at time 2000 and the sync has run to its end. *)
Definition suspendedWorld (throws : Sync.External -> Sync.World -> bool)
    : Sync.World :=
  Sync.world (syncing throws).
Definition completedWorld (throws : Sync.External -> Sync.World -> bool)
    : Sync.World :=
  fst (Sync.syncHealthData_resume throws (Sync.drawMockData zeroDraws) 2000
         (suspendedWorld throws)).

End Samples.

(** ** Double arithmetic

    The values of a Swift [Double] and of a JavaScript number: the
    finite ones by their exact rational value, the two infinities and
    NaN.  Every arithmetic operation rounds its exact result to the
    nearest value of the binary64 format, a tie going to the even
    significand, and overflows to an infinity; a comparison with NaN is
    false.  The sign of a zero is not kept: dividing by zero gives the
    infinity of the sign of the dividend.  A [finite q] stands for a
    double when [q] is one; the operations return doubles on every
    argument. *)

Module Double.

Inductive t : Type :=
| finite (q : Q)
| infinity (negative : bool)
| nan.

(** [2 ^ k] *)
Definition pow2 (k : Z) : Q := Qpower 2 k.

(** The binary exponent of [a > 0]: the [e] with
    [2 ^ e <= a < 2 ^ (e + 1)]. *)
Definition exponent (a : Q) : Z :=
  let k := (Z.log2 (Qnum a) - Z.log2 (Zpos (Qden a)))%Z in
  if Qle_bool (pow2 k) a then k else (k - 1)%Z.

(** The whole number nearest to [y >= 0], a tie going to the even
    one. *)
Definition nearestEven (y : Q) : Z :=
  let f := Qfloor y in
  match Qcompare (y - inject_Z f) (1 # 2) with
  | Lt => f
  | Gt => (f + 1)%Z
  | Eq => if Z.even f then f else (f + 1)%Z
  end.

(** Rounding to binary64: 53 significant bits, the exponent of the
    last bit not under [-1074], an infinity from [2 ^ 1024] on. *)
Definition round (x : Q) : t :=
  if Qeq_bool x 0 then finite 0
  else
    let a := Qabs x in
    let q := (Z.max (exponent a) (-1022) - 52)%Z in
    let r := Qred (inject_Z (nearestEven (a / pow2 q)) * pow2 q) in
    if Qle_bool (pow2 1024) r then infinity (negb (Qle_bool 0 x))
    else finite (if Qle_bool 0 x then r else - r).

(** [q < 0] *)
Definition negative (q : Q) : bool := negb (Qle_bool 0 q).

(** [-x] *)
Definition neg (x : t) : t :=
  match x with
  | finite q => finite (- q)
  | infinity s => infinity (negb s)
  | nan => nan
  end.

(** [abs(x)] *)
Definition abs (x : t) : t :=
  match x with
  | finite q => finite (Qabs q)
  | infinity _ => infinity false
  | nan => nan
  end.

(** [x + y] *)
Definition add (x y : t) : t :=
  match x, y with
  | nan, _ => nan
  | _, nan => nan
  | infinity s, infinity s' => if Bool.eqb s s' then infinity s else nan
  | infinity s, finite _ => infinity s
  | finite _, infinity s => infinity s
  | finite a, finite b => round (a + b)
  end.

(** [x - y] *)
Definition sub (x y : t) : t := add x (neg y).

(** [x * y] *)
Definition mul (x y : t) : t :=
  match x, y with
  | nan, _ => nan
  | _, nan => nan
  | infinity s, infinity s' => infinity (xorb s s')
  | infinity s, finite b =>
      if Qeq_bool b 0 then nan else infinity (xorb s (negative b))
  | finite a, infinity s =>
      if Qeq_bool a 0 then nan else infinity (xorb (negative a) s)
  | finite a, finite b => round (a * b)
  end.

(** [x / y] *)
Definition div (x y : t) : t :=
  match x, y with
  | nan, _ => nan
  | _, nan => nan
  | infinity _, infinity _ => nan
  | infinity s, finite b => infinity (xorb s (negative b))
  | finite _, infinity _ => finite 0
  | finite a, finite b =>
      if Qeq_bool b 0
      then if Qeq_bool a 0 then nan else infinity (negative a)
      else round (a / b)
  end.

(** [x < y] *)
Definition ltb (x y : t) : bool :=
  match x, y with
  | nan, _ => false
  | _, nan => false
  | infinity s, infinity s' => s && negb s'
  | infinity s, finite _ => s
  | finite _, infinity s => negb s
  | finite a, finite b => negb (Qle_bool b a)
  end.

(** [x > y] *)
Definition gtb (x y : t) : bool := ltb y x.

(** [x == y] *)
Definition eqb (x y : t) : bool :=
  match x, y with
  | finite a, finite b => Qeq_bool a b
  | infinity s, infinity s' => Bool.eqb s s'
  | _, _ => false
  end.

(** [x.isFinite] *)
Definition isFinite (x : t) : bool :=
  match x with
  | finite _ => true
  | _ => false
  end.

(** [2 ^ -53]: what the greatest double under 1 is short of 1. *)
Definition halfUlp : Q := 1 # 9007199254740992.

(** [2 ^ -1075]: half the least double above zero. *)
Definition tiny : Q := pow2 (-1075).

(** [2 ^ -50] *)
Definition sliver : Q := 1 # 1125899906842624.

(** The double of a whole number (one of at most 53 bits). *)
Definition ofZ (n : Z) : t := finite (inject_Z n).

(** [Math.floor(x)] *)
Definition floor (x : t) : t :=
  match x with
  | finite q => finite (inject_Z (Qfloor q))
  | _ => x
  end.

(** [Math.round(x)]: the nearest whole number, a tie going towards plus
    infinity. *)
Definition roundHalfUp (x : t) : t :=
  match x with
  | finite q => finite (inject_Z (Qfloor (q + (1 # 2))))
  | _ => x
  end.

(** JavaScript [x || 0] on a number: [0] and NaN are falsy. *)
Definition or_zero (x : t) : t :=
  match x with
  | finite q => if Qeq_bool q 0 then finite 0 else x
  | infinity _ => x
  | nan => finite 0
  end.

(** [x] and [y] are the same value of the model. *)
Definition same (x y : t) : bool :=
  match x, y with
  | finite a, finite b =>
      Z.eqb (Qnum a) (Qnum b) && Pos.eqb (Qden a) (Qden b)
  | infinity s, infinity s' => Bool.eqb s s'
  | nan, nan => true
  | _, _ => false
  end.

(** [x] is NaN or not above [c]; NaN or not below [c]. *)
Definition notAbove (c : Q) (x : t) : Prop :=
  match x with
  | finite q => q <= c
  | infinity s => s = true
  | nan => True
  end.

Definition notBelow (c : Q) (x : t) : Prop :=
  match x with
  | finite q => c <= q
  | infinity s => s = false
  | nan => True
  end.

End Double.

(** ** The code in double arithmetic

    The records, the validator, the fetchers and the signer of
    [HealthKitManager], and [calculateHealthPoints], once more, with
    every [Double] and every JavaScript number a [Double.t] and every
    operation on them rounded: the text of the source, read with the
    arithmetic of its number type.  Every numeric literal of the two
    sources is a double.  Dates are only compared and stay exact. *)

Module IEEE.

Module WorkoutData.
Record t : Type := mk {
  type : N;
  duration : Double.t;
  calories : Double.t;
  distance : Double.t;
  startDate : Date;
  endDate : Date;
  source : string
}.
End WorkoutData.

Module HeartRateReading.
Record t : Type := mk {
  bpm : Double.t;
  timestamp : Date
}.
End HeartRateReading.

Module RawHealthData.
Record t : Type := mk {
  date : Date;
  steps : Double.t;
  calories : Double.t;
  distance : Double.t;
  workouts : list WorkoutData.t;
  heartRateReadings : list HeartRateReading.t;
  deviceInfo : DeviceInfo.t;
  timestamp : Date
}.
End RawHealthData.

Module VerifiedHealthData.
Record t : Type := mk {
  rawData : RawHealthData.t;
  signature : string;
  version : string
}.
End VerifiedHealthData.

(** A literal of the source. *)
Definition literal (q : Q) : Double.t := Double.finite q.

(** The loop of rule 3; [now k] is the reading of the [k]-th call of
    [Date()]. *)
Fixpoint validateWorkouts (now : nat -> Date) (k : nat)
    (workouts : list WorkoutData.t) : Result unit :=
  match workouts with
  | [] => Ok tt
  | workout :: rest =>
      do throwIf (Double.gtb (WorkoutData.duration workout) (literal 86400))
                 Validator.reasonDuration ;;
      do throwIf (Num.gtb (WorkoutData.startDate workout) (now k))
                 Validator.reasonFuture ;;
      validateWorkouts now (S k) rest
  end.

(** The loop of rule 4. *)
Fixpoint validateHeartRates (readings : list HeartRateReading.t)
    : Result unit :=
  match readings with
  | [] => Ok tt
  | reading :: rest =>
      do throwIf (Double.ltb (HeartRateReading.bpm reading) (literal 30)
                  || Double.gtb (HeartRateReading.bpm reading) (literal 250))
                 Validator.reasonHeartRate ;;
      validateHeartRates rest
  end.

(** [data.workouts.reduce(0.0) { $0 + $1.calories }] *)
Definition workoutCalories (data : RawHealthData.t) : Double.t :=
  fold_left (fun acc w => Double.add acc (WorkoutData.calories w))
            (RawHealthData.workouts data) (literal 0).

(** [data.steps * 0.75] *)
Definition expectedDistance (data : RawHealthData.t) : Double.t :=
  Double.mul (RawHealthData.steps data) (literal (75 # 100)).

(** [abs(data.distance - expectedDistance) / expectedDistance] *)
Definition distanceVariance (data : RawHealthData.t) : Double.t :=
  Double.div
    (Double.abs (Double.sub (RawHealthData.distance data)
                            (expectedDistance data)))
    (expectedDistance data).

(** [data.steps > 1000 && distanceVariance > 0.5] *)
Definition correlationCheck (data : RawHealthData.t) : bool :=
  Double.gtb (RawHealthData.steps data) (literal 1000)
  && Double.gtb (distanceVariance data) (literal (5 # 10)).

(** [data.calories > 0 && workoutCalories == 0 && data.steps < 100] *)
Definition caloriesCheck (data : RawHealthData.t) : bool :=
  Double.gtb (RawHealthData.calories data) (literal 0)
  && Double.eqb (workoutCalories data) (literal 0)
  && Double.ltb (RawHealthData.steps data) (literal 100).

(** [validateDataConsistency] *)
Definition validateDataConsistency (now : nat -> Date)
    (data : RawHealthData.t) : Result unit :=
  (* 1. steps vs distance correlation *)
  do throwIf (correlationCheck data) Validator.reasonCorrelation ;;
  (* 2. calories vs activity *)
  do throwIf (caloriesCheck data) Validator.reasonCalories ;;
  (* 3. workout data *)
  do validateWorkouts now 0 (RawHealthData.workouts data) ;;
  (* 4. heart rate readings *)
  do validateHeartRates (RawHealthData.heartRateReadings data) ;;
  (* 5. impossibly high values *)
  do throwIf (Double.gtb (RawHealthData.steps data) (literal 100000))
             Validator.reasonSteps ;;
  do throwIf (Double.gtb (RawHealthData.calories data) (literal 10000))
             Validator.reasonCalorieBurn ;;
  Ok tt.

(** The variance of rule 1 in exact arithmetic, on finite values:
    [|distance - 0.75 * steps| / (0.75 * steps)]. *)
Definition exactVariance (steps distance : Q) : Q :=
  Qabs (distance - (75 # 100) * steps) / ((75 # 100) * steps).

(** [HKQuantitySample], [HKWorkout] and [HKHealthStore], with their
    quantities in doubles. *)
Module HKQuantitySample.
Record t : Type := mk {
  quantityType : HealthKit.HKQuantityTypeIdentifier;
  startDate : Date;
  quantity : Double.t
}.
End HKQuantitySample.

Module HKWorkout.
Record t : Type := mk {
  workoutActivityType : N;
  duration : Double.t;
  totalEnergyBurned : option Double.t;
  totalDistance : option Double.t;
  startDate : Date;
  endDate : Date;
  source : string
}.
End HKWorkout.

Module HKHealthStore.
Record t : Type := mk {
  quantitySamples : list HKQuantitySample.t;
  workouts : list HKWorkout.t;
  failure : HealthKit.SampleType -> option Z
}.
End HKHealthStore.

(** The predicate of the query of [fetchSamples]: the type asked for,
    and a start within [[start, finish)]. *)
Definition matching (type : HealthKit.HKQuantityTypeIdentifier)
    (start finish : Date) (s : HKQuantitySample.t) : bool :=
  HealthKit.sameType (HKQuantitySample.quantityType s) type
  && HealthKit.predicateForSamples start finish (HKQuantitySample.startDate s).

(** [HKSampleQueryDescriptor(...).result(for: healthStore)], by the
    documented contract of HealthKit: the samples that satisfy the
    predicate, sorted by the sort descriptor; or an error. *)
Definition quantityResult (healthStore : HKHealthStore.t)
    (type : HealthKit.HKQuantityTypeIdentifier) (start finish : Date)
    (order : HealthKit.SortOrder) : Result (list HKQuantitySample.t) :=
  match HKHealthStore.failure healthStore (HealthKit.quantitySample type) with
  | Some code => Throw (queryError code)
  | None =>
      Ok (HealthKit.sorted HKQuantitySample.startDate order
            (filter (matching type start finish)
                    (HKHealthStore.quantitySamples healthStore)))
  end.

Definition workoutResult (healthStore : HKHealthStore.t)
    (start finish : Date) (order : HealthKit.SortOrder)
    : Result (list HKWorkout.t) :=
  match HKHealthStore.failure healthStore HealthKit.workout with
  | Some code => Throw (queryError code)
  | None =>
      Ok (HealthKit.sorted HKWorkout.startDate order
            (filter (fun w => HealthKit.predicateForSamples start finish
                                (HKWorkout.startDate w))
                    (HKHealthStore.workouts healthStore)))
  end.

(** Whether every [Double] of a record is finite: what [JSONEncoder]
    needs, which throws on any other under its default strategy. *)
Definition finiteWorkout (w : WorkoutData.t) : bool :=
  Double.isFinite (WorkoutData.duration w)
  && Double.isFinite (WorkoutData.calories w)
  && Double.isFinite (WorkoutData.distance w).

Definition allFinite (rawData : RawHealthData.t) : bool :=
  Double.isFinite (RawHealthData.steps rawData)
  && Double.isFinite (RawHealthData.calories rawData)
  && Double.isFinite (RawHealthData.distance rawData)
  && forallb finiteWorkout (RawHealthData.workouts rawData)
  && forallb (fun r => Double.isFinite (HeartRateReading.bpm r))
             (RawHealthData.heartRateReadings rawData).

Section HealthKitManager.

(** [Calendar.current] *)
Variable startOfDay : Date -> Date.
Variable addingOneDay : Date -> Date.

(** The bytes [JSONEncoder] writes for a record it can encode. *)
Variable serialize : RawHealthData.t -> Data.

(** [HMAC<SHA256>.authenticationCode(for:using:)] and
    [base64EncodedString()]. *)
Variable authenticationCode : Data -> Data -> Data.
Variable base64EncodedString : Data -> string.

(** [private let signingKey: String] *)
Variable signingKey : string.

(** [try encoder.encode(rawData)] *)
Definition encode (rawData : RawHealthData.t) : Result Data :=
  if allFinite rawData then Ok (serialize rawData) else Throw encodingError.

(** [fetchSamples(for:on:)] *)
Definition fetchSamples (healthStore : HKHealthStore.t)
    (type : HealthKit.HKQuantityTypeIdentifier) (date : Date)
    : Result (list HKQuantitySample.t) :=
  let startOfDay := startOfDay date in
  let endOfDay := addingOneDay startOfDay in
  quantityResult healthStore type startOfDay endOfDay HealthKit.forward.

(** [samples.reduce(0.0) { sum, sample in sum + sample.quantity... }] *)
Definition total (samples : list HKQuantitySample.t) : Double.t :=
  fold_left
    (fun sum sample => Double.add sum (HKQuantitySample.quantity sample))
    samples (literal 0).

Definition fetchSteps (healthStore : HKHealthStore.t) (date : Date)
    : Result Double.t :=
  samples <- fetchSamples healthStore HealthKit.stepCount date ;;
  Ok (total samples).

Definition fetchCalories (healthStore : HKHealthStore.t) (date : Date)
    : Result Double.t :=
  samples <- fetchSamples healthStore HealthKit.activeEnergyBurned date ;;
  Ok (total samples).

Definition fetchDistance (healthStore : HKHealthStore.t) (date : Date)
    : Result Double.t :=
  samples <- fetchSamples healthStore HealthKit.distanceWalkingRunning date ;;
  Ok (total samples).

(** [x ?? 0] *)
Definition orZero (x : option Double.t) : Double.t :=
  match x with
  | Some v => v
  | None => literal 0
  end.

Definition toWorkoutData (workout : HKWorkout.t) : WorkoutData.t :=
  {| WorkoutData.type := HKWorkout.workoutActivityType workout;
     WorkoutData.duration := HKWorkout.duration workout;
     WorkoutData.calories := orZero (HKWorkout.totalEnergyBurned workout);
     WorkoutData.distance := orZero (HKWorkout.totalDistance workout);
     WorkoutData.startDate := HKWorkout.startDate workout;
     WorkoutData.endDate := HKWorkout.endDate workout;
     WorkoutData.source := HKWorkout.source workout |}.

(** [fetchWorkouts(for:)] *)
Definition fetchWorkouts (healthStore : HKHealthStore.t) (date : Date)
    : Result (list WorkoutData.t) :=
  let startOfDay := startOfDay date in
  let endOfDay := addingOneDay startOfDay in
  workouts <- workoutResult healthStore startOfDay endOfDay
                HealthKit.reverse ;;
  Ok (map toWorkoutData workouts).

(** [fetchHeartRateReadings(for:)] *)
Definition fetchHeartRateReadings (healthStore : HKHealthStore.t)
    (date : Date) : Result (list HeartRateReading.t) :=
  samples <- fetchSamples healthStore HealthKit.heartRate date ;;
  Ok (map (fun sample =>
             {| HeartRateReading.bpm := HKQuantitySample.quantity sample;
                HeartRateReading.timestamp :=
                  HKQuantitySample.startDate sample |})
          samples).

(** [createVerifiedData(from:)] *)
Definition createVerifiedData (rawData : RawHealthData.t)
    : Result VerifiedHealthData.t :=
  jsonData <- encode rawData ;;
  let key := list_byte_of_string signingKey in
  let signature := authenticationCode jsonData key in
  let signatureString := base64EncodedString signature in
  Ok {| VerifiedHealthData.rawData := rawData;
        VerifiedHealthData.signature := signatureString;
        VerifiedHealthData.version := "1.0" |}.

(** The first half of [fetchVerifiedHealthData]: the five fetches and
    the record built from them; [healthStore k] is the store as the
    [k]-th query finds it, and [now 0] the reading of [Date()] for
    [timestamp]. *)
Definition aggregate (healthStore : nat -> HKHealthStore.t)
    (device : Manager.UIDevice.t) (now : nat -> Date) (date : Date)
    : Result RawHealthData.t :=
  steps <- fetchSteps (healthStore 0%nat) date ;;
  calories <- fetchCalories (healthStore 1%nat) date ;;
  distance <- fetchDistance (healthStore 2%nat) date ;;
  workouts <- fetchWorkouts (healthStore 3%nat) date ;;
  heartRateReadings <- fetchHeartRateReadings (healthStore 4%nat) date ;;
  Ok {| RawHealthData.date := date;
        RawHealthData.steps := steps;
        RawHealthData.calories := calories;
        RawHealthData.distance := distance;
        RawHealthData.workouts := workouts;
        RawHealthData.heartRateReadings := heartRateReadings;
        RawHealthData.deviceInfo := Manager.getDeviceInfo device;
        RawHealthData.timestamp := now 0%nat |}.

(** [fetchVerifiedHealthData(for:)] *)
Definition fetchVerifiedHealthData (healthStore : nat -> HKHealthStore.t)
    (device : Manager.UIDevice.t) (now : nat -> Date) (date : Date)
    : Result VerifiedHealthData.t :=
  steps <- fetchSteps (healthStore 0%nat) date ;;
  calories <- fetchCalories (healthStore 1%nat) date ;;
  distance <- fetchDistance (healthStore 2%nat) date ;;
  workouts <- fetchWorkouts (healthStore 3%nat) date ;;
  heartRateReadings <- fetchHeartRateReadings (healthStore 4%nat) date ;;
  let rawData :=
    {| RawHealthData.date := date;
       RawHealthData.steps := steps;
       RawHealthData.calories := calories;
       RawHealthData.distance := distance;
       RawHealthData.workouts := workouts;
       RawHealthData.heartRateReadings := heartRateReadings;
       RawHealthData.deviceInfo := Manager.getDeviceInfo device;
       RawHealthData.timestamp := now 0%nat |} in
  do validateDataConsistency (Manager.afterTimestamp now) rawData ;;
  verifiedData <- createVerifiedData rawData ;;
  Ok verifiedData.

End HealthKitManager.

(** [calculateHealthPoints] of [src/healthApiIntegration.js]. *)
Module Points.

Record HealthData := mkHealthData {
  steps : Double.t;
  calories : Double.t;
  distance : Double.t;
  workouts : Double.t
}.

Definition calculateHealthPoints (data : HealthData) : Double.t :=
  let points := literal 0 in
  (* steps: 1 point per 1000 steps *)
  let points :=
    Double.add points (Double.floor (Double.div (steps data) (literal 1000)))
  in
  (* calories: 1 point per 100 calories *)
  let points :=
    Double.add points
      (Double.floor (Double.div (calories data) (literal 100))) in
  (* workouts: 5 points per workout *)
  let points :=
    Double.add points (Double.mul (Double.or_zero (workouts data)) (literal 5))
  in
  (* distance bonus: 2 points per km over 5 km *)
  let points :=
    if Double.gtb (distance data) (literal 5)
    then Double.add points
           (Double.mul (Double.sub (distance data) (literal 5)) (literal 2))
    else points in
  Double.div (Double.roundHalfUp (Double.mul points (literal 10)))
             (literal 10).

End Points.

(** The [mockData] of [syncHealthData]; [random k] is the [k]-th draw
    of [Math.random()]. *)
Definition drawMockData (random : nat -> Double.t) : Points.HealthData :=
  {| Points.steps :=
       Double.add (Double.floor (Double.mul (random 0%nat) (literal 5000)))
                  (literal 7000);
     Points.calories :=
       Double.add (Double.floor (Double.mul (random 1%nat) (literal 300)))
                  (literal 400);
     Points.distance :=
       Double.add (Double.floor (Double.mul (random 2%nat) (literal 3)))
                  (literal 5);
     Points.workouts :=
       Double.add (Double.floor (Double.mul (random 3%nat) (literal 2)))
                  (literal 1) |}.

End IEEE.

(** ** Further code of the two sources *)

(** [HealthKitError.errorDescription] *)
Definition errorDescription (e : HealthKitError) : option string :=
  match e with
  | notAvailable =>
      Some "HealthKit is not available on this device"%string
  | inconsistentData reason =>
      Some ("Data validation failed: " ++ reason)%string
  | unauthorized => Some "HealthKit access not authorized"%string
  end.

(** The decimal digits of a whole number, as a template literal prints
    it. *)
Definition digits (n : Z) : string := NilZero.string_of_int (Z.to_int n).

(** [updateHealthUI] and [formatTimeAgo]
    ([src/healthApiIntegration.js]). *)
Module Card.

(** What [formatTimeAgo] tells: nothing, "just now", or a count of
    minutes, hours or days. *)
Inductive TimeAgo : Type :=
| blank
| justNow
| minutesAgo (n : Z)
| hoursAgo (n : Z)
| daysAgo (n : Z).

(** The branches of [formatTimeAgo]; [now] is [new Date()], and dates
    are in milliseconds, as [new Date() - date] is. *)
Definition timeAgo (now : Date) (date : option Date) : TimeAgo :=
  match date with
  | None => blank
  | Some date =>
      let seconds := Qfloor ((now - date) / 1000) in
      if (seconds <? 60)%Z then justNow
      else if (seconds <? 3600)%Z then minutesAgo (seconds / 60)
      else if (seconds <? 86400)%Z then hoursAgo (seconds / 3600)
      else daysAgo (seconds / 86400)
  end.

(** The text of each branch. *)
Definition text (t : TimeAgo) : string :=
  match t with
  | blank => ""
  | justNow => "just now"
  | minutesAgo n => digits n ++ "m ago"
  | hoursAgo n => digits n ++ "h ago"
  | daysAgo n => digits n ++ "d ago"
  end.

(** [formatTimeAgo(date)] *)
Definition formatTimeAgo (now : Date) (date : option Date) : string :=
  text (timeAgo now date).

(** The status badge of the card. *)
Inductive Badge : Type :=
| badgeSyncing
| badgeSynced (ago : string)
| badgeFailed
| badgeNotSynced.

(** The text under the button. *)
Inductive Info : Type := infoDownload | infoVerified | infoConnection.

(** What [updateHealthUI] writes into the card: the badge, the points
    shown under the four metrics, whether the button is disabled, the
    bonus (shown when above zero) and the text under the button. *)
Record t : Type := mk {
  badge : Badge;
  stepsPts : Q;
  caloriesPts : Q;
  distancePts : Q;
  workoutPts : Q;
  disabled : bool;
  bonus : option Q;
  info : Info
}.

(** [healthState.data.steps], [.calories], [.distance]. *)
Definition stepsOf (d : Sync.DataObject) : Q :=
  match d with
  | Sync.statusData steps _ _ => steps
  | Sync.mockData m => Points.steps m
  end.
Definition caloriesOf (d : Sync.DataObject) : Q :=
  match d with
  | Sync.statusData _ calories _ => calories
  | Sync.mockData m => Points.calories m
  end.
Definition distanceOf (d : Sync.DataObject) : Q :=
  match d with
  | Sync.statusData _ _ distance => distance
  | Sync.mockData m => Points.distance m
  end.

(** [(healthState.data.workouts || 0) * 5]; the empty array of the
    other shape of object is truthy and counts as [0] in the
    product. *)
Definition workoutsTimesFive (d : Sync.DataObject) : Q :=
  match d with
  | Sync.statusData _ _ _ => 0
  | Sync.mockData m => Num.or_zero (Points.workouts m) * 5
  end.

(** The card [updateHealthUI] renders from [healthState] at time
    [now]. *)
Definition render (now : Date) (h : Sync.HealthState) : t :=
  {| badge :=
       if Sync.isSyncing h then badgeSyncing
       else match Sync.status h with
            | Sync.synced => badgeSynced (formatTimeAgo now (Sync.lastSync h))
            | Sync.error => badgeFailed
            | Sync.notSynced => badgeNotSynced
            end;
     stepsPts := Num.floor (stepsOf (Sync.data h) / 1000);
     caloriesPts := Num.floor (caloriesOf (Sync.data h) / 100);
     distancePts :=
       if Num.gtb (distanceOf (Sync.data h)) 5
       then (distanceOf (Sync.data h) - 5) * 2
       else 0;
     workoutPts := workoutsTimesFive (Sync.data h);
     disabled := Sync.isSyncing h;
     bonus := if Num.gtb (Sync.points h) 0 then Some (Sync.points h)
              else None;
     info :=
       match Sync.status h with
       | Sync.notSynced => infoDownload
       | Sync.synced => infoVerified
       | Sync.error => infoConnection
       end |}.

End Card.

(** The API client of the web application ([src/webpage.jsx],
    [request]). *)
Module Api.

Section Request.

(** A parsed JSON object; [detail v] is the message that [new Error]
    makes of [v.detail] when that is truthy (the string itself, when it
    is a string that is not empty), and nothing when [v.detail] is
    falsy or missing; [emptyObject] is [{}]. *)
Variable Json : Type.
Variable detail : Json -> option string.
Variable emptyObject : Json.

(** A response: [ok], [status], whether its [content-length] header is
    the string [0], and what [response.json()] gives: the parsed body,
    or the message of the error it rejects with. *)
Record Response : Type := mkResponse {
  ok : bool;
  status : Z;
  contentLengthZero : bool;
  json : Json + string
}.

(** What a call of [fetch] gives: a response, or a rejection (the
    network failed). *)
Inductive Fetched : Type :=
| responded (r : Response)
| failed (message : string).

(** What [request] does that can be observed from outside. *)
Inductive Effect : Type :=
| fetchCalled
| waited (milliseconds : Z).

(** How the promise of [request] settles: with a value, or with an
    error of the given message. *)
Inductive Settled : Type :=
| returned (value : Json)
| thrown (message : string).

(** The retry loop, from iteration [i] with [more] iterations to
    follow: [fetch k] is what the [k]-th call of [fetch] gives.  It
    ends with the response held when the loop is left (the first that
    is ok, or the one of the last iteration), or with the rejection of
    [fetch], which leaves the [try] block at once. *)
Fixpoint attempts (fetch : nat -> Fetched) (i more : nat)
    : (Response + string) * list Effect :=
  match fetch i with
  | failed message => (inr message, [fetchCalled])
  | responded response =>
      if ok response then (inl response, [fetchCalled])
      else
        match more with
        | O =>
            (inl response, [fetchCalled; waited (2 ^ Z.of_nat i * 1000)])
        | S more' =>
            let (ended, effects) := attempts fetch (S i) more' in
            (ended,
             fetchCalled :: waited (2 ^ Z.of_nat i * 1000) :: effects)
        end
  end.

(** [errorData.detail || `API Request Failed with status ...`] *)
Definition failureMessage (errorData : Json) (response : Response)
    : string :=
  match detail errorData with
  | Some message => message
  | None => "API Request Failed with status " ++ digits (status response)
  end.

(** What [request] makes of the response it holds after the loop: it
    throws for one that is not ok, returns [{}] for one without
    content, and otherwise returns the parsed body. *)
Definition settle (response : Response) : Settled :=
  if negb (ok response) then
    match json response with
    | inl errorData => thrown (failureMessage errorData response)
    | inr message => thrown message
    end
  else if (status response =? 204)%Z || contentLengthZero response
  then returned emptyObject
  else match json response with
       | inl value => returned value
       | inr message => thrown message
       end.

(** [request(method, path, body)]: how it settles, and what it did.
    The loop runs for [i] from 0 to 2. *)
Definition request (fetch : nat -> Fetched) : Settled * list Effect :=
  match attempts fetch 0 2 with
  | (inr message, effects) => (thrown message, effects)
  | (inl response, effects) => (settle response, effects)
  end.

(** The calls of [fetch] and the time waited, in milliseconds. *)
Fixpoint fetches (effects : list Effect) : nat :=
  match effects with
  | [] => 0
  | fetchCalled :: rest => S (fetches rest)
  | waited _ :: rest => fetches rest
  end.

Fixpoint waiting (effects : list Effect) : Z :=
  match effects with
  | [] => 0
  | fetchCalled :: rest => waiting rest
  | waited ms :: rest => ms + waiting rest
  end.

(** The [k]-th call of [fetch] gives a response that is not ok. *)
Definition refused (fetch : nat -> Fetched) (k : nat) : bool :=
  match fetch k with
  | responded r => negb (ok r)
  | failed _ => false
  end.

End Request.

Arguments mkResponse {Json} ok status contentLengthZero json.
Arguments ok {Json} r.
Arguments status {Json} r.
Arguments contentLengthZero {Json} r.
Arguments json {Json} r.
Arguments responded {Json} r.
Arguments failed {Json} message.
Arguments returned {Json} value.
Arguments thrown {Json} message.
Arguments attempts {Json} fetch i more.
Arguments failureMessage {Json} detail errorData response.
Arguments settle {Json} detail emptyObject response.
Arguments request {Json} detail emptyObject fetch.
Arguments refused {Json} fetch k.

End Api.

(** The router and the authentication state of the web application
    ([src/webpage.jsx]). *)
Module Web.

(** What [useAuth()] gives the route guards:
    [isAuthenticated] is [!!user]. *)
Record Auth : Type := mkAuth {
  isAuthenticated : bool;
  loading : bool
}.

(** The routes of [App], by the [Route] the router matches; [other] is
    the route of path [*]. *)
Inductive Matched : Type :=
| root | loginPath | signupPath
| dashboardPath | leaguePath | matchupPath | insightsPath
| other.

(** What a route renders. *)
Inductive Element : Type :=
| Landing | Login | Signup
| Dashboard | League | Matchup | Insights
| Spinner
| Navigate (to : Matched).

(** [ProtectedRoute] *)
Definition ProtectedRoute (auth : Auth) (children : Element) : Element :=
  if loading auth then Spinner
  else if negb (isAuthenticated auth) then Navigate loginPath
  else children.

(** [PublicRoute] *)
Definition PublicRoute (auth : Auth) (children : Element) : Element :=
  if loading auth then Spinner
  else if isAuthenticated auth then Navigate dashboardPath
  else children.

(** The [Routes] of [App]. *)
Definition element (auth : Auth) (route : Matched) : Element :=
  match route with
  | root => Landing
  | loginPath => PublicRoute auth Login
  | signupPath => PublicRoute auth Signup
  | dashboardPath => ProtectedRoute auth Dashboard
  | leaguePath => ProtectedRoute auth League
  | matchupPath => ProtectedRoute auth Matchup
  | insightsPath => ProtectedRoute auth Insights
  | other => Navigate root
  end.

(** What is on the screen once the router has followed at most [hops]
    [Navigate] elements; [None] when it is still navigating. *)
Fixpoint shown (hops : nat) (auth : Auth) (route : Matched)
    : option Element :=
  match element auth route with
  | Navigate to =>
      match hops with
      | O => None
      | S hops' => shown hops' auth to
      end
  | e => Some e
  end.

(** A page that only an authenticated user may see. *)
Definition protected (e : Element) : bool :=
  match e with
  | Dashboard | League | Matchup | Insights => true
  | _ => false
  end.

(** The state of [useAuthProvider]: the token in [localStorage], and
    [user], [loading] and [error].  A user is known by name. *)
Record Provider : Type := mkProvider {
  token : option string;
  user : option string;
  providerLoading : bool;
  error : option string
}.

(** A string as a condition: the empty string is falsy. *)
Definition truthy (s : option string) : option string :=
  match s with
  | Some EmptyString => None
  | _ => s
  end.

(** The context value the guards read. *)
Definition auth (p : Provider) : Auth :=
  {| isAuthenticated := match user p with Some _ => true | None => false end;
     loading := providerLoading p |}.

(** The state after loading the page, with the token found in
    [localStorage]. *)
Definition initial (stored : option string) : Provider :=
  {| token := stored; user := None; providerLoading := true;
     error := None |}.

(** [fetchUser]; [me] is how [api.auth.getMe()] settles: the user, or
    the message of an error. *)
Definition fetchUser (me : string + string) (p : Provider) : Provider :=
  match me with
  | inl response =>
      {| token := token p; user := Some response;
         providerLoading := false; error := error p |}
  | inr _ =>
      {| token := None; user := None;
         providerLoading := false; error := error p |}
  end.

(** The effect run when the provider mounts. *)
Definition mount (me : string + string) (p : Provider) : Provider :=
  match truthy (token p) with
  | Some _ => fetchUser me p
  | None =>
      {| token := token p; user := user p;
         providerLoading := false; error := error p |}
  end.

(** [login] and [register], which differ in the request they make and
    in the message they fall back on; [answer] is how that request
    settles (the access token, or the message of an error).  The
    result is the new state and the boolean returned. *)
Definition signIn (fallback : string) (answer : string + string)
    (me : string + string) (p : Provider) : Provider * bool :=
  let p := {| token := token p; user := user p;
              providerLoading := providerLoading p; error := None |} in
  match answer with
  | inl access_token =>
      (fetchUser me
         {| token := Some access_token; user := user p;
            providerLoading := providerLoading p; error := error p |},
       true)
  | inr message =>
      ({| token := token p; user := user p;
          providerLoading := providerLoading p;
          error := Some (match truthy (Some message) with
                         | Some m => m
                         | None => fallback
                         end) |},
       false)
  end.

Definition login : string + string -> string + string -> Provider
                   -> Provider * bool :=
  signIn "Login failed".

Definition register : string + string -> string + string -> Provider
                      -> Provider * bool :=
  signIn "Registration failed".

(** [logout] *)
Definition logout (p : Provider) : Provider :=
  {| token := None; user := None;
     providerLoading := providerLoading p; error := error p |}.

End Web.

(** ** Further sample inputs *)

Module Cases.

(** What the validator reads of a workout: its duration, its calories
    and its start. *)
Definition validated (w : WorkoutData.t) : Q * (Q * Date) :=
  (WorkoutData.duration w, (WorkoutData.calories w, WorkoutData.startDate w)).

(** [Samples.aggregated 1000] with another day, device and collection
    time, and with workouts of another type, distance, source and an end
    before their start. *)
Definition backwards (w : WorkoutData.t) : WorkoutData.t :=
  {| WorkoutData.type := 1;
     WorkoutData.duration := WorkoutData.duration w;
     WorkoutData.calories := WorkoutData.calories w;
     WorkoutData.distance := 5;
     WorkoutData.startDate := WorkoutData.startDate w;
     WorkoutData.endDate := WorkoutData.startDate w - 1;
     WorkoutData.source := "" |}.

Definition relabelled : RawHealthData.t :=
  {| RawHealthData.date := 86400;
     RawHealthData.steps := 0;
     RawHealthData.calories := 0;
     RawHealthData.distance := 0;
     RawHealthData.workouts :=
       map backwards (RawHealthData.workouts (Samples.aggregated 1000));
     RawHealthData.heartRateReadings :=
       [ {| HeartRateReading.bpm := 60; HeartRateReading.timestamp := 0 |};
         {| HeartRateReading.bpm := 70; HeartRateReading.timestamp := 0 |} ];
     RawHealthData.deviceInfo := Samples.device;
     RawHealthData.timestamp := 5 |}.

(** A quantity sample is of the type asked for and starts within the
    day of [date]: the predicate of the query of [fetchSamples]. *)
Definition ofDay (startOfDay addingOneDay : Date -> Date)
    (type : HealthKit.HKQuantityTypeIdentifier) (date : Date)
    (s : HealthKit.HKQuantitySample.t) : bool :=
  HealthKit.sameType (HealthKit.HKQuantitySample.quantityType s) type
  && HealthKit.predicateForSamples (startOfDay date)
       (addingOneDay (startOfDay date))
       (HealthKit.HKQuantitySample.startDate s).

(** The first error in a list of query outcomes. *)
Fixpoint firstFailure (outcomes : list (option Z)) : option Z :=
  match outcomes with
  | [] => None
  | Some code :: _ => Some code
  | None :: rest => firstFailure rest
  end.

(** The outcomes of the five queries of [fetchVerifiedHealthData], in
    the order it makes them. *)
Definition queryOutcomes (healthStore : nat -> HealthKit.HKHealthStore.t)
    : list (option Z) :=
  [ HealthKit.HKHealthStore.failure (healthStore 0%nat)
      (HealthKit.quantitySample HealthKit.stepCount);
    HealthKit.HKHealthStore.failure (healthStore 1%nat)
      (HealthKit.quantitySample HealthKit.activeEnergyBurned);
    HealthKit.HKHealthStore.failure (healthStore 2%nat)
      (HealthKit.quantitySample HealthKit.distanceWalkingRunning);
    HealthKit.HKHealthStore.failure (healthStore 3%nat) HealthKit.workout;
    HealthKit.HKHealthStore.failure (healthStore 4%nat)
      (HealthKit.quantitySample HealthKit.heartRate) ].

(** A walk of day [0], its samples entered newest first, with a sample
    of the day before and one of the next day. *)
Definition stepsAt (t n : Q) : HealthKit.HKQuantitySample.t :=
  {| HealthKit.HKQuantitySample.quantityType := HealthKit.stepCount;
     HealthKit.HKQuantitySample.startDate := t;
     HealthKit.HKQuantitySample.quantity := n |}.

Definition storeOf (samples : list HealthKit.HKQuantitySample.t)
    (failure : HealthKit.SampleType -> option Z)
    : HealthKit.HKHealthStore.t :=
  {| HealthKit.HKHealthStore.quantitySamples := samples;
     HealthKit.HKHealthStore.workouts := [];
     HealthKit.HKHealthStore.failure := failure |}.

Definition walk : HealthKit.HKHealthStore.t :=
  storeOf [stepsAt 900 300; stepsAt (-5) 1000; stepsAt 100 200;
           Samples.pulseAt 50 60; stepsAt 86400 4000]
          (fun _ => None).

(** A store whose distance query fails with code 7 and whose workout
    query fails with code 9. *)
Definition failing : HealthKit.HKHealthStore.t :=
  storeOf []
    (fun type =>
       match type with
       | HealthKit.quantitySample HealthKit.distanceWalkingRunning =>
           Some 7%Z
       | HealthKit.workout => Some 9%Z
       | _ => None
       end).

(** A number without a fractional part. *)
Definition whole (x : Q) : Prop := exists n : Z, x == inject_Z n.

(** The draws of [Math.random()] lie in [[0, 1)]. *)
Definition unitDraws (random : nat -> Q) : Prop :=
  forall k, 0 <= random k /\ random k < 1.

(** The sum of the four contributions, before rounding. *)
Definition contributions (data : Points.HealthData) : Q :=
  Points.stepsPoints data + Points.caloriesPoints data
  + Points.workoutPoints data + Points.distanceBonusPoints data.

(** [a] has no field above the same field of [b]. *)
Definition noMoreThan (a b : Points.HealthData) : Prop :=
  Points.steps a <= Points.steps b /\
  Points.calories a <= Points.calories b /\
  Points.distance a <= Points.distance b /\
  Points.workouts a <= Points.workouts b.

(** The least and the greatest [mockData] a sync can draw. *)
Definition leastMock : Points.HealthData :=
  {| Points.steps := 7000; Points.calories := 400;
     Points.distance := 5; Points.workouts := 1 |}.
Definition greatestMock : Points.HealthData :=
  {| Points.steps := 11999; Points.calories := 699;
     Points.distance := 7; Points.workouts := 2 |}.


(** Draws of [Math.random()] that are all one half. *)
Definition halfDraws : nat -> Q := fun _ => 1 # 2.

(** A round: a call of [syncHealthData] and the timer of the sync it
    starts; [fst r] are the draws and [snd r] the time of completion. *)
Definition round (r : (nat -> Q) * Date) : list Sync.Event :=
  [Sync.syncRequested (fst r); Sync.timerFired 0 (snd r)].



(** The draws of every call of [syncHealthData] lie in [[0, 1)]. *)
Definition unitEvent (e : Sync.Event) : Prop :=
  match e with
  | Sync.syncRequested random => unitDraws random
  | _ => True
  end.

(** A server whose JSON bodies are a [detail] or nothing. *)
Definition body (detail : option string) : option string + string :=
  inl detail.

Definition busy : Api.Response (option string) :=
  Api.mkResponse false 503 false (body (Some "Try again later"%string)).
Definition broken : Api.Response (option string) :=
  Api.mkResponse false 500 false (body None).
Definition fine : Api.Response (option string) :=
  Api.mkResponse true 200 false (body (Some "hello"%string)).

(** A server that is busy twice and then answers; one that never
    answers well; a network that fails at the second call. *)
Definition recovering (k : nat) : Api.Fetched (option string) :=
  match k with
  | 0%nat | 1%nat => Api.responded busy
  | _ => Api.responded fine
  end.
Definition down (k : nat) : Api.Fetched (option string) := Api.responded broken.
Definition unplugged (k : nat) : Api.Fetched (option string) :=
  match k with
  | 0%nat => Api.responded busy
  | _ => Api.failed "Failed to fetch"
  end.

(** [request] against such a server. *)
Definition ask (fetch : nat -> Api.Fetched (option string))
    : Api.Settled (option string) * list Api.Effect :=
  Api.request (fun d : option string => Web.truthy d) None fetch.

(** A record of day [0] in doubles, collected at time [0]. *)
Definition measured (steps calories distance : Q)
    (workouts : list IEEE.WorkoutData.t)
    (readings : list IEEE.HeartRateReading.t) : IEEE.RawHealthData.t :=
  {| IEEE.RawHealthData.date := 0;
     IEEE.RawHealthData.steps := Double.finite steps;
     IEEE.RawHealthData.calories := Double.finite calories;
     IEEE.RawHealthData.distance := Double.finite distance;
     IEEE.RawHealthData.workouts := workouts;
     IEEE.RawHealthData.heartRateReadings := readings;
     IEEE.RawHealthData.deviceInfo := Samples.device;
     IEEE.RawHealthData.timestamp := 0 |}.

(** The double nearest to [4096 / 3]: 1365.3333333333333. *)
Definition thirds : Q := 6004799503160661 # 4398046511104.

(** 1365.3333333333333 steps over 1536 m: three quarters of the steps
    are just under 1024 and round to 1024. *)
Definition bandEdge : IEEE.RawHealthData.t := measured thirds 0 1536 [] [].

(** 2000 steps over 4000 m, 500 steps over 90 km, and 2000 steps over
    the expected 1500 m. *)
Definition longStride : IEEE.RawHealthData.t := measured 2000 0 4000 [] [].
Definition shortWalk : IEEE.RawHealthData.t := measured 500 0 90000 [] [].
Definition evenStride : IEEE.RawHealthData.t := measured 2000 0 1500 [] [].

(** Nothing recorded but one heart-rate reading that is NaN. *)
Definition noPulse : IEEE.RawHealthData.t :=
  measured 0 0 0 []
    [ {| IEEE.HeartRateReading.bpm := Double.nan;
         IEEE.HeartRateReading.timestamp := 0 |} ].

(** The greatest power of two among the doubles, [2 ^ 1023]. *)
Definition huge : Q := Double.pow2 1023.

(** A quantity sample that starts at [t] and holds [x]. *)
Definition countAt (type : HealthKit.HKQuantityTypeIdentifier) (t : Date)
    (x : Double.t) : IEEE.HKQuantitySample.t :=
  {| IEEE.HKQuantitySample.quantityType := type;
     IEEE.HKQuantitySample.startDate := t;
     IEEE.HKQuantitySample.quantity := x |}.

(** A store of quantity samples whose queries all answer. *)
Definition stock (samples : list IEEE.HKQuantitySample.t)
    : IEEE.HKHealthStore.t :=
  {| IEEE.HKHealthStore.quantitySamples := samples;
     IEEE.HKHealthStore.workouts := [];
     IEEE.HKHealthStore.failure := fun _ => None |}.

(** A store of day [0] with two distance samples of [2 ^ 1023] m, whose
    sum is beyond the doubles; and what the aggregator builds from it
    when the clock stands at [t]. *)
Definition overflowing : IEEE.HKHealthStore.t :=
  stock [countAt HealthKit.distanceWalkingRunning 10 (Double.finite huge);
         countAt HealthKit.distanceWalkingRunning 20 (Double.finite huge)].

Definition overflowed (t : Date) : IEEE.RawHealthData.t :=
  {| IEEE.RawHealthData.date := 0;
     IEEE.RawHealthData.steps := Double.finite 0;
     IEEE.RawHealthData.calories := Double.finite 0;
     IEEE.RawHealthData.distance := Double.infinity false;
     IEEE.RawHealthData.workouts := [];
     IEEE.RawHealthData.heartRateReadings := [];
     IEEE.RawHealthData.deviceInfo := Manager.getDeviceInfo Samples.phone;
     IEEE.RawHealthData.timestamp := t |}.

(** A stand-in for the bytes of the encoder. *)
Definition noBytes (rawData : IEEE.RawHealthData.t) : Data := [].

(** The sum of a list of whole numbers. *)
Definition sumZ (l : list Z) : Z := fold_right Z.add 0%Z l.

(** The samples of the store that the query of [fetchSamples] selects:
    those of the type asked for that start within the day of [date],
    in the order of the store. *)
Definition held (startOfDay addingOneDay : Date -> Date)
    (healthStore : IEEE.HKHealthStore.t)
    (type : HealthKit.HKQuantityTypeIdentifier) (date : Date)
    : list IEEE.HKQuantitySample.t :=
  filter (IEEE.matching type (startOfDay date)
            (addingOneDay (startOfDay date)))
         (IEEE.HKHealthStore.quantitySamples healthStore).

(** The walk of [walk], in doubles; and the same samples in another
    order. *)
Definition stroll : IEEE.HKHealthStore.t :=
  stock [countAt HealthKit.stepCount 900 (Double.ofZ 300);
         countAt HealthKit.stepCount (-5) (Double.ofZ 1000);
         countAt HealthKit.stepCount 100 (Double.ofZ 200);
         countAt HealthKit.heartRate 50 (Double.ofZ 60);
         countAt HealthKit.stepCount 86400 (Double.ofZ 4000)].

Definition strollShuffled : IEEE.HKHealthStore.t :=
  stock [countAt HealthKit.stepCount 86400 (Double.ofZ 4000);
         countAt HealthKit.stepCount 100 (Double.ofZ 200);
         countAt HealthKit.heartRate 50 (Double.ofZ 60);
         countAt HealthKit.stepCount 900 (Double.ofZ 300);
         countAt HealthKit.stepCount (-5) (Double.ofZ 1000)].

(** Distance samples of 0.1 m, 0.2 m and 0.3 m: the doubles nearest to
    those. *)
Definition tenths : list IEEE.HKQuantitySample.t :=
  [countAt HealthKit.distanceWalkingRunning 1 (Double.round (1 # 10));
   countAt HealthKit.distanceWalkingRunning 2 (Double.round (2 # 10));
   countAt HealthKit.distanceWalkingRunning 3 (Double.round (3 # 10))].

(** The whole numbers from [lo], [n] of them. *)
Definition span (lo : Z) (n : nat) : list Z :=
  map (fun i => (lo + Z.of_nat i)%Z) (seq 0 n).

(** [Math.floor(s / d)] in doubles is the quotient of the whole numbers
    [s] and [d]. *)
Definition quotientExact (d s : Z) : bool :=
  Double.same (Double.floor (Double.div (Double.ofZ s) (Double.ofZ d)))
              (Double.ofZ (s / d)).

(** A [mockData] of whole numbers, in doubles and in exact numbers. *)
Definition mock (s c d w : Z) : IEEE.Points.HealthData :=
  {| IEEE.Points.steps := Double.ofZ s;
     IEEE.Points.calories := Double.ofZ c;
     IEEE.Points.distance := Double.ofZ d;
     IEEE.Points.workouts := Double.ofZ w |}.
Definition exactMock (s c d w : Z) : Points.HealthData :=
  {| Points.steps := inject_Z s;
     Points.calories := inject_Z c;
     Points.distance := inject_Z d;
     Points.workouts := inject_Z w |}.

(** The double 0.6. *)
Definition sixTenths : Q := 5404319552844595 # 9007199254740992.

(** The double 5.175; and a day of 5.175 km with one workout, in
    doubles and in exact numbers. *)
Definition tieDistance : Q := 5826532017910579 # 1125899906842624.
Definition tie : IEEE.Points.HealthData :=
  {| IEEE.Points.steps := Double.finite 0;
     IEEE.Points.calories := Double.finite 0;
     IEEE.Points.distance := Double.finite tieDistance;
     IEEE.Points.workouts := Double.finite 1 |}.
Definition exactTie : Points.HealthData :=
  {| Points.steps := 0; Points.calories := 0;
     Points.distance := tieDistance; Points.workouts := 1 |}.

End Cases.

(** * Properties *)

(** ** Comparisons of numbers *)

Lemma gtb_lt (a b : Q) : Num.gtb a b = true <-> b < a.
Proof.
  unfold Num.gtb. rewrite negb_true_iff. split.
  - intro H. apply Qnot_le_lt. intro L.
    apply Qle_bool_iff in L. congruence.
  - intro H. destruct (Qle_bool a b) eqn:E; [|reflexivity].
    apply Qle_bool_iff in E. exfalso. exact (Qlt_not_le _ _ H E).
Qed.

Lemma gtb_le (a b : Q) : Num.gtb a b = false <-> a <= b.
Proof. unfold Num.gtb. rewrite negb_false_iff. apply Qle_bool_iff. Qed.

Lemma ltb_lt (a b : Q) : Num.ltb a b = true <-> a < b.
Proof. exact (gtb_lt b a). Qed.

Lemma eqb_eq (a b : Q) : Num.eqb a b = true <-> a == b.
Proof. apply Qeq_bool_iff. Qed.


(** ** Double arithmetic *)

(** Whole numbers. *)
Lemma pow2_whole (k : Z) : (0 <= k)%Z -> Double.pow2 k == inject_Z (2 ^ k).
Proof.
  intro H. unfold Double.pow2. symmetry. apply (Zpower_Qpower 2 k H).
Qed.

Lemma Qred_whole (n : Z) : Qred (inject_Z n) = inject_Z n.
Proof.
  unfold Qred, inject_Z.
  pose proof (Z.ggcd_gcd n 1) as G.
  pose proof (Z.ggcd_correct_divisors n 1) as D.
  destruct (Z.ggcd n 1) as [g [aa bb]]. simpl in G. simpl snd.
  rewrite Z.gcd_1_r in G. subst g. destruct D as [-> E].
  rewrite Z.mul_1_l in E. subst bb. rewrite Z.mul_1_l. reflexivity.
Qed.

Lemma nearestEven_whole (y : Q) (m : Z) :
  y == inject_Z m -> Double.nearestEven y = m.
Proof.
  intro H. unfold Double.nearestEven.
  assert (F : Qfloor y = m) by (rewrite (Qfloor_comp _ _ H); apply Qfloor_Z).
  rewrite F.
  assert (L : Qcompare (y - inject_Z m) (1 # 2) = Lt).
  { apply Qlt_alt. rewrite H. unfold Qminus. rewrite Qplus_opp_r.
    reflexivity. }
  rewrite L. reflexivity.
Qed.

(** A whole number of at most 53 bits is a double: rounding leaves it
    as it is. *)
Lemma round_whole (n : Z) :
  (Z.abs n < 2 ^ 53)%Z -> Double.round (inject_Z n) = Double.ofZ n.
Proof.
  intro B. unfold Double.round, Double.ofZ.
  destruct (Qeq_bool (inject_Z n) 0) eqn:Z0.
  { apply Qeq_bool_eq in Z0. unfold Qeq in Z0. simpl in Z0.
    rewrite Z.mul_1_r in Z0. subst n. reflexivity. }
  assert (N : n <> 0%Z).
  { intros ->. discriminate Z0. }
  change (Qabs (inject_Z n)) with (inject_Z (Z.abs n)).
  set (m := Z.abs n) in *.
  assert (M : (0 < m)%Z) by (subst m; lia).
  assert (K : (0 <= Z.log2 m <= 52)%Z).
  { split; [apply Z.log2_nonneg|].
    assert (Z.log2 m < 53)%Z by (apply Z.log2_lt_pow2; assumption). lia. }
  assert (E : Double.exponent (inject_Z m) = Z.log2 m).
  { unfold Double.exponent. simpl Qnum. simpl Qden.
    change (Z.log2 1) with 0%Z. rewrite Z.sub_0_r.
    assert (L : Qle_bool (Double.pow2 (Z.log2 m)) (inject_Z m) = true).
    { apply Qle_bool_iff. rewrite pow2_whole by lia.
      rewrite <- Zle_Qle. apply Z.log2_spec. exact M. }
    rewrite L. reflexivity. }
  rewrite E.
  replace (Z.max (Z.log2 m) (-1022) - 52)%Z with (- (52 - Z.log2 m))%Z by lia.
  set (j := (52 - Z.log2 m)%Z).
  assert (J : (0 <= j)%Z) by (subst j; lia).
  assert (P : Double.pow2 (- j) == / inject_Z (2 ^ j)).
  { unfold Double.pow2. rewrite Qpower_opp. apply Qinv_comp.
    symmetry. apply (Zpower_Qpower 2 j J). }
  assert (P0 : ~ inject_Z (2 ^ j) == 0).
  { intro H. rewrite <- (Qmult_1_r 0) in H. unfold Qeq in H. simpl in H.
    pose proof (Z.pow_pos_nonneg 2 j). lia. }
  assert (Y : inject_Z m / Double.pow2 (- j) == inject_Z (m * 2 ^ j)).
  { rewrite P, inject_Z_mult. field. exact P0. }
  rewrite (nearestEven_whole _ _ Y).
  assert (R : inject_Z (m * 2 ^ j) * Double.pow2 (- j) == inject_Z m).
  { rewrite P, inject_Z_mult. field. exact P0. }
  rewrite (Qred_complete _ _ R), Qred_whole.
  assert (O : Qle_bool (Double.pow2 1024) (inject_Z m) = false).
  { destruct (Qle_bool (Double.pow2 1024) (inject_Z m)) eqn:O; [|reflexivity].
    apply Qle_bool_iff in O. rewrite pow2_whole in O by lia.
    rewrite <- Zle_Qle in O.
    assert (2 ^ 53 < 2 ^ 1024)%Z by (apply Z.pow_lt_mono_r; lia). lia. }
  rewrite O.
  destruct (Qle_bool 0 (inject_Z n)) eqn:S.
  - apply Qle_bool_iff in S.
    f_equal. f_equal. subst m. apply Z.abs_eq.
    rewrite Zle_Qle. exact S.
  - assert (n < 0)%Z.
    { destruct (Z.lt_ge_cases n 0) as [L|L]; [exact L|].
      rewrite Zle_Qle in L. apply Qle_bool_iff in L.
      change (inject_Z 0) with 0 in L. congruence. }
    f_equal. unfold Qopp, inject_Z. simpl. f_equal. subst m. lia.
Qed.

Lemma plus_whole (a b : Z) : inject_Z a + inject_Z b = inject_Z (a + b).
Proof.
  unfold Qplus, inject_Z. simpl. rewrite !Z.mul_1_r. reflexivity.
Qed.

Lemma add_whole (a b : Z) :
  (Z.abs (a + b) < 2 ^ 53)%Z ->
  Double.add (Double.ofZ a) (Double.ofZ b) = Double.ofZ (a + b).
Proof.
  intro H. unfold Double.add, Double.ofZ. rewrite plus_whole.
  apply round_whole. exact H.
Qed.

Lemma pow2_pos (k : Z) : 0 < Double.pow2 k.
Proof. apply Qpower_0_lt. reflexivity. Qed.

(** The exponent of [a] is not too large: [2 ^ exponent a <= a]. *)
Lemma exponent_le (a : Q) : 0 < a -> Double.pow2 (Double.exponent a) <= a.
Proof.
  intro A. unfold Double.exponent.
  destruct a as [n d]. simpl Qnum. simpl Qden.
  assert (N : (0 < n)%Z).
  { unfold Qlt in A. simpl in A. lia. }
  set (k := (Z.log2 n - Z.log2 (Zpos d))%Z).
  destruct (Qle_bool (Double.pow2 k) (n # d)) eqn:L.
  - apply Qle_bool_iff. exact L.
  - clear L. subst k.
    pose proof (Z.log2_nonneg n) as Ln.
    pose proof (Z.log2_nonneg (Zpos d)) as Ld.
    pose proof (Z.log2_spec n N) as [Sn _].
    pose proof (Z.log2_spec (Zpos d) (Pos2Z.is_pos d)) as [_ Sd].
    replace (Z.log2 n - Z.log2 (Zpos d) - 1)%Z
      with (Z.log2 n - Z.succ (Z.log2 (Zpos d)))%Z by lia.
    unfold Double.pow2. rewrite Qpower_minus by discriminate.
    fold (Double.pow2 (Z.log2 n)).
    fold (Double.pow2 (Z.succ (Z.log2 (Zpos d)))).
    rewrite !pow2_whole by lia.
    set (P := (2 ^ Z.log2 n)%Z) in *.
    set (R := (2 ^ Z.succ (Z.log2 (Zpos d)))%Z) in *.
    apply Qle_shift_div_r.
    + change 0 with (inject_Z 0). rewrite <- Zlt_Qlt. lia.
    + unfold Qle, Qmult, inject_Z. simpl. nia.
Qed.

Lemma nearestEven_le (y : Q) :
  0 <= y ->
  (0 <= Double.nearestEven y)%Z /\
  inject_Z (Double.nearestEven y) <= y + (1 # 2).
Proof.
  intro Y. unfold Double.nearestEven.
  pose proof (Qfloor_le y) as L.
  assert (F : (0 <= Qfloor y)%Z).
  { change 0%Z with (Qfloor 0). apply Qfloor_resp_le. exact Y. }
  set (f := Qfloor y) in *.
  assert (S : inject_Z (f + 1) == inject_Z f + 1).
  { rewrite inject_Z_plus. reflexivity. }
  destruct (Qcompare (y - inject_Z f) (1 # 2)) eqn:C.
  - apply Qeq_alt in C. destruct (Z.even f).
    + split; [exact F|]. lra.
    + split; [lia|]. rewrite S. lra.
  - split; [exact F|]. lra.
  - apply Qgt_alt in C. split; [lia|]. rewrite S. lra.
Qed.

Lemma nearestEven_ge (y : Q) :
  y - (1 # 2) <= inject_Z (Double.nearestEven y).
Proof.
  unfold Double.nearestEven.
  pose proof (Qlt_floor y) as U.
  set (f := Qfloor y) in *.
  assert (S : inject_Z (f + 1) == inject_Z f + 1).
  { rewrite inject_Z_plus. reflexivity. }
  rewrite S in U.
  destruct (Qcompare (y - inject_Z f) (1 # 2)) eqn:C.
  - apply Qeq_alt in C. destruct (Z.even f); [|rewrite S]; lra.
  - apply Qlt_alt in C. lra.
  - rewrite S. lra.
Qed.

Lemma tiny_small :
  0 < Double.tiny /\ Double.tiny <= 1 # 1267650600228229401496703205376.
Proof.
  split; [apply pow2_pos|].
  apply (Qle_trans _ (Double.pow2 (-100))); [|apply Qle_refl].
  apply Qpower_le_compat_l; [lia|discriminate].
Qed.

Lemma pow2_1024_large : 1267650600228229401496703205376 <= Double.pow2 1024.
Proof.
  apply (Qle_trans _ (Double.pow2 100)); [apply Qle_refl|].
  apply Qpower_le_compat_l; [lia|discriminate].
Qed.

(** What rounding does to a number: it moves it by no more than its
    [2 ^ -53]-th part, or by [2 ^ -1075], and keeps its sign; it gives
    an infinity only from about [2 ^ 1024] on. *)
Lemma round_near (x : Q) :
  match Double.round x with
  | Double.finite r =>
      Qabs (r - x) <= Double.halfUlp * Qabs x + Double.tiny /\
      (0 <= x -> 0 <= r) /\ (x <= 0 -> r <= 0)
  | Double.infinity s =>
      Double.pow2 1024 <= Qabs x * (1 + Double.halfUlp) + Double.tiny /\
      s = negb (Qle_bool 0 x)
  | Double.nan => False
  end.
Proof.
  pose proof tiny_small as [T0 _].
  unfold Double.round.
  destruct (Qeq_bool x 0) eqn:Z0.
  { apply Qeq_bool_eq in Z0. split; [|split; intros _; apply Qle_refl].
    rewrite Z0. unfold Double.halfUlp.
    setoid_replace (0 - 0) with 0 by ring.
    change (Qabs 0) with 0. lra. }
  apply Qeq_bool_neq in Z0.
  assert (A0 : 0 < Qabs x).
  { destruct (Qlt_le_dec 0 x) as [P|P].
    - rewrite Qabs_pos by lra. exact P.
    - rewrite Qabs_neg by exact P.
      apply Qle_lteq in P. destruct P as [P|P]; [lra|].
      exfalso. apply Z0. exact P. }
  pose proof (exponent_le (Qabs x) A0) as E.
  set (e := Double.exponent (Qabs x)) in *.
  set (q := (Z.max e (-1022) - 52)%Z).
  pose proof (pow2_pos q) as Pq.
  pose proof (nearestEven_ge (Qabs x / Double.pow2 q)) as L.
  assert (Y : 0 <= Qabs x / Double.pow2 q).
  { apply Qle_shift_div_l; [exact Pq|]. rewrite Qmult_0_l. lra. }
  destruct (nearestEven_le _ Y) as [M0 M].
  set (m := Double.nearestEven (Qabs x / Double.pow2 q)) in *.
  assert (H : Double.pow2 q <= 2 * Double.halfUlp * Qabs x \/
              Double.pow2 q <= 2 * Double.tiny).
  { destruct (Z.max_spec e (-1022)) as [[_ K]|[_ K]].
    - right. subst q. rewrite K.
      assert (C : Double.pow2 (-1022 - 52) == 2 * Double.tiny).
      { unfold Double.tiny, Double.pow2.
        replace (-1022 - 52)%Z with (1 + -1075)%Z by lia.
        rewrite Qpower_plus by discriminate. reflexivity. }
      rewrite C. apply Qle_refl.
    - left. subst q. rewrite K.
      replace (e - 52)%Z with (e + -52)%Z by lia.
      unfold Double.pow2 at 1. rewrite Qpower_plus by discriminate.
      fold (Double.pow2 e).
      assert (C : 2 ^ (-52) == 2 * Double.halfUlp)
        by (vm_compute; reflexivity).
      rewrite C. rewrite (Qmult_comm (Double.pow2 e)).
      apply Qmult_le_l; [reflexivity|exact E]. }
  assert (D : Qabs x == (Qabs x / Double.pow2 q) * Double.pow2 q).
  { field. lra. }
  assert (U : inject_Z m * Double.pow2 q
              <= Qabs x + (1 # 2) * Double.pow2 q).
  { rewrite D at 1.
    setoid_replace (Qabs x / Double.pow2 q * Double.pow2 q
                    + (1 # 2) * Double.pow2 q)
      with ((Qabs x / Double.pow2 q + (1 # 2)) * Double.pow2 q) by ring.
    apply Qmult_le_compat_r; [exact M|]. lra. }
  assert (V : Qabs x - (1 # 2) * Double.pow2 q
              <= inject_Z m * Double.pow2 q).
  { rewrite D at 1.
    setoid_replace (Qabs x / Double.pow2 q * Double.pow2 q
                    - (1 # 2) * Double.pow2 q)
      with ((Qabs x / Double.pow2 q - (1 # 2)) * Double.pow2 q) by ring.
    apply Qmult_le_compat_r; [exact L|]. lra. }
  assert (R0 : 0 <= inject_Z m * Double.pow2 q).
  { apply Qmult_le_0_compat; [|lra].
    change 0 with (inject_Z 0). rewrite <- Zle_Qle. exact M0. }
  set (r := Qred (inject_Z m * Double.pow2 q)).
  assert (Rr : r == inject_Z m * Double.pow2 q) by apply Qred_correct.
  clearbody r. clear D L M Y.
  set (p := Double.pow2 q) in *. clearbody p.
  set (mp := inject_Z m * p) in *. clearbody mp.
  set (a := Qabs x) in *.
  assert (Apos : 0 <= x -> a == x) by apply Qabs_pos.
  assert (Aneg : x <= 0 -> a == - x) by apply Qabs_neg.
  clearbody e. clearbody a.
  set (T := Double.tiny) in *. clearbody T.
  assert (B : - (Double.halfUlp * a + T) <= r - a /\
              r - a <= Double.halfUlp * a + T).
  { rewrite Rr. unfold Double.halfUlp in *. destruct H as [H|H]; split; lra. }
  destruct (Qle_bool (Double.pow2 1024) r) eqn:O.
  - apply Qle_bool_iff in O. split; [|reflexivity].
    unfold Double.halfUlp in *. lra.
  - destruct (Qle_bool 0 x) eqn:S.
    + apply Qle_bool_iff in S. pose proof (Apos S) as Ax.
      split; [|split].
      * apply Qabs_Qle_condition. destruct B. split; lra.
      * intros _. lra.
      * intro N. exfalso. apply Z0. apply Qle_antisym; assumption.
    + assert (Sx : x < 0).
      { apply Qnot_le_lt. intro N. apply Qle_bool_iff in N. congruence. }
      assert (Ax : a == - x) by (apply Aneg; lra).
      split; [|split].
      * apply Qabs_Qle_condition. destruct B. split; lra.
      * intro N. exfalso. lra.
      * intros _. lra.
Qed.

(** Rounding stays under a whole number [n] that the exact value is
    under by the [2 ^ -53]-th part of [n]. *)
Lemma round_under (x : Q) (n : Z) :
  0 <= x -> (1 <= n <= 2 ^ 53)%Z ->
  x <= inject_Z n * (1 - Double.halfUlp) ->
  exists v, Double.round x = Double.finite v /\ 0 <= v /\ v < inject_Z n.
Proof.
  intros X N B. unfold Double.round.
  assert (N1 : 1 <= inject_Z n).
  { change 1 with (inject_Z 1). rewrite <- Zle_Qle. lia. }
  destruct (Qeq_bool x 0) eqn:Z0.
  { exists 0. split; [reflexivity|]. split; lra. }
  apply Qeq_bool_neq in Z0.
  assert (X0 : 0 < x).
  { apply Qle_lteq in X. destruct X as [X|X]; [exact X|].
    exfalso. apply Z0. symmetry. exact X. }
  assert (A : Qabs x == x) by (apply Qabs_pos; exact X).
  assert (A0 : 0 < Qabs x) by (rewrite A; exact X0).
  pose proof (exponent_le (Qabs x) A0) as E.
  set (e := Double.exponent (Qabs x)) in *.
  set (q := (Z.max e (-1022) - 52)%Z).
  pose proof (pow2_pos q) as Pq.
  assert (Y : 0 <= Qabs x / Double.pow2 q).
  { apply Qle_shift_div_l; [exact Pq|]. rewrite Qmult_0_l. lra. }
  destruct (nearestEven_le _ Y) as [M0 M].
  set (m := Double.nearestEven (Qabs x / Double.pow2 q)) in *.
  assert (H : Double.pow2 q <= 2 * Double.halfUlp * Qabs x \/
              Double.pow2 q <= Double.halfUlp).
  { destruct (Z.max_spec e (-1022)) as [[_ K]|[_ K]].
    - right. subst q. rewrite K.
      apply (Qle_trans _ (Double.pow2 (-53))); [|apply Qle_refl].
      apply Qpower_le_compat_l; [lia|discriminate].
    - left. subst q. rewrite K.
      replace (e - 52)%Z with (e + -52)%Z by lia.
      unfold Double.pow2 at 1. rewrite Qpower_plus by discriminate.
      fold (Double.pow2 e).
      assert (C : 2 ^ (-52) == 2 * Double.halfUlp) by (vm_compute; reflexivity).
      rewrite C.
      rewrite (Qmult_comm (Double.pow2 e)).
      apply Qmult_le_l; [reflexivity|exact E]. }
  assert (R : inject_Z m * Double.pow2 q < inject_Z n).
  { assert (U : inject_Z m * Double.pow2 q
                <= Qabs x + (1 # 2) * Double.pow2 q).
    { apply (Qle_trans _ ((Qabs x / Double.pow2 q + (1 # 2))
                          * Double.pow2 q)).
      - apply Qmult_le_compat_r; [exact M|]. lra.
      - apply Qle_lteq. right. field. lra. }
    rewrite A in U, H. unfold Double.halfUlp in *.
    destruct H as [H|H]; lra. }
  assert (R0 : 0 <= inject_Z m * Double.pow2 q).
  { apply Qmult_le_0_compat; [|lra].
    change 0 with (inject_Z 0). rewrite <- Zle_Qle. exact M0. }
  set (r := Qred (inject_Z m * Double.pow2 q)).
  assert (Rr : r == inject_Z m * Double.pow2 q) by apply Qred_correct.
  assert (O : Qle_bool (Double.pow2 1024) r = false).
  { destruct (Qle_bool (Double.pow2 1024) r) eqn:O; [|reflexivity].
    apply Qle_bool_iff in O. rewrite pow2_whole in O by lia.
    assert (T : inject_Z n < inject_Z (2 ^ 1024)).
    { rewrite <- Zlt_Qlt.
      assert (2 ^ 53 < 2 ^ 1024)%Z by (apply Z.pow_lt_mono_r; lia). lia. }
    rewrite Rr in O. lra. }
  rewrite O.
  assert (S : Qle_bool 0 x = true) by (apply Qle_bool_iff; exact X).
  rewrite S. exists r. split; [reflexivity|]. rewrite Rr. split; assumption.
Qed.

(** ** PointsCalculator *)

(** C1.  On steps 12000, calories 650, distance 8 km and one workout the
    four contributions are 12, 6, 5 and 6, and the returned total is 29;
    for every input the total is the sum of the contributions times ten,
    rounded half-up to an integer, divided by ten. *)
Theorem C1_points_scenario :
  Points.stepsPoints Points.scenario == 12 /\
  Points.caloriesPoints Points.scenario == 6 /\
  Points.workoutPoints Points.scenario == 5 /\
  Points.distanceBonusPoints Points.scenario == 6 /\
  Points.calculateHealthPoints Points.scenario == 29 /\
  (forall data,
     Points.calculateHealthPoints data ==
     inject_Z (Qfloor ((Points.stepsPoints data + Points.caloriesPoints data
                        + Points.workoutPoints data
                        + Points.distanceBonusPoints data) * 10 + (1 # 2)))
     / 10).
Proof.
  repeat split; try reflexivity.
  intro data. unfold Points.calculateHealthPoints, Num.round.
  rewrite Qplus_0_l. reflexivity.
Qed.

(** ** ConsistencyValidator *)

Section ValidatorFacts.
Import Validator.

(** The accumulating sum of the source is the sum of the list. *)
Lemma fold_calories (ws : list WorkoutData.t) (acc : Q) :
  fold_left (fun a w => a + WorkoutData.calories w) ws acc
  == acc + Rules.sumCalories ws.
Proof.
  revert acc. induction ws as [|w ws IH]; intro acc; simpl.
  - symmetry. apply Qplus_0_r.
  - rewrite IH. symmetry. apply Qplus_assoc.
Qed.

Lemma workoutCalories_sum (data : RawHealthData.t) :
  workoutCalories data == Rules.sumCalories (RawHealthData.workouts data).
Proof.
  unfold workoutCalories. rewrite fold_calories. apply Qplus_0_l.
Qed.

(** The variance the source computes is the one the rule states. *)
Lemma distanceVariance_spec (data : RawHealthData.t) :
  distanceVariance data ==
  Qabs (RawHealthData.distance data - (75 # 100) * RawHealthData.steps data)
  / ((75 # 100) * RawHealthData.steps data).
Proof.
  unfold distanceVariance, expectedDistance.
  rewrite (Qmult_comm (RawHealthData.steps data) (75 # 100)).
  reflexivity.
Qed.

Lemma correlationCheck_iff (data : RawHealthData.t) :
  correlationCheck data = true <-> Rules.correlationFails data.
Proof.
  unfold correlationCheck, Rules.correlationFails.
  rewrite andb_true_iff, !gtb_lt.
  rewrite (distanceVariance_spec data). reflexivity.
Qed.

Lemma caloriesCheck_iff (data : RawHealthData.t) :
  caloriesCheck data = true <-> Rules.caloriesFail data.
Proof.
  unfold caloriesCheck, Rules.caloriesFail.
  rewrite !andb_true_iff, gtb_lt, ltb_lt, eqb_eq.
  rewrite (workoutCalories_sum data). tauto.
Qed.

(** Rule 3 passes exactly when no workout fails at its clock reading. *)
Lemma validateWorkouts_ok (now : nat -> Date) (ws : list WorkoutData.t) :
  forall k,
    validateWorkouts now k ws = Ok tt <->
    (forall i w, nth_error ws i = Some w ->
                 ~ Rules.workoutFails now (k + i) w).
Proof.
  induction ws as [|w0 ws IH]; intro k; simpl.
  - split; [|reflexivity]. intros _ [|i] w H; discriminate H.
  - destruct (Num.gtb (WorkoutData.duration w0) 86400) eqn:D; simpl.
    + split; [discriminate|]. intro H. exfalso.
      apply (H 0%nat w0 eq_refl). left. apply gtb_lt. exact D.
    + destruct (Num.gtb (WorkoutData.startDate w0) (now k)) eqn:F; simpl.
      * split; [discriminate|]. intro H. exfalso.
        apply (H 0%nat w0 eq_refl). right.
        rewrite Nat.add_0_r. apply gtb_lt. exact F.
      * rewrite IH. split.
        -- intros H [|i] w Hw.
           ++ injection Hw as <-. rewrite Nat.add_0_r.
              intros [L|L]; apply gtb_lt in L; congruence.
           ++ rewrite Nat.add_succ_r. apply (H i w Hw).
        -- intros H i w Hw. rewrite Nat.add_succ_l, <- Nat.add_succ_r.
           apply (H (S i) w Hw).
Qed.

(** When rule 3 throws, it throws one of its two reasons, and a
    workout fails. *)
Lemma validateWorkouts_throw (now : nat -> Date)
    (ws : list WorkoutData.t) :
  forall k e,
    validateWorkouts now k ws = Throw e ->
    (e = rejection reasonDuration \/ e = rejection reasonFuture) /\
    exists i w, nth_error ws i = Some w /\
                Rules.workoutFails now (k + i) w.
Proof.
  induction ws as [|w0 ws IH]; intros k e; simpl.
  - discriminate.
  - destruct (Num.gtb (WorkoutData.duration w0) 86400) eqn:D; simpl.
    + intro H. injection H as <-. split; [left; reflexivity|].
      exists 0%nat, w0. split; [reflexivity|]. left. apply gtb_lt, D.
    + destruct (Num.gtb (WorkoutData.startDate w0) (now k)) eqn:F; simpl.
      * intro H. injection H as <-. split; [right; reflexivity|].
        exists 0%nat, w0. split; [reflexivity|]. right.
        rewrite Nat.add_0_r. apply gtb_lt, F.
      * intro H. destruct (IH (S k) e H) as [R (i & w & Hw & Hf)].
        split; [exact R|]. exists (S i), w. split; [exact Hw|].
        rewrite Nat.add_succ_r. exact Hf.
Qed.

(** Rule 4 passes exactly when every reading is within range. *)
Lemma validateHeartRates_ok (rs : list HeartRateReading.t) :
  validateHeartRates rs = Ok tt <->
  (forall r, In r rs ->
             ~ (HeartRateReading.bpm r < 30 \/ 250 < HeartRateReading.bpm r)).
Proof.
  induction rs as [|r0 rs IH]; simpl.
  - split; [intros _ r []|reflexivity].
  - destruct (Num.ltb (HeartRateReading.bpm r0) 30
              || Num.gtb (HeartRateReading.bpm r0) 250) eqn:B; simpl.
    + split; [discriminate|]. intro H. exfalso.
      apply (H r0 (or_introl eq_refl)).
      apply orb_true_iff in B. rewrite ltb_lt, gtb_lt in B. exact B.
    + rewrite IH. split.
      * intros H r [<-|Hr]; [|apply (H r Hr)].
        intro L. rewrite <- ltb_lt, <- gtb_lt, <- orb_true_iff in L.
        congruence.
      * intros H r Hr. apply H. right. exact Hr.
Qed.

Lemma validateHeartRates_throw (rs : list HeartRateReading.t) (e : Error) :
  validateHeartRates rs = Throw e ->
  e = rejection reasonHeartRate /\
  exists r, In r rs /\
            (HeartRateReading.bpm r < 30 \/ 250 < HeartRateReading.bpm r).
Proof.
  induction rs as [|r0 rs IH]; simpl.
  - discriminate.
  - destruct (Num.ltb (HeartRateReading.bpm r0) 30
              || Num.gtb (HeartRateReading.bpm r0) 250) eqn:B; simpl.
    + intro H. injection H as <-. split; [reflexivity|].
      exists r0. split; [left; reflexivity|].
      apply orb_true_iff in B. rewrite ltb_lt, gtb_lt in B. exact B.
    + intro H. destruct (IH H) as [R (r & Hr & Hf)].
      split; [exact R|]. exists r. split; [right; exact Hr|exact Hf].
Qed.

(** The validator, one check after the other. *)
Lemma validate_unfold (now : nat -> Date) (data : RawHealthData.t) :
  validateDataConsistency now data =
  if correlationCheck data then Throw (rejection reasonCorrelation)
  else if caloriesCheck data then Throw (rejection reasonCalories)
  else match validateWorkouts now 0 (RawHealthData.workouts data) with
       | Throw e => Throw e
       | Ok _ =>
           match validateHeartRates (RawHealthData.heartRateReadings data)
           with
           | Throw e => Throw e
           | Ok _ =>
               if Num.gtb (RawHealthData.steps data) 100000
               then Throw (rejection reasonSteps)
               else if Num.gtb (RawHealthData.calories data) 10000
                    then Throw (rejection reasonCalorieBurn)
                    else Ok tt
           end
       end.
Proof.
  unfold validateDataConsistency.
  destruct (correlationCheck data); simpl; [reflexivity|].
  destruct (caloriesCheck data); simpl; [reflexivity|].
  destruct (validateWorkouts now 0 (RawHealthData.workouts data)); simpl;
    [|reflexivity].
  destruct (validateHeartRates (RawHealthData.heartRateReadings data));
    simpl; [|reflexivity].
  destruct (Num.gtb (RawHealthData.steps data) 100000); simpl;
    [reflexivity|].
  destruct (Num.gtb (RawHealthData.calories data) 10000); reflexivity.
Qed.

End ValidatorFacts.

Section ValidatorRules.
Import Validator.

Lemma workoutsPass_iff (now : nat -> Date) (data : RawHealthData.t) :
  validateWorkouts now 0 (RawHealthData.workouts data) = Ok tt <->
  ~ Rules.workoutsFail now data.
Proof.
  rewrite validateWorkouts_ok. unfold Rules.workoutsFail. split.
  - intros H (k & w & Hw & Hf). exact (H k w Hw Hf).
  - intros H i w Hw Hf. apply H. exists i, w. split; assumption.
Qed.

Lemma heartRatesPass_iff (data : RawHealthData.t) :
  validateHeartRates (RawHealthData.heartRateReadings data) = Ok tt <->
  ~ Rules.heartRateFails data.
Proof.
  rewrite validateHeartRates_ok. unfold Rules.heartRateFails. split.
  - intros H (r & Hr & Hf). exact (H r Hr Hf).
  - intros H r Hr Hf. apply H. exists r. split; assumption.
Qed.

Lemma capsPass_iff (data : RawHealthData.t) :
  Num.gtb (RawHealthData.steps data) 100000 = false /\
  Num.gtb (RawHealthData.calories data) 10000 = false <->
  ~ Rules.capsFail data.
Proof.
  unfold Rules.capsFail. rewrite !gtb_le. split.
  - intros [S C] [L|L]; [exact (Qlt_not_le _ _ L S)|exact (Qlt_not_le _ _ L C)].
  - intro H. split; apply Qnot_lt_le; intro L; apply H; [left|right]; exact L.
Qed.

Lemma check_false_iff (b : bool) (P : Prop) :
  (b = true <-> P) -> (b = false <-> ~ P).
Proof.
  intro H. destruct b; split; intro K; try discriminate; try reflexivity.
  - exfalso. apply K, H. reflexivity.
  - intro p. apply H in p. discriminate.
Qed.

(** The validator accepts exactly when none of the five rules fails. *)
Lemma validate_ok (now : nat -> Date) (data : RawHealthData.t) :
  validateDataConsistency now data = Ok tt <->
  ~ Rules.correlationFails data /\ ~ Rules.caloriesFail data /\
  ~ Rules.workoutsFail now data /\ ~ Rules.heartRateFails data /\
  ~ Rules.capsFail data.
Proof.
  rewrite validate_unfold.
  rewrite <- (check_false_iff _ _ (correlationCheck_iff data)).
  rewrite <- (check_false_iff _ _ (caloriesCheck_iff data)).
  rewrite <- workoutsPass_iff, <- heartRatesPass_iff, <- capsPass_iff.
  destruct (correlationCheck data);
    [split; [discriminate|intros [H _]; discriminate]|].
  destruct (caloriesCheck data);
    [split; [discriminate|intros (_ & H & _); discriminate]|].
  destruct (validateWorkouts now 0 (RawHealthData.workouts data)) as [[]|e];
    [|split; [discriminate|intros (_ & _ & H & _); discriminate]].
  destruct (validateHeartRates (RawHealthData.heartRateReadings data))
    as [[]|e];
    [|split; [discriminate|intros (_ & _ & _ & H & _); discriminate]].
  destruct (Num.gtb (RawHealthData.steps data) 100000);
    [split; [discriminate|intros (_ & _ & _ & _ & H & _); discriminate]|].
  destruct (Num.gtb (RawHealthData.calories data) 10000);
    [split; [discriminate|intros (_ & _ & _ & _ & _ & H); discriminate]|].
  tauto.
Qed.

(** What the validator throws is the reason of a failing rule, and no
    rule listed before that one fails. *)
Lemma validate_throw (now : nat -> Date) (data : RawHealthData.t)
    (e : Error) :
  validateDataConsistency now data = Throw e ->
  exists reason,
    e = rejection reason /\
    Rules.fails now (Rules.ruleOf reason) data /\
    forall m, (1 <= m < Rules.ruleOf reason)%nat ->
              ~ Rules.fails now m data.
Proof.
  rewrite validate_unfold.
  pose proof (correlationCheck_iff data) as C1.
  pose proof (check_false_iff _ _ C1) as C1'.
  pose proof (caloriesCheck_iff data) as C2.
  pose proof (check_false_iff _ _ C2) as C2'.
  destruct (correlationCheck data).
  { intro H. injection H as <-. exists reasonCorrelation.
    split; [reflexivity|]. split; [apply C1; reflexivity|].
    intros m Hm. cbn in Hm. lia. }
  assert (N1 : ~ Rules.correlationFails data) by (apply C1'; reflexivity).
  destruct (caloriesCheck data).
  { intro H. injection H as <-. exists reasonCalories.
    split; [reflexivity|]. split; [apply C2; reflexivity|].
    intros m Hm. cbn in Hm. assert (m = 1%nat) as -> by lia. exact N1. }
  assert (N2 : ~ Rules.caloriesFail data) by (apply C2'; reflexivity).
  destruct (validateWorkouts now 0 (RawHealthData.workouts data))
    as [[]|e3] eqn:W.
  2:{ intro H. injection H as <-.
      destruct (validateWorkouts_throw _ _ _ _ W) as [R F].
      assert (F' : Rules.workoutsFail now data) by exact F.
      assert (P : forall m, (1 <= m < 3)%nat -> ~ Rules.fails now m data).
      { intros m Hm.
        assert (m = 1 \/ m = 2)%nat as [-> | ->] by lia; assumption. }
      destruct R as [-> | ->];
        [exists reasonDuration | exists reasonFuture];
        (split; [reflexivity|]; split; [exact F'|exact P]). }
  assert (N3 : ~ Rules.workoutsFail now data) by (apply workoutsPass_iff, W).
  destruct (validateHeartRates (RawHealthData.heartRateReadings data))
    as [[]|e4] eqn:R.
  2:{ intro H. injection H as <-.
      destruct (validateHeartRates_throw _ _ R) as [-> F].
      exists reasonHeartRate. split; [reflexivity|]. split; [exact F|].
      intros m Hm. cbn in Hm.
      assert (m = 1 \/ m = 2 \/ m = 3)%nat as [-> | [-> | ->]] by lia;
        assumption. }
  assert (N4 : ~ Rules.heartRateFails data) by (apply heartRatesPass_iff, R).
  assert (P : forall m, (1 <= m < 5)%nat -> ~ Rules.fails now m data).
  { intros m Hm.
    assert (m = 1 \/ m = 2 \/ m = 3 \/ m = 4)%nat
      as [-> | [-> | [-> | ->]]] by lia; assumption. }
  destruct (Num.gtb (RawHealthData.steps data) 100000) eqn:S.
  { intro H. injection H as <-. exists reasonSteps.
    split; [reflexivity|]. split; [left; apply gtb_lt, S|exact P]. }
  destruct (Num.gtb (RawHealthData.calories data) 10000) eqn:K.
  { intro H. injection H as <-. exists reasonCalorieBurn.
    split; [reflexivity|]. split; [right; apply gtb_lt, K|exact P]. }
  discriminate.
Qed.



End ValidatorRules.

(** ** The validator in double arithmetic *)

Lemma gtb_notAbove (x : Double.t) (c : Q) :
  Double.gtb x (Double.finite c) = false <-> Double.notAbove c x.
Proof.
  destruct x as [q|s|]; simpl.
  - rewrite negb_false_iff. apply Qle_bool_iff.
  - apply negb_false_iff.
  - tauto.
Qed.

Lemma ltb_notBelow (x : Double.t) (c : Q) :
  Double.ltb x (Double.finite c) = false <-> Double.notBelow c x.
Proof.
  destruct x as [q|s|]; simpl.
  - rewrite negb_false_iff. apply Qle_bool_iff.
  - reflexivity.
  - tauto.
Qed.

Section ValidatorInDoubles.
Import IEEE.

(** The validator, one check after the other. *)
Lemma validate_steps (now : nat -> Date) (data : RawHealthData.t) :
  validateDataConsistency now data =
  if correlationCheck data then Throw (rejection Validator.reasonCorrelation)
  else if caloriesCheck data then Throw (rejection Validator.reasonCalories)
  else match validateWorkouts now 0 (RawHealthData.workouts data) with
       | Throw e => Throw e
       | Ok _ =>
           match validateHeartRates (RawHealthData.heartRateReadings data)
           with
           | Throw e => Throw e
           | Ok _ =>
               if Double.gtb (RawHealthData.steps data) (literal 100000)
               then Throw (rejection Validator.reasonSteps)
               else if Double.gtb (RawHealthData.calories data)
                         (literal 10000)
                    then Throw (rejection Validator.reasonCalorieBurn)
                    else Ok tt
           end
       end.
Proof.
  unfold validateDataConsistency.
  destruct (correlationCheck data); cbn [bind throwIf throwInconsistent];
    [reflexivity|].
  destruct (caloriesCheck data); cbn [bind throwIf throwInconsistent];
    [reflexivity|].
  destruct (validateWorkouts now 0 (RawHealthData.workouts data));
    cbn [bind]; [|reflexivity].
  destruct (validateHeartRates (RawHealthData.heartRateReadings data));
    cbn [bind]; [|reflexivity].
  destruct (Double.gtb (RawHealthData.steps data) (literal 100000));
    cbn [bind throwIf throwInconsistent]; [reflexivity|].
  destruct (Double.gtb (RawHealthData.calories data) (literal 10000));
    reflexivity.
Qed.

(** Rule 3 passes exactly when no workout is longer than a day (a NaN
    duration is not) or starts after its clock reading. *)
Lemma workouts_pass (now : nat -> Date) (ws : list WorkoutData.t) :
  forall k,
    validateWorkouts now k ws = Ok tt <->
    (forall i w, nth_error ws i = Some w ->
                 Double.notAbove 86400 (WorkoutData.duration w) /\
                 WorkoutData.startDate w <= now (k + i)%nat).
Proof.
  induction ws as [|w0 ws IH]; intro k;
    cbn [validateWorkouts bind throwIf throwInconsistent].
  - split; [|reflexivity]. intros _ [|i] w H; discriminate H.
  - destruct (Double.gtb (WorkoutData.duration w0) (literal 86400)) eqn:D;
      cbn [bind throwIf throwInconsistent].
    + split; [discriminate|]. intro H. exfalso.
      destruct (H 0%nat w0 eq_refl) as [L _].
      apply gtb_notAbove in L. unfold literal in D. congruence.
    + destruct (Num.gtb (WorkoutData.startDate w0) (now k)) eqn:F;
        cbn [bind throwIf throwInconsistent].
      * split; [discriminate|]. intro H. exfalso.
        destruct (H 0%nat w0 eq_refl) as [_ L].
        rewrite Nat.add_0_r in L. apply gtb_le in L. congruence.
      * rewrite IH. split.
        -- intros H [|i] w Hw.
           ++ injection Hw as <-. rewrite Nat.add_0_r.
              split; [apply gtb_notAbove, D|apply gtb_le, F].
           ++ rewrite Nat.add_succ_r. apply (H i w Hw).
        -- intros H i w Hw. rewrite Nat.add_succ_l, <- Nat.add_succ_r.
           apply (H (S i) w Hw).
Qed.

Lemma workouts_throw (now : nat -> Date) (ws : list WorkoutData.t) :
  forall k e,
    validateWorkouts now k ws = Throw e ->
    e = rejection Validator.reasonDuration \/
    e = rejection Validator.reasonFuture.
Proof.
  induction ws as [|w0 ws IH]; intros k e;
    cbn [validateWorkouts bind throwIf throwInconsistent].
  - discriminate.
  - destruct (Double.gtb (WorkoutData.duration w0) (literal 86400));
      cbn [bind throwIf throwInconsistent].
    + intro H. injection H as <-. left. reflexivity.
    + destruct (Num.gtb (WorkoutData.startDate w0) (now k));
        cbn [bind throwIf throwInconsistent].
      * intro H. injection H as <-. right. reflexivity.
      * apply IH.
Qed.

(** Rule 4 passes exactly when no reading is below 30 or above 250; a
    NaN reading is neither. *)
Lemma heartRates_pass (rs : list HeartRateReading.t) :
  validateHeartRates rs = Ok tt <->
  Forall (fun r => Double.notBelow 30 (HeartRateReading.bpm r) /\
                   Double.notAbove 250 (HeartRateReading.bpm r)) rs.
Proof.
  induction rs as [|r0 rs IH];
    cbn [validateHeartRates bind throwIf throwInconsistent].
  - split; [constructor|reflexivity].
  - destruct (Double.ltb (HeartRateReading.bpm r0) (literal 30)) eqn:L;
      cbn [bind throwIf throwInconsistent orb].
    + split; [discriminate|]. intro H. inversion H as [|? ? [B _] _].
      apply ltb_notBelow in B. unfold literal in L. congruence.
    + destruct (Double.gtb (HeartRateReading.bpm r0) (literal 250)) eqn:G;
        cbn [bind throwIf throwInconsistent].
      * split; [discriminate|]. intro H. inversion H as [|? ? [_ B] _].
        apply gtb_notAbove in B. unfold literal in G. congruence.
      * rewrite IH. split.
        -- intro H. constructor; [|exact H].
           split; [apply ltb_notBelow, L|apply gtb_notAbove, G].
        -- intro H. inversion H; assumption.
Qed.

Lemma heartRates_throw (rs : list HeartRateReading.t) (e : Error) :
  validateHeartRates rs = Throw e ->
  e = rejection Validator.reasonHeartRate.
Proof.
  induction rs as [|r0 rs IH];
    cbn [validateHeartRates bind throwIf throwInconsistent].
  - discriminate.
  - destruct (Double.ltb (HeartRateReading.bpm r0) (literal 30)
              || Double.gtb (HeartRateReading.bpm r0) (literal 250));
      cbn [bind throwIf throwInconsistent].
    + intro H. injection H as <-. reflexivity.
    + exact IH.
Qed.

(** Only rule 1 throws the correlation reason. *)
Lemma correlation_thrown (now : nat -> Date) (data : RawHealthData.t) :
  validateDataConsistency now data
  = Throw (rejection Validator.reasonCorrelation)
  <-> correlationCheck data = true.
Proof.
  rewrite validate_steps.
  destruct (correlationCheck data); [tauto|].
  split; [|discriminate]. intro H. exfalso.
  destruct (caloriesCheck data); [discriminate H|].
  destruct (validateWorkouts now 0 (RawHealthData.workouts data))
    as [[]|e] eqn:W.
  2:{ injection H as ->.
      destruct (workouts_throw _ _ _ _ W) as [E|E]; discriminate E. }
  destruct (validateHeartRates (RawHealthData.heartRateReadings data))
    as [[]|e] eqn:R.
  2:{ injection H as ->. apply heartRates_throw in R. discriminate R. }
  destruct (Double.gtb (RawHealthData.steps data) (literal 100000));
    [discriminate H|].
  destruct (Double.gtb (RawHealthData.calories data) (literal 10000));
    discriminate H.
Qed.

(** The validator accepts exactly when no check trips. *)
Lemma validate_accepts (now : nat -> Date) (data : RawHealthData.t) :
  validateDataConsistency now data = Ok tt <->
  correlationCheck data = false /\
  caloriesCheck data = false /\
  validateWorkouts now 0 (RawHealthData.workouts data) = Ok tt /\
  validateHeartRates (RawHealthData.heartRateReadings data) = Ok tt /\
  Double.gtb (RawHealthData.steps data) (literal 100000) = false /\
  Double.gtb (RawHealthData.calories data) (literal 10000) = false.
Proof.
  rewrite validate_steps.
  destruct (correlationCheck data);
    [split; [discriminate|intros [H _]; discriminate]|].
  destruct (caloriesCheck data);
    [split; [discriminate|intros (_ & H & _); discriminate]|].
  destruct (validateWorkouts now 0 (RawHealthData.workouts data)) as [[]|e];
    [|split; [discriminate|intros (_ & _ & H & _); discriminate]].
  destruct (validateHeartRates (RawHealthData.heartRateReadings data))
    as [[]|e];
    [|split; [discriminate|intros (_ & _ & _ & H & _); discriminate]].
  destruct (Double.gtb (RawHealthData.steps data) (literal 100000));
    [split; [discriminate|intros (_ & _ & _ & _ & H & _); discriminate]|].
  destruct (Double.gtb (RawHealthData.calories data) (literal 10000));
    [split; [discriminate|intros (_ & _ & _ & _ & _ & H); discriminate]|].
  tauto.
Qed.

End ValidatorInDoubles.

Section Band.

Variable data : IEEE.RawHealthData.t.
Variables s d : Q.
Hypothesis steps_s : IEEE.RawHealthData.steps data = Double.finite s.
Hypothesis distance_d : IEEE.RawHealthData.distance data = Double.finite d.
Hypothesis steps_low : 1000 < s.
Hypothesis steps_high : s <= 100000.

(** Away from the edge of the band the rounded variance is on the side
    of the exact one. *)
Lemma variance_sides :
  ((1 # 2) * (1 + Double.sliver) * (s * (75 # 100))
   <= Qabs (d - s * (75 # 100)) ->
   Double.gtb (IEEE.distanceVariance data) (Double.finite (5 # 10)) = true) /\
  (Qabs (d - s * (75 # 100))
   <= (1 # 2) * (1 - Double.sliver) * (s * (75 # 100)) ->
   Double.gtb (IEEE.distanceVariance data) (Double.finite (5 # 10)) = false).
Proof.
  pose proof tiny_small as [T0 T1].
  pose proof pow2_1024_large as P.
  pose proof round_near as near. cbv beta in near.
  unfold IEEE.distanceVariance, IEEE.expectedDistance, IEEE.literal.
  rewrite steps_s, distance_d. cbn [Double.mul].
  set (E := s * (75 # 100)) in *.
  assert (E0 : 750 < E /\ E <= 75000) by (subst E; split; lra).
  pose proof (near E) as R1.
  destruct (Double.round E) as [e|sg|]; [|exfalso|contradiction].
  2:{ destruct R1 as [R1 _]. rewrite Qabs_pos in R1 by lra.
      unfold Double.halfUlp in R1.
      set (T := Double.tiny) in *. clearbody T.
      set (H := Double.pow2 1024) in *. clearbody H. lra. }
  destruct R1 as (R1 & _ & _). rewrite (Qabs_pos E) in R1 by lra.
  apply Qabs_Qle_condition in R1.
  unfold Double.sub, Double.neg, Double.add.
  assert (e0 : 0 < e).
  { unfold Double.halfUlp in R1. set (T := Double.tiny) in *. clearbody T.
    destruct R1. lra. }
  assert (en : Qeq_bool e 0 = false).
  { destruct (Qeq_bool e 0) eqn:N; [|reflexivity].
    apply Qeq_bool_eq in N. lra. }
  assert (ep : Double.negative e = false).
  { unfold Double.negative. apply negb_false_iff, Qle_bool_iff. lra. }
  pose proof (near (d + - e)) as R2.
  assert (big : forall sg,
             Double.gtb
               (Double.div (Double.abs (Double.infinity sg))
                           (Double.finite e))
               (Double.finite (5 # 10)) = true).
  { intro sg. cbn [Double.abs Double.div]. rewrite ep. reflexivity. }
  set (T := Double.tiny) in *. clearbody T.
  set (H := Double.pow2 1024) in *.
  unfold Double.halfUlp, Double.sliver in *.
  split; intro K.
  - (* clearly outside *)
    destruct (Double.round (d + - e)) as [x|sg|]; [|apply big|contradiction].
    destruct R2 as (R2 & _ & _).
    cbn [Double.abs Double.div]. rewrite en.
    assert (W : (1 # 2) + (1 # 9007199254740992) <= Qabs x / e).
    { apply Qle_shift_div_l; [exact e0|].
      apply Qabs_Qle_condition in R2.
      destruct R1 as [R1a R1b]. destruct R2 as [R2a R2b].
      clearbody H. clear big ep en.
      destruct (Qlt_le_dec d E) as [C|C].
      + rewrite Qabs_neg in K by lra.
        assert (Z : d + - e <= 0) by lra.
        rewrite (Qabs_neg (d + - e)) in R2a, R2b by exact Z.
        apply (Qle_trans _ (- x)); [lra|].
        rewrite <- (Qabs_opp x). apply Qle_Qabs.
      + rewrite Qabs_pos in K by lra.
        assert (Z : 0 <= d + - e) by lra.
        rewrite (Qabs_pos (d + - e)) in R2a, R2b by exact Z.
        apply (Qle_trans _ x); [lra|]. apply Qle_Qabs. }
    pose proof (near (Qabs x / e)) as R3.
    destruct (Double.round (Qabs x / e)) as [v|sg|]; [| |contradiction].
    + destruct R3 as (R3 & _ & _).
      rewrite (Qabs_pos (Qabs x / e)) in R3 by lra.
      apply Qabs_Qle_condition in R3. destruct R3 as [R3a R3b].
      cbn [Double.gtb Double.ltb]. apply negb_true_iff.
      destruct (Qle_bool v (5 # 10)) eqn:V; [|reflexivity].
      apply Qle_bool_iff in V. exfalso.
      set (w := Qabs x / e) in *. clearbody w. clearbody H. lra.
    + destruct R3 as [_ ->].
      assert (S : Qle_bool 0 (Qabs x / e) = true)
        by (apply Qle_bool_iff; lra).
      rewrite S. reflexivity.
  - (* clearly inside *)
    apply Qabs_Qle_condition in K. destruct K as [Ka Kb].
    destruct R1 as [R1a R1b].
    assert (Zb : Qabs (d + - e) <= (1 # 2) * E).
    { apply Qabs_Qle_condition. split; lra. }
    destruct (Double.round (d + - e)) as [x|sg|]; [|exfalso|contradiction].
    2:{ destruct R2 as [R2 _]. clearbody H.
        set (az := Qabs (d + - e)) in *. clearbody az. lra. }
    destruct R2 as (R2 & _ & _).
    cbn [Double.abs Double.div]. rewrite en.
    assert (W0 : 0 <= Qabs x / e).
    { apply Qle_shift_div_l; [exact e0|]. rewrite Qmult_0_l.
      apply Qabs_nonneg. }
    assert (W : Qabs x / e <= (1 # 2) - (1 # 9007199254740992)).
    { apply Qle_shift_div_r; [exact e0|].
      assert (Zc : Qabs (d + - e)
                   <= (1 # 2) * (1 - (1 # 1125899906842624)) * E
                      + (1 # 9007199254740992) * E + T).
      { apply Qabs_Qle_condition. split; lra. }
      assert (X : Qabs x <= Qabs (d + - e)
                            + ((1 # 9007199254740992) * Qabs (d + - e) + T)).
      { setoid_replace x with ((d + - e) + (x - (d + - e))) by ring.
        apply (Qle_trans _ _ _ (Qabs_triangle _ _)).
        apply Qplus_le_r. exact R2. }
      clearbody H. clear big ep en.
      set (az := Qabs (d + - e)) in *. clearbody az.
      set (ax := Qabs x) in *. clearbody ax. lra. }
    pose proof (near (Qabs x / e)) as R3.
    set (w := Qabs x / e) in *. clearbody w.
    destruct (Double.round w) as [v|sg|]; [|exfalso|contradiction].
    2:{ destruct R3 as [R3 _]. rewrite Qabs_pos in R3 by exact W0.
        clearbody H. lra. }
    destruct R3 as (R3 & _ & _). rewrite (Qabs_pos w) in R3 by exact W0.
    apply Qabs_Qle_condition in R3. destruct R3 as [R3a R3b].
    cbn [Double.gtb Double.ltb]. apply negb_false_iff, Qle_bool_iff.
    clearbody H. lra.
Qed.

End Band.

(** The exact quotient of rule 1, as a product. *)
Lemma exactVariance_le (s d c : Q) :
  0 < s ->
  (c <= IEEE.exactVariance s d <->
   c * (s * (75 # 100)) <= Qabs (d - s * (75 # 100))) /\
  (IEEE.exactVariance s d <= c <->
   Qabs (d - s * (75 # 100)) <= c * (s * (75 # 100))).
Proof.
  intro S. unfold IEEE.exactVariance.
  assert (A : Qabs (d - (75 # 100) * s) == Qabs (d - s * (75 # 100))).
  { apply Qabs_wd. ring. }
  rewrite A. set (a := Qabs (d - s * (75 # 100))). clearbody a.
  assert (B : (75 # 100) * s == s * (75 # 100)) by ring.
  rewrite B. set (b := s * (75 # 100)).
  assert (B0 : 0 < b) by (subst b; lra). clearbody b.
  assert (D : a / b * b == a) by (field; lra).
  split; split; intro H.
  - rewrite <- D. apply Qmult_le_compat_r; [exact H|lra].
  - apply Qle_shift_div_l; assumption.
  - rewrite <- D. apply Qmult_le_compat_r; [exact H|lra].
  - apply Qle_shift_div_r; assumption.
Qed.

(** C2, as amended.  With more than 1000 steps the validator throws the
    correlation reason exactly when the variance it computes in double
    arithmetic, [abs(distance - steps * 0.75) / (steps * 0.75)] with
    the product, the difference and the quotient each rounded, is above
    0.5; with steps that are not above 1000 (NaN among them) it never
    throws that reason, whatever the distance.  For up to 100000 steps
    the rounded variance decides as the exact quotient does unless that
    is within its [2 ^ -50]-th part of one half: the reason is thrown
    when the exact quotient is at least [0.5 * (1 + 2 ^ -50)], and not
    thrown when it is at most [0.5 * (1 - 2 ^ -50)]. *)
Theorem C2_correlation_rule_rounded :
  (forall (now : nat -> Date) (data : IEEE.RawHealthData.t),
     Double.gtb (IEEE.RawHealthData.steps data) (Double.finite 1000) = true ->
     (IEEE.validateDataConsistency now data
      = Throw (rejection Validator.reasonCorrelation)
      <->
      Double.gtb (IEEE.distanceVariance data) (Double.finite (5 # 10))
      = true)) /\
  (forall (now : nat -> Date) (data : IEEE.RawHealthData.t),
     Double.gtb (IEEE.RawHealthData.steps data) (Double.finite 1000) = false ->
     IEEE.validateDataConsistency now data
     <> Throw (rejection Validator.reasonCorrelation)) /\
  (forall (now : nat -> Date) (data : IEEE.RawHealthData.t) (s d : Q),
     IEEE.RawHealthData.steps data = Double.finite s ->
     IEEE.RawHealthData.distance data = Double.finite d ->
     1000 < s -> s <= 100000 ->
     ((5 # 10) * (1 + Double.sliver) <= IEEE.exactVariance s d ->
      IEEE.validateDataConsistency now data
      = Throw (rejection Validator.reasonCorrelation)) /\
     (IEEE.exactVariance s d <= (5 # 10) * (1 - Double.sliver) ->
      IEEE.validateDataConsistency now data
      <> Throw (rejection Validator.reasonCorrelation))).
Proof.
  split; [|split].
  - intros now data S. rewrite correlation_thrown.
    unfold IEEE.correlationCheck, IEEE.literal. rewrite S. reflexivity.
  - intros now data S. rewrite correlation_thrown.
    unfold IEEE.correlationCheck, IEEE.literal. rewrite S. discriminate.
  - intros now data s d Hs Hd L U.
    destruct (variance_sides data s d Hs Hd L U) as [Out In].
    assert (S0 : 0 < s) by lra.
    destruct (exactVariance_le s d ((1 # 2) * (1 + Double.sliver)) S0)
      as [[A _] _].
    destruct (exactVariance_le s d ((1 # 2) * (1 - Double.sliver)) S0)
      as [_ [B _]].
    assert (G : Double.gtb (IEEE.RawHealthData.steps data)
                  (Double.finite 1000) = true).
    { rewrite Hs. cbn [Double.gtb Double.ltb]. apply negb_true_iff.
      destruct (Qle_bool s 1000) eqn:N; [|reflexivity].
      apply Qle_bool_iff in N. lra. }
    split; intro K; rewrite correlation_thrown;
      unfold IEEE.correlationCheck, IEEE.literal; rewrite G.
    + rewrite Out; [reflexivity|]. apply A.
      setoid_replace ((1 # 2) * (1 + Double.sliver))
        with ((5 # 10) * (1 + Double.sliver)) by reflexivity.
      exact K.
    + rewrite In; [discriminate|]. apply B.
      setoid_replace ((1 # 2) * (1 - Double.sliver))
        with ((5 # 10) * (1 - Double.sliver)) by reflexivity.
      exact K.
Qed.

Lemma C2_correlation_rule_rounded_witness :
  (Double.gtb (IEEE.RawHealthData.steps Cases.longStride)
     (Double.finite 1000) = true /\
   IEEE.validateDataConsistency (Samples.clockAt 0) Cases.longStride
   = Throw (rejection Validator.reasonCorrelation)) /\
  (Double.gtb (IEEE.RawHealthData.steps Cases.shortWalk)
     (Double.finite 1000) = false /\
   IEEE.validateDataConsistency (Samples.clockAt 0) Cases.shortWalk
   <> Throw (rejection Validator.reasonCorrelation)) /\
  (IEEE.exactVariance 2000 1500 <= (5 # 10) * (1 - Double.sliver) /\
   IEEE.validateDataConsistency (Samples.clockAt 0) Cases.evenStride
   <> Throw (rejection Validator.reasonCorrelation)).
Proof.
  split; [|split]; split.
  - reflexivity.
  - apply (proj1 C2_correlation_rule_rounded (Samples.clockAt 0)
             Cases.longStride).
    + reflexivity.
    + vm_compute. reflexivity.
  - reflexivity.
  - apply (proj1 (proj2 C2_correlation_rule_rounded) (Samples.clockAt 0)
             Cases.shortWalk).
    reflexivity.
  - vm_compute. discriminate.
  - apply (proj2 (proj2 C2_correlation_rule_rounded) (Samples.clockAt 0)
             Cases.evenStride 2000 1500).
    + reflexivity.
    + reflexivity.
    + reflexivity.
    + vm_compute. discriminate.
    + vm_compute. discriminate.
Defined.

(** At the edge of the band the rounded variance is not the exact
    quotient: with 1365.3333333333333 steps and 1536 m the exact
    quotient is above one half, and the validator accepts. *)
Lemma C2_band_edge_accepted :
  Double.round (4096 # 3) = Double.finite Cases.thirds /\
  1000 < Cases.thirds /\
  5 # 10 < IEEE.exactVariance Cases.thirds 1536 /\
  IEEE.exactVariance Cases.thirds 1536 < (5 # 10) * (1 + Double.sliver) /\
  IEEE.expectedDistance Cases.bandEdge = Double.finite 1024 /\
  IEEE.distanceVariance Cases.bandEdge = Double.finite (1 # 2) /\
  IEEE.validateDataConsistency (Samples.clockAt 0) Cases.bandEdge = Ok tt.
Proof.
  split; [vm_compute; reflexivity|]. split; [reflexivity|].
  split; [reflexivity|]. repeat split; vm_compute; reflexivity.
Qed.




(** C4, as amended.  A record with no steps and no calories passes rules
    1, 2 and 5; it is accepted exactly when its workouts pass rule 3 and
    its heart-rate readings pass rule 4, and so whenever it has
    neither. *)
Theorem C4_zero_steps_zero_calories (now : nat -> Date)
    (data : RawHealthData.t) :
  RawHealthData.steps data == 0 ->
  RawHealthData.calories data == 0 ->
  ~ Rules.correlationFails data /\
  ~ Rules.caloriesFail data /\
  ~ Rules.capsFail data /\
  (Validator.validateDataConsistency now data = Ok tt <->
   ~ Rules.workoutsFail now data /\ ~ Rules.heartRateFails data) /\
  (RawHealthData.workouts data = [] ->
   RawHealthData.heartRateReadings data = [] ->
   Validator.validateDataConsistency now data = Ok tt).
Proof.
  intros S C.
  assert (N1 : ~ Rules.correlationFails data).
  { intros [L _]. rewrite S in L. discriminate L. }
  assert (N2 : ~ Rules.caloriesFail data).
  { intros [L _]. rewrite C in L. discriminate L. }
  assert (N5 : ~ Rules.capsFail data).
  { intros [L|L]; [rewrite S in L|rewrite C in L]; discriminate L. }
  assert (K : Validator.validateDataConsistency now data = Ok tt <->
              ~ Rules.workoutsFail now data /\ ~ Rules.heartRateFails data).
  { rewrite validate_ok. tauto. }
  split; [exact N1|]. split; [exact N2|]. split; [exact N5|].
  split; [exact K|].
  intros W R. apply K. split.
  - intros (k & w & Hw & _). rewrite W in Hw. destruct k; discriminate Hw.
  - intros (r & Hr & _). rewrite R in Hr. exact Hr.
Qed.

Lemma C4_zero_steps_zero_calories_witness :
  RawHealthData.steps Samples.idle == 0 /\
  RawHealthData.calories Samples.idle == 0 /\
  Validator.validateDataConsistency (Samples.clockAt 0) Samples.idle = Ok tt.
Proof.
  split; [reflexivity|]. split; [reflexivity|].
  apply (C4_zero_steps_zero_calories (Samples.clockAt 0) Samples.idle);
    reflexivity.
Defined.

(** C4 as stated fails: a record with no steps and no calories whose
    only heart-rate reading is 20 bpm is rejected by rule 4. *)
Lemma C4_low_pulse_rejected :
  RawHealthData.steps Samples.lowPulse == 0 /\
  RawHealthData.calories Samples.lowPulse == 0 /\
  Validator.validateDataConsistency (Samples.clockAt 0) Samples.lowPulse
  = Throw (rejection Validator.reasonHeartRate).
Proof.
  split; [reflexivity|]. split; reflexivity.
Qed.

(** ** MetricAggregator *)

Section Sorting.
Import HealthKit.

Variable A : Type.
Variable key : A -> Date.
Variable order : SortOrder.

Lemma inOrder_total (a b : Date) :
  inOrder order a b = false -> inOrder order b a = true.
Proof.
  destruct order; simpl; intro H; apply Qle_bool_iff;
    apply Qlt_le_weak; apply gtb_lt; unfold Num.gtb; rewrite H; reflexivity.
Qed.

Lemma inOrder_trans (a b c : Date) :
  inOrder order a b = true -> inOrder order b c = true ->
  inOrder order a c = true.
Proof.
  destruct order; simpl; rewrite !Qle_bool_iff; intros H K.
  - exact (Qle_trans _ _ _ H K).
  - exact (Qle_trans _ _ _ K H).
Qed.

Lemma insert_In (x y : A) (l : list A) :
  In y (insert key order x l) -> y = x \/ In y l.
Proof.
  induction l as [|z l IH]; simpl.
  - intros [<-|[]]. left. reflexivity.
  - destruct (inOrder order (key x) (key z)); simpl.
    + intros [<-|H]; [left; reflexivity|right; exact H].
    + intros [<-|H]; [right; left; reflexivity|].
      destruct (IH H) as [->|K]; [left; reflexivity|right; right; exact K].
Qed.

Lemma insert_sorted (x : A) (l : list A) :
  StronglySorted (before key order) l ->
  StronglySorted (before key order) (insert key order x l).
Proof.
  induction 1 as [|z l S IH F]; simpl.
  - constructor; constructor.
  - destruct (inOrder order (key x) (key z)) eqn:E.
    + constructor; [constructor; assumption|].
      constructor; [exact E|].
      rewrite Forall_forall in F |- *. intros y Hy.
      exact (inOrder_trans _ _ _ E (F y Hy)).
    + constructor; [exact IH|].
      rewrite Forall_forall in F |- *. intros y Hy.
      destruct (insert_In _ _ _ Hy) as [->|K].
      * exact (inOrder_total _ _ E).
      * exact (F y K).
Qed.

Lemma sorted_sorted (l : list A) :
  StronglySorted (before key order) (sorted key order l).
Proof.
  induction l as [|x l IH]; simpl; [constructor|].
  apply insert_sorted. exact IH.
Qed.

End Sorting.

Lemma StronglySorted_map {A B : Type} (f : A -> B)
    (R : A -> A -> Prop) (R' : B -> B -> Prop) (l : list A) :
  (forall a b, R a b -> R' (f a) (f b)) ->
  StronglySorted R l -> StronglySorted R' (map f l).
Proof.
  intros H. induction 1 as [|x l S IH F]; simpl; constructor.
  - exact IH.
  - rewrite Forall_forall in F |- *. intros y Hy.
    apply in_map_iff in Hy. destruct Hy as (a & <- & Ha).
    apply H, F, Ha.
Qed.

Section AggregatorFacts.
Import HealthKit.

Variable startOfDay : Date -> Date.
Variable addingOneDay : Date -> Date.

(** The heart-rate readings come oldest first. *)
Lemma fetchHeartRateReadings_ascending (healthStore : HKHealthStore.t)
    (date : Date) (readings : list HeartRateReading.t) :
  Manager.fetchHeartRateReadings startOfDay addingOneDay healthStore date
  = Ok readings ->
  Manager.ascending HeartRateReading.timestamp readings.
Proof.
  unfold Manager.fetchHeartRateReadings, Manager.fetchSamples, quantityResult.
  destruct (HKHealthStore.failure healthStore (quantitySample heartRate));
    simpl; [discriminate|].
  intro H. injection H as <-.
  apply (StronglySorted_map _ (before HKQuantitySample.startDate forward)).
  - intros a b L. simpl. apply Qle_bool_iff. exact L.
  - apply sorted_sorted.
Qed.

(** The workouts come newest first. *)
Lemma fetchWorkouts_descending (healthStore : HKHealthStore.t)
    (date : Date) (workouts : list WorkoutData.t) :
  Manager.fetchWorkouts startOfDay addingOneDay healthStore date
  = Ok workouts ->
  Manager.descending WorkoutData.startDate workouts.
Proof.
  unfold Manager.fetchWorkouts, workoutResult.
  destruct (HKHealthStore.failure healthStore workout);
    simpl; [discriminate|].
  intro H. injection H as <-.
  apply (StronglySorted_map _ (before HKWorkout.startDate reverse)).
  - intros a b L. simpl. apply Qle_bool_iff. exact L.
  - apply sorted_sorted.
Qed.

(** What a successful aggregation is made of. *)
Lemma aggregate_Ok (healthStore : nat -> HKHealthStore.t)
    (device : Manager.UIDevice.t) (now : nat -> Date) (date : Date)
    (rawData : RawHealthData.t) :
  Manager.aggregate startOfDay addingOneDay healthStore device now date
  = Ok rawData ->
  Manager.fetchWorkouts startOfDay addingOneDay (healthStore 3%nat) date
  = Ok (RawHealthData.workouts rawData) /\
  Manager.fetchHeartRateReadings startOfDay addingOneDay
    (healthStore 4%nat) date
  = Ok (RawHealthData.heartRateReadings rawData).
Proof.
  unfold Manager.aggregate.
  destruct (Manager.fetchSteps _ _ _ _); simpl; [|discriminate].
  destruct (Manager.fetchCalories _ _ _ _); simpl; [|discriminate].
  destruct (Manager.fetchDistance _ _ _ _); simpl; [|discriminate].
  destruct (Manager.fetchWorkouts _ _ _ _); simpl; [|discriminate].
  destruct (Manager.fetchHeartRateReadings _ _ _ _); simpl; [|discriminate].
  intro H. injection H as <-. split; reflexivity.
Qed.

End AggregatorFacts.

(** C10, as amended.  In the record the aggregator builds, the heart-rate
    readings are ordered by sample time ascending and the workouts by
    start time descending, for every calendar, store and day. *)
Theorem C10_sample_order (startOfDay addingOneDay : Date -> Date)
    (healthStore : nat -> HealthKit.HKHealthStore.t)
    (device : Manager.UIDevice.t) (now : nat -> Date) (date : Date)
    (rawData : RawHealthData.t) :
  Manager.aggregate startOfDay addingOneDay healthStore device now date
  = Ok rawData ->
  Manager.ascending HeartRateReading.timestamp
    (RawHealthData.heartRateReadings rawData) /\
  Manager.descending WorkoutData.startDate (RawHealthData.workouts rawData).
Proof.
  intro H. apply aggregate_Ok in H. destruct H as [W R]. split.
  - exact (fetchHeartRateReadings_ascending _ _ _ _ _ R).
  - exact (fetchWorkouts_descending _ _ _ _ _ W).
Qed.

Lemma C10_sample_order_witness :
  Manager.aggregate Manager.utcStartOfDay Manager.utcAddingOneDay
    (fun _ => Samples.store) Samples.phone (Samples.clockAt 1000) 0
  = Ok (Samples.aggregated 1000) /\
  Manager.ascending HeartRateReading.timestamp
    (RawHealthData.heartRateReadings (Samples.aggregated 1000)) /\
  Manager.descending WorkoutData.startDate
    (RawHealthData.workouts (Samples.aggregated 1000)).
Proof.
  split.
  - reflexivity.
  - apply (C10_sample_order Manager.utcStartOfDay Manager.utcAddingOneDay
             (fun _ => Samples.store) Samples.phone (Samples.clockAt 1000) 0).
    reflexivity.
Defined.

(** C10 as stated fails: from a store with a workout at time 10 and one
    at time 20 the aggregator builds a record whose workouts are the one
    of time 20 and then the one of time 10, which is not ascending. *)
Lemma C10_workouts_newest_first :
  Manager.aggregate Manager.utcStartOfDay Manager.utcAddingOneDay
    (fun _ => Samples.store) Samples.phone (Samples.clockAt 1000) 0
  = Ok (Samples.aggregated 1000) /\
  map WorkoutData.startDate
    (RawHealthData.workouts (Samples.aggregated 1000)) = [20; 10] /\
  ~ Manager.ascending WorkoutData.startDate
      (RawHealthData.workouts (Samples.aggregated 1000)).
Proof.
  split; [reflexivity|]. split; [reflexivity|].
  intro S. inversion S as [|w l _ F]; subst.
  inversion F as [|w' l' L _]; subst.
  apply L. reflexivity.
Qed.

(** ** The pipeline: aggregate, validate, sign *)

Section PipelineFacts.
Import HealthKit.

Variable startOfDay : Date -> Date.
Variable addingOneDay : Date -> Date.
Variable encode : RawHealthData.t -> Data.
Variable authenticationCode : Data -> Data -> Data.
Variable base64EncodedString : Data -> string.
Variable signingKey : string.

(** [fetchVerifiedHealthData] is the aggregation, then the validation of
    the aggregated record, then its signing. *)
Lemma fetchVerifiedHealthData_stages (healthStore : nat -> HKHealthStore.t)
    (device : Manager.UIDevice.t) (now : nat -> Date) (date : Date) :
  Manager.fetchVerifiedHealthData startOfDay addingOneDay encode
    authenticationCode base64EncodedString signingKey
    healthStore device now date
  = match Manager.aggregate startOfDay addingOneDay healthStore device
            now date with
    | Throw e => Throw e
    | Ok rawData =>
        match Validator.validateDataConsistency
                (Manager.afterTimestamp now) rawData with
        | Throw e => Throw e
        | Ok _ =>
            Manager.createVerifiedData encode authenticationCode
              base64EncodedString signingKey rawData
        end
    end.
Proof.
  unfold Manager.fetchVerifiedHealthData, Manager.aggregate.
  destruct (Manager.fetchSteps _ _ _ _); simpl; [|reflexivity].
  destruct (Manager.fetchCalories _ _ _ _); simpl; [|reflexivity].
  destruct (Manager.fetchDistance _ _ _ _); simpl; [|reflexivity].
  destruct (Manager.fetchWorkouts _ _ _ _); simpl; [|reflexivity].
  destruct (Manager.fetchHeartRateReadings _ _ _ _); simpl; [|reflexivity].
  destruct (Validator.validateDataConsistency _ _); reflexivity.
Qed.

(** A record the signer has just produced verifies under the signing
    key. *)
Lemma createVerifiedData_verifies (rawData : RawHealthData.t)
    (verifiedData : VerifiedHealthData.t) :
  Manager.createVerifiedData encode authenticationCode base64EncodedString
    signingKey rawData
  = Ok verifiedData ->
  Manager.verifyRecord encode authenticationCode base64EncodedString
    verifiedData signingKey
  = true.
Proof.
  unfold Manager.createVerifiedData, Manager.verifyRecord.
  intro H. injection H as <-. simpl. apply String.eqb_refl.
Qed.

End PipelineFacts.

Section PipelineInDoubles.

Variable startOfDay : Date -> Date.
Variable addingOneDay : Date -> Date.
Variable serialize : IEEE.RawHealthData.t -> Data.
Variable authenticationCode : Data -> Data -> Data.
Variable base64EncodedString : Data -> string.
Variable signingKey : string.

(** [fetchVerifiedHealthData] is the aggregation, then the validation of
    the aggregated record, then its signing. *)
Lemma pipeline_stages (healthStore : nat -> IEEE.HKHealthStore.t)
    (device : Manager.UIDevice.t) (now : nat -> Date) (date : Date) :
  IEEE.fetchVerifiedHealthData startOfDay addingOneDay serialize
    authenticationCode base64EncodedString signingKey
    healthStore device now date
  = match IEEE.aggregate startOfDay addingOneDay healthStore device
            now date with
    | Throw e => Throw e
    | Ok rawData =>
        match IEEE.validateDataConsistency
                (Manager.afterTimestamp now) rawData with
        | Throw e => Throw e
        | Ok _ =>
            IEEE.createVerifiedData serialize authenticationCode
              base64EncodedString signingKey rawData
        end
    end.
Proof.
  unfold IEEE.fetchVerifiedHealthData, IEEE.aggregate.
  destruct (IEEE.fetchSteps _ _ _ _); cbn [bind]; [|reflexivity].
  destruct (IEEE.fetchCalories _ _ _ _); cbn [bind]; [|reflexivity].
  destruct (IEEE.fetchDistance _ _ _ _); cbn [bind]; [|reflexivity].
  destruct (IEEE.fetchWorkouts _ _ _ _); cbn [bind]; [|reflexivity].
  destruct (IEEE.fetchHeartRateReadings _ _ _ _); cbn [bind]; [|reflexivity].
  destruct (IEEE.validateDataConsistency _ _); cbn [bind]; [|reflexivity].
  destruct (IEEE.createVerifiedData _ _ _ _ _); reflexivity.
Qed.

(** The signer signs exactly the records the encoder takes. *)
Lemma createVerifiedData_outcome (rawData : IEEE.RawHealthData.t) :
  IEEE.createVerifiedData serialize authenticationCode base64EncodedString
    signingKey rawData
  = if IEEE.allFinite rawData
    then Ok {| IEEE.VerifiedHealthData.rawData := rawData;
               IEEE.VerifiedHealthData.signature :=
                 base64EncodedString
                   (authenticationCode (serialize rawData)
                                       (list_byte_of_string signingKey));
               IEEE.VerifiedHealthData.version := "1.0" |}
    else Throw encodingError.
Proof.
  unfold IEEE.createVerifiedData, IEEE.encode.
  destruct (IEEE.allFinite rawData); reflexivity.
Qed.

End PipelineInDoubles.

(** C6, as amended.  Once the five fetches have produced the aggregated
    record, the pipeline returns a signed record exactly when the
    validator accepts that record and the encoder takes it, which it
    does when every [Double] of the record is finite; the signed record
    is the signature over it.  When the validator rejects, the call
    throws the validator's error; when it accepts a record that has a
    [Double] that is not finite, the call throws the encoder's error.
    A signed record that is returned carries data the validator
    accepted. *)
Theorem C6_signed_when_accepted_and_encoded
    (startOfDay addingOneDay : Date -> Date)
    (serialize : IEEE.RawHealthData.t -> Data)
    (authenticationCode : Data -> Data -> Data)
    (base64EncodedString : Data -> string) (signingKey : string)
    (healthStore : nat -> IEEE.HKHealthStore.t)
    (device : Manager.UIDevice.t) (now : nat -> Date) (date : Date)
    (rawData : IEEE.RawHealthData.t) :
  IEEE.aggregate startOfDay addingOneDay healthStore device now date
  = Ok rawData ->
  let result :=
    IEEE.fetchVerifiedHealthData startOfDay addingOneDay serialize
      authenticationCode base64EncodedString signingKey
      healthStore device now date in
  let verdict :=
    IEEE.validateDataConsistency (Manager.afterTimestamp now) rawData in
  ((exists verifiedData, result = Ok verifiedData) <->
   verdict = Ok tt /\ IEEE.allFinite rawData = true) /\
  (forall e, verdict = Throw e -> result = Throw e) /\
  (verdict = Ok tt -> IEEE.allFinite rawData = false ->
   result = Throw encodingError) /\
  (forall verifiedData,
     result = Ok verifiedData ->
     verdict = Ok tt /\
     IEEE.VerifiedHealthData.rawData verifiedData = rawData /\
     IEEE.VerifiedHealthData.signature verifiedData
     = base64EncodedString
         (authenticationCode (serialize rawData)
                             (list_byte_of_string signingKey)) /\
     IEEE.VerifiedHealthData.version verifiedData = "1.0"%string).
Proof.
  intros H result verdict. subst result verdict.
  rewrite pipeline_stages, H, createVerifiedData_outcome.
  destruct (IEEE.validateDataConsistency (Manager.afterTimestamp now)
              rawData) as [[]|e0].
  - destruct (IEEE.allFinite rawData);
      split; [|split; [|split] | |split; [|split]].
    + split; [intros _; split; reflexivity|]. intros _. eexists. reflexivity.
    + discriminate.
    + discriminate.
    + intros v E. injection E as <-. repeat split.
    + split; [intros [v E]; discriminate E|intros [_ E]; discriminate E].
    + discriminate.
    + reflexivity.
    + discriminate.
  - split; [|split; [|split]].
    + split; [intros [v E]; discriminate E|intros [E _]; discriminate E].
    + intros e E. injection E as <-. reflexivity.
    + discriminate.
    + discriminate.
Qed.

Lemma C6_signed_when_accepted_and_encoded_witness :
  IEEE.aggregate Manager.utcStartOfDay Manager.utcAddingOneDay
    (fun _ => Cases.stroll) Samples.phone (Samples.clockAt 0) 0
  = Ok (Cases.measured 500 0 0 []
          [ {| IEEE.HeartRateReading.bpm := Double.ofZ 60;
               IEEE.HeartRateReading.timestamp := 50 |} ]) /\
  ((exists verifiedData,
      IEEE.fetchVerifiedHealthData Manager.utcStartOfDay
        Manager.utcAddingOneDay Cases.noBytes Samples.plainCode
        Samples.plainString "key" (fun _ => Cases.stroll) Samples.phone
        (Samples.clockAt 0) 0
      = Ok verifiedData) <->
   IEEE.validateDataConsistency
     (Manager.afterTimestamp (Samples.clockAt 0))
     (Cases.measured 500 0 0 []
        [ {| IEEE.HeartRateReading.bpm := Double.ofZ 60;
             IEEE.HeartRateReading.timestamp := 50 |} ])
   = Ok tt /\
   IEEE.allFinite
     (Cases.measured 500 0 0 []
        [ {| IEEE.HeartRateReading.bpm := Double.ofZ 60;
             IEEE.HeartRateReading.timestamp := 50 |} ])
   = true).
Proof.
  assert (A : IEEE.aggregate Manager.utcStartOfDay Manager.utcAddingOneDay
                (fun _ => Cases.stroll) Samples.phone
                (Samples.clockAt 0) 0
              = Ok (Cases.measured 500 0 0 []
                      [ {| IEEE.HeartRateReading.bpm := Double.ofZ 60;
                           IEEE.HeartRateReading.timestamp := 50 |} ])).
  { vm_compute. reflexivity. }
  split; [exact A|].
  apply (C6_signed_when_accepted_and_encoded Manager.utcStartOfDay
           Manager.utcAddingOneDay Cases.noBytes Samples.plainCode
           Samples.plainString "key" (fun _ => Cases.stroll)
           Samples.phone (Samples.clockAt 0) 0 _ A).
Defined.

(** Two distance samples of [2 ^ 1023] m add up to infinity; without
    steps the validator does not look at the distance and accepts, and
    the encoder throws: an accepted record that is not signed. *)
Lemma C6_accepted_record_not_signed :
  IEEE.aggregate Manager.utcStartOfDay Manager.utcAddingOneDay
    (fun _ => Cases.overflowing) Samples.phone (Samples.clockAt 1000) 0
  = Ok (Cases.overflowed 1000) /\
  IEEE.validateDataConsistency
    (Manager.afterTimestamp (Samples.clockAt 1000)) (Cases.overflowed 1000)
  = Ok tt /\
  IEEE.fetchVerifiedHealthData Manager.utcStartOfDay
    Manager.utcAddingOneDay Cases.noBytes Samples.plainCode
    Samples.plainString "key" (fun _ => Cases.overflowing) Samples.phone
    (Samples.clockAt 1000) 0
  = Throw encodingError.
Proof.
  split; [vm_compute; reflexivity|]. split; vm_compute; reflexivity.
Qed.

(** ** SyncCoordinator *)

Section SyncFacts.
Import Sync.

Variable throws : External -> World -> bool.

(** The scores after the [try] block, wherever it stopped. *)
Lemma tryBlock_effect (mock : Points.HealthData) (now : Date) (w : World) :
  let w' := fst (tryBlock throws mock now w) in
  userScore (state w')
  = userScore (state w) + Points.calculateHealthPoints mock /\
  weekPoints (state w')
  = weekPoints (state w) + Points.calculateHealthPoints mock /\
  (snd (tryBlock throws mock now w) = None ->
   status (healthState w') = synced).
Proof.
  unfold tryBlock, seq, assign, call, updateHealthUI. simpl.
  destruct (throws saveState _); simpl; [repeat split; discriminate|].
  destruct (throws updateUI _); simpl; [repeat split; discriminate|].
  destruct (throws (showToast _) _); simpl; repeat split; discriminate.
Qed.

Lemma catchBlock_effect (w : World) :
  state (fst (catchBlock throws w)) = state w /\
  status (healthState (fst (catchBlock throws w))) = error.
Proof.
  unfold catchBlock, seq, assign, call, updateHealthUI. simpl.
  split; reflexivity.
Qed.

Lemma finallyBlock_effect (w : World) :
  finallyBlock w = (setIsSyncing false w, None).
Proof. reflexivity. Qed.

(** Every run of the statement ends in the [finally] block. *)
Lemma tryCatchFinally_final (body handler : JS) (w : World) :
  exists w1,
    fst (tryCatchFinally body handler finallyBlock w) = setIsSyncing false w1 /\
    (w1 = fst (body w) /\ snd (body w) = None \/
     w1 = fst (handler (fst (body w))) /\ snd (body w) <> None).
Proof.
  unfold tryCatchFinally.
  destruct (body w) as [w1 [e|]]; simpl.
  - destruct (handler w1) as [w2 [e'|]]; simpl;
      (exists w2; split; [reflexivity|right]; split;
       [reflexivity|discriminate]).
  - exists w1. split; [reflexivity|left; split; reflexivity].
Qed.

Lemma resume_world (mock : Points.HealthData) (now : Date) (w : World) :
  fst (syncHealthData_resume throws mock now w)
  = fst (tryCatchFinally (tryBlock throws mock now) (catchBlock throws)
           finallyBlock w).
Proof.
  unfold syncHealthData_resume.
  destruct (tryCatchFinally _ _ _ w) as [w' [e|]]; reflexivity.
Qed.

(** A sync clears [isSyncing] when it completes, however it completes. *)
Lemma resume_isSyncing (mock : Points.HealthData) (now : Date) (w : World) :
  isSyncing (healthState (fst (syncHealthData_resume throws mock now w)))
  = false.
Proof.
  rewrite resume_world.
  destruct (tryCatchFinally_final (tryBlock throws mock now)
              (catchBlock throws) w) as (w1 & -> & _).
  reflexivity.
Qed.

Lemma begin_busy (random : nat -> Q) (w : World) :
  isSyncing (healthState w) = true ->
  syncHealthData_begin random w = (w, settled fulfilled).
Proof. unfold syncHealthData_begin. intros ->. reflexivity. Qed.

Lemma begin_idle (random : nat -> Q) (w : World) :
  isSyncing (healthState w) = false ->
  syncHealthData_begin random w
  = (setIsSyncing true w, suspended (drawMockData random)).
Proof. unfold syncHealthData_begin. intros ->. reflexivity. Qed.

Lemma fetchHealthStatus_isSyncing (response : StatusResponse) (now : Date)
    (w : World) :
  isSyncing (healthState (fetchHealthStatus_resume response now w))
  = isSyncing (healthState w).
Proof. destruct response; reflexivity. Qed.

(** [isSyncing] is set exactly while one sync is suspended, and no more
    than one ever is. *)
Lemma step_oneInFlight (p : Page) (e : Event) :
  oneInFlight p -> oneInFlight (step throws p e).
Proof.
  unfold oneInFlight. destruct p as [w l]. simpl. intro I.
  destruct e as [random | k now | response now]; simpl.
  - destruct (isSyncing (healthState w)) eqn:B.
    + rewrite (begin_busy random w B). simpl. rewrite B. exact I.
    + rewrite (begin_idle random w B). simpl. rewrite I.
      exists (drawMockData random). reflexivity.
  - destruct (nth_error l k) as [mock|] eqn:N; simpl; [|exact I].
    rewrite resume_isSyncing.
    destruct (isSyncing (healthState w)).
    + destruct I as [m ->]. destruct k as [|k]; [reflexivity|].
      destruct k; discriminate N.
    + subst l. destruct k; discriminate N.
  - rewrite fetchHealthStatus_isSyncing. exact I.
Qed.

Lemma run_oneInFlight (events : list Event) (p : Page) :
  oneInFlight p -> oneInFlight (run throws events p).
Proof.
  unfold run. revert p.
  induction events as [|e events IH]; intros p I; simpl; [exact I|].
  apply IH, step_oneInFlight, I.
Qed.

Lemma loaded_oneInFlight (app : AppState) : oneInFlight (loaded app).
Proof. reflexivity. Qed.

End SyncFacts.

(** C7, as amended.  In every state the page reaches, at most one sync
    is in flight; while one is ([isSyncing] set), a further call of
    [syncHealthData] returns at once with its promise fulfilled with
    [undefined], starts nothing and leaves the world and the suspended
    sync as they were, so that everything that happens afterwards,
    the completion of the sync in flight included, is as without the
    call. *)
Theorem C7_second_request_returns_at_once
    (throws : Sync.External -> Sync.World -> bool) (app : Sync.AppState)
    (events : list Sync.Event) (random : nat -> Q) :
  let p := Sync.run throws events (Sync.loaded app) in
  (List.length (Sync.inFlight p) <= 1)%nat /\
  (Sync.isSyncing (Sync.healthState (Sync.world p)) = true ->
   (exists mock, Sync.inFlight p = [mock]) /\
   Sync.syncHealthData_begin random (Sync.world p)
   = (Sync.world p, Sync.settled Sync.fulfilled) /\
   Sync.step throws p (Sync.syncRequested random) = p /\
   forall later,
     Sync.run throws (Sync.syncRequested random :: later) p
     = Sync.run throws later p).
Proof.
  intro p.
  pose proof (run_oneInFlight throws events _ (loaded_oneInFlight app)) as I.
  fold p in I. unfold Sync.oneInFlight in I. split.
  - destruct (Sync.isSyncing _); [destruct I as [m ->]|rewrite I]; simpl; lia.
  - intro B. rewrite B in I.
    assert (S : Sync.step throws p (Sync.syncRequested random) = p).
    { unfold Sync.step. rewrite (begin_busy random _ B).
      destruct p; reflexivity. }
    split; [exact I|]. split; [exact (begin_busy random _ B)|].
    split; [exact S|].
    intro later.
    change (Sync.run throws later
              (Sync.step throws p (Sync.syncRequested random))
            = Sync.run throws later p).
    rewrite S. reflexivity.
Qed.

Lemma C7_second_request_returns_at_once_witness :
  Sync.isSyncing (Sync.healthState
                    (Sync.world (Samples.syncing Samples.neverThrows)))
  = true /\
  Sync.step Samples.neverThrows (Samples.syncing Samples.neverThrows)
    (Sync.syncRequested Samples.zeroDraws)
  = Samples.syncing Samples.neverThrows.
Proof.
  split.
  - reflexivity.
  - apply (C7_second_request_returns_at_once Samples.neverThrows
             Samples.scores [Sync.syncRequested Samples.zeroDraws]
             Samples.zeroDraws).
    reflexivity.
Defined.

(** C7 as stated fails: with a sync in flight, the second call is not
    rejected with any error; its promise is fulfilled with [undefined],
    as for a call that has nothing to report. *)
Lemma C7_second_request_not_rejected :
  Sync.isSyncing (Sync.healthState
                    (Sync.world (Samples.syncing Samples.neverThrows)))
  = true /\
  snd (Sync.syncHealthData_begin Samples.zeroDraws
         (Sync.world (Samples.syncing Samples.neverThrows)))
  = Sync.settled Sync.fulfilled /\
  ~ (exists e,
       snd (Sync.syncHealthData_begin Samples.zeroDraws
              (Sync.world (Samples.syncing Samples.neverThrows)))
       = Sync.settled (Sync.rejected e)).
Proof.
  split; [reflexivity|]. split; [reflexivity|].
  intros [e H]. discriminate H.
Qed.

(** C8, as amended.  The matchup score and the week points are changed
    by the [try] block alone, which adds
    [calculateHealthPoints(mockData)] to each of them once; the [catch]
    block, the [finally] block and a call refused because a sync is in
    progress leave them as they are; a sync that ends with status
    [synced] has added the points exactly once. *)
Theorem C8_points_are_added_by_the_try_block
    (throws : Sync.External -> Sync.World -> bool) :
  (forall w, Sync.state (fst (Sync.catchBlock throws w)) = Sync.state w) /\
  (forall w, Sync.state (fst (Sync.finallyBlock w)) = Sync.state w) /\
  (forall random w, Sync.state (fst (Sync.syncHealthData_begin random w))
                    = Sync.state w) /\
  (forall random w,
     Sync.isSyncing (Sync.healthState w) = true ->
     fst (Sync.syncHealthData_begin random w) = w) /\
  (forall mock now w,
     let w' := fst (Sync.tryBlock throws mock now w) in
     Sync.userScore (Sync.state w')
     = Sync.userScore (Sync.state w) + Points.calculateHealthPoints mock /\
     Sync.weekPoints (Sync.state w')
     = Sync.weekPoints (Sync.state w) + Points.calculateHealthPoints mock) /\
  (forall mock now w,
     let w' := fst (Sync.syncHealthData_resume throws mock now w) in
     Sync.status (Sync.healthState w') = Sync.synced ->
     Sync.userScore (Sync.state w')
     = Sync.userScore (Sync.state w) + Points.calculateHealthPoints mock /\
     Sync.weekPoints (Sync.state w')
     = Sync.weekPoints (Sync.state w) + Points.calculateHealthPoints mock).
Proof.
  split; [intro w; apply catchBlock_effect|].
  split; [reflexivity|].
  split; [intros random w; unfold Sync.syncHealthData_begin;
          destruct (Sync.isSyncing _); reflexivity|].
  split; [intros random w B; rewrite (begin_busy random w B); reflexivity|].
  split.
  - intros mock now w. simpl.
    destruct (tryBlock_effect throws mock now w) as (U & W & _).
    split; assumption.
  - intros mock now w. simpl. rewrite resume_world.
    destruct (tryBlock_effect throws mock now w) as (U & W & _).
    destruct (tryCatchFinally_final (Sync.tryBlock throws mock now)
                (Sync.catchBlock throws) w) as (w1 & -> & [[-> _]|[-> _]]).
    + intros _. split; assumption.
    + intro E. exfalso.
      change (Sync.status
                (Sync.healthState
                   (fst (Sync.catchBlock throws
                           (fst (Sync.tryBlock throws mock now w)))))
              = Sync.synced) in E.
      rewrite (proj2 (catchBlock_effect throws _)) in E. discriminate E.
Qed.

Lemma C8_points_are_added_by_the_try_block_witness :
  Sync.status (Sync.healthState (Samples.completedWorld Samples.neverThrows))
  = Sync.synced /\
  Sync.userScore (Sync.state (Samples.completedWorld Samples.neverThrows))
  = Sync.userScore (Sync.state (Samples.suspendedWorld Samples.neverThrows))
    + Points.calculateHealthPoints (Sync.drawMockData Samples.zeroDraws).
Proof.
  split.
  - reflexivity.
  - apply (proj2 (proj2 (proj2 (proj2 (proj2
             (C8_points_are_added_by_the_try_block Samples.neverThrows)))))
             (Sync.drawMockData Samples.zeroDraws) 2000
             (Samples.suspendedWorld Samples.neverThrows)).
    reflexivity.
Defined.

(** C8 as stated fails: when [saveState] throws, the sync ends in the
    [catch] block with status [error], and the matchup score and the
    week points have gone up by the 16 points of the sync all the
    same. *)
Lemma C8_failed_sync_keeps_points :
  Sync.status (Sync.healthState (Samples.completedWorld Samples.storageFull))
  = Sync.error /\
  Sync.userScore (Sync.state (Samples.suspendedWorld Samples.storageFull))
  == 100 /\
  Sync.userScore (Sync.state (Samples.completedWorld Samples.storageFull))
  == 116 /\
  Sync.weekPoints (Sync.state (Samples.suspendedWorld Samples.storageFull))
  == 40 /\
  Sync.weekPoints (Sync.state (Samples.completedWorld Samples.storageFull))
  == 56 /\
  ~ Sync.userScore (Sync.state (Samples.completedWorld Samples.storageFull))
    == Sync.userScore
         (Sync.state (Samples.suspendedWorld Samples.storageFull)).
Proof.
  repeat split; try reflexivity. discriminate.
Qed.

(** C9.  A sync clears [isSyncing] when it completes, whatever the host
    functions do and however its promise settles; so whenever the page
    is syncing, the sync in flight is there to complete, its completion
    leaves the page not syncing with nothing in flight, and the next
    call of [syncHealthData] starts a sync. *)
Theorem C9_syncing_is_left
    (throws : Sync.External -> Sync.World -> bool) :
  (forall mock now w,
     Sync.isSyncing
       (Sync.healthState (fst (Sync.syncHealthData_resume throws mock now w)))
     = false) /\
  (forall app events,
     let p := Sync.run throws events (Sync.loaded app) in
     Sync.isSyncing (Sync.healthState (Sync.world p)) = true ->
     exists mock,
       Sync.inFlight p = [mock] /\
       forall now,
         let p' := Sync.step throws p (Sync.timerFired 0 now) in
         Sync.world p' = fst (Sync.syncHealthData_resume throws mock now
                                (Sync.world p)) /\
         Sync.isSyncing (Sync.healthState (Sync.world p')) = false /\
         Sync.inFlight p' = [] /\
         forall random,
           snd (Sync.syncHealthData_begin random (Sync.world p'))
           = Sync.suspended (Sync.drawMockData random)).
Proof.
  split; [apply resume_isSyncing|].
  intros app events p B.
  pose proof (run_oneInFlight throws events _ (loaded_oneInFlight app)) as I.
  fold p in I. unfold Sync.oneInFlight in I. rewrite B in I.
  destruct I as [mock I]. exists mock. split; [exact I|].
  intros now p'. subst p'. unfold Sync.step. rewrite I. simpl.
  split; [reflexivity|]. split; [apply resume_isSyncing|].
  split; [reflexivity|].
  intro random. rewrite begin_idle; [reflexivity|apply resume_isSyncing].
Qed.

Lemma C9_syncing_is_left_witness :
  Sync.isSyncing (Sync.healthState
                    (Sync.world (Samples.syncing Samples.storageFull)))
  = true /\
  exists mock,
    Sync.inFlight (Samples.syncing Samples.storageFull) = [mock] /\
    forall now,
      Sync.isSyncing
        (Sync.healthState
           (Sync.world (Sync.step Samples.storageFull
                          (Samples.syncing Samples.storageFull)
                          (Sync.timerFired 0 now))))
      = false.
Proof.
  split.
  - reflexivity.
  - destruct (proj2 (C9_syncing_is_left Samples.storageFull)
                Samples.scores [Sync.syncRequested Samples.zeroDraws]
                eq_refl) as (mock & I & H).
    exists mock. split; [exact I|].
    intro now. exact (proj1 (proj2 (H now))).
Defined.

(** * Further properties of the code *)

(** ** ConsistencyValidator: what acceptance means *)

(** X1.  The validator accepts a record exactly when the record is
    within every bound it checks, a value that is NaN being within
    each: steps not above 100000 and calories not above 10000, every
    heart-rate reading neither below 30 nor above 250, every workout
    not longer than 86400 s and not started after its clock reading,
    calories (if above zero) backed by workout calories that do not sum
    to zero or by steps not below 100, and, with more than 1000 steps,
    a computed variance of the distance not above one half.  That
    variance keeps a distance that is a number within the band of the
    rule, widened by its [2 ^ -50]-th part: from 0.375 to 1.125 metres
    a step. *)
Theorem X1_accepted_within_bounds (now : nat -> Date)
    (data : IEEE.RawHealthData.t) :
  (IEEE.validateDataConsistency now data = Ok tt <->
  Double.notAbove 100000 (IEEE.RawHealthData.steps data) /\
  Double.notAbove 10000 (IEEE.RawHealthData.calories data) /\
  Forall (fun r => Double.notBelow 30 (IEEE.HeartRateReading.bpm r) /\
                   Double.notAbove 250 (IEEE.HeartRateReading.bpm r))
         (IEEE.RawHealthData.heartRateReadings data) /\
  (forall k w,
     nth_error (IEEE.RawHealthData.workouts data) k = Some w ->
     Double.notAbove 86400 (IEEE.WorkoutData.duration w) /\
     IEEE.WorkoutData.startDate w <= now k) /\
  (Double.gtb (IEEE.RawHealthData.calories data) (Double.finite 0) = true ->
   Double.eqb (IEEE.workoutCalories data) (Double.finite 0) = true ->
   Double.notBelow 100 (IEEE.RawHealthData.steps data)) /\
  (Double.gtb (IEEE.RawHealthData.steps data) (Double.finite 1000) = true ->
   Double.notAbove (5 # 10) (IEEE.distanceVariance data))) /\
  (forall s d : Q,
     IEEE.validateDataConsistency now data = Ok tt ->
     IEEE.RawHealthData.steps data = Double.finite s ->
     IEEE.RawHealthData.distance data = Double.finite d ->
     1000 < s ->
     (3 # 8) * (1 - Double.sliver) * s <= d /\
     d <= (9 # 8) * (1 + Double.sliver) * s).
Proof.
  split.
  2:{ intros s d A Hs Hd L. apply validate_accepts in A.
      destruct A as (C & _ & _ & _ & S & _).
      rewrite Hs in S. unfold IEEE.literal in S.
      apply gtb_notAbove in S. cbn [Double.notAbove] in S.
      destruct (variance_sides data s d Hs Hd L S) as [Out _].
      unfold IEEE.correlationCheck, IEEE.literal in C. rewrite Hs in C.
      assert (G : Double.gtb (Double.finite s) (Double.finite 1000) = true).
      { cbn [Double.gtb Double.ltb]. apply negb_true_iff.
        destruct (Qle_bool s 1000) eqn:N; [|reflexivity].
        apply Qle_bool_iff in N. lra. }
      rewrite G in C. cbn [andb] in C.
      assert (K : Qabs (d - s * (75 # 100))
                  < (1 # 2) * (1 + Double.sliver) * (s * (75 # 100))).
      { apply Qnot_le_lt. intro N. rewrite (Out N) in C. discriminate C. }
      apply Qabs_Qlt_condition in K. unfold Double.sliver in *.
      destruct K. split; lra. }
  rewrite validate_accepts, workouts_pass, heartRates_pass.
  unfold IEEE.literal. rewrite !gtb_notAbove.
  assert (C1 : IEEE.correlationCheck data = false <->
               (Double.gtb (IEEE.RawHealthData.steps data)
                  (Double.finite 1000) = true ->
                Double.notAbove (5 # 10) (IEEE.distanceVariance data))).
  { unfold IEEE.correlationCheck, IEEE.literal.
    rewrite <- gtb_notAbove.
    destruct (Double.gtb (IEEE.RawHealthData.steps data)
                (Double.finite 1000)); simpl andb.
    - tauto.
    - split; [discriminate|reflexivity]. }
  assert (C2 : IEEE.caloriesCheck data = false <->
               (Double.gtb (IEEE.RawHealthData.calories data)
                  (Double.finite 0) = true ->
                Double.eqb (IEEE.workoutCalories data) (Double.finite 0)
                = true ->
                Double.notBelow 100 (IEEE.RawHealthData.steps data))).
  { unfold IEEE.caloriesCheck, IEEE.literal.
    rewrite <- ltb_notBelow.
    destruct (Double.gtb (IEEE.RawHealthData.calories data)
                (Double.finite 0)); simpl andb;
      [|split; [discriminate|reflexivity]].
    destruct (Double.eqb (IEEE.workoutCalories data) (Double.finite 0));
      simpl andb; [tauto|split; [discriminate|reflexivity]]. }
  rewrite C1, C2. tauto.
Qed.

Lemma X1_accepted_within_bounds_witness :
  (IEEE.validateDataConsistency (Samples.clockAt 0) Cases.bandEdge = Ok tt /\
   (3 # 8) * (1 - Double.sliver) * Cases.thirds <= 1536 /\
   1536 <= (9 # 8) * (1 + Double.sliver) * Cases.thirds) /\
  (IEEE.validateDataConsistency (Samples.clockAt 0) Cases.noPulse = Ok tt /\
   Forall (fun r => Double.notBelow 30 (IEEE.HeartRateReading.bpm r) /\
                    Double.notAbove 250 (IEEE.HeartRateReading.bpm r))
          (IEEE.RawHealthData.heartRateReadings Cases.noPulse)).
Proof.
  assert (A : IEEE.validateDataConsistency (Samples.clockAt 0)
                Cases.bandEdge = Ok tt) by (vm_compute; reflexivity).
  assert (B : IEEE.validateDataConsistency (Samples.clockAt 0)
                Cases.noPulse = Ok tt) by reflexivity.
  split; split.
  - exact A.
  - apply (proj2 (X1_accepted_within_bounds (Samples.clockAt 0)
                    Cases.bandEdge) Cases.thirds 1536 A);
      reflexivity.
  - exact B.
  - apply (proj1 (proj1 (X1_accepted_within_bounds (Samples.clockAt 0)
                           Cases.noPulse)) B).
Defined.

(** X2.  Calories without activity: with fewer than 100 steps, calories
    above zero and workouts whose calories add up to zero (none, for
    one), the validator throws "Calories burned without activity",
    whatever the other fields hold. *)
Theorem X2_calories_without_activity (now : nat -> Date)
    (data : RawHealthData.t) :
  RawHealthData.steps data < 100 ->
  0 < RawHealthData.calories data ->
  Rules.sumCalories (RawHealthData.workouts data) == 0 ->
  Validator.validateDataConsistency now data
  = Throw (rejection Validator.reasonCalories).
Proof.
  intros S C W. rewrite validate_unfold.
  assert (N : Validator.correlationCheck data = false).
  { apply (check_false_iff _ _ (correlationCheck_iff data)).
    intros [L _]. lra. }
  rewrite N.
  assert (Y : Validator.caloriesCheck data = true).
  { apply caloriesCheck_iff. split; [exact C|]. split; assumption. }
  rewrite Y. reflexivity.
Qed.

Lemma X2_calories_without_activity_witness :
  RawHealthData.steps (Samples.record 0 50 0 [] []) < 100 /\
  0 < RawHealthData.calories (Samples.record 0 50 0 [] []) /\
  Validator.validateDataConsistency (Samples.clockAt 0)
    (Samples.record 0 50 0 [] [])
  = Throw (rejection Validator.reasonCalories).
Proof.
  split; [reflexivity|]. split; [reflexivity|].
  apply (X2_calories_without_activity (Samples.clockAt 0)
           (Samples.record 0 50 0 [] [])); reflexivity.
Defined.

(** X3.  Acceptance only grows with time: a record accepted under some
    clock readings is accepted under any later readings. *)
Theorem X3_accepted_later (now later : nat -> Date)
    (data : RawHealthData.t) :
  (forall k, now k <= later k) ->
  Validator.validateDataConsistency now data = Ok tt ->
  Validator.validateDataConsistency later data = Ok tt.
Proof.
  intros T H. apply validate_ok in H. apply validate_ok.
  destruct H as (N1 & N2 & N3 & N4 & N5).
  repeat split; try assumption.
  intros (k & w & Hw & [L|L]); apply N3; exists k, w;
    (split; [exact Hw|]); [left; exact L|right].
  exact (Qle_lt_trans _ _ _ (T k) L).
Qed.

Lemma X3_accepted_later_witness :
  (forall k, Samples.clockAt 1000 k <= Samples.clockAt 2000 k) /\
  Validator.validateDataConsistency (Samples.clockAt 1000)
    (Samples.aggregated 1000) = Ok tt /\
  Validator.validateDataConsistency (Samples.clockAt 2000)
    (Samples.aggregated 1000) = Ok tt.
Proof.
  split; [intro k; discriminate|]. split; [reflexivity|].
  apply (X3_accepted_later (Samples.clockAt 1000) (Samples.clockAt 2000)
           (Samples.aggregated 1000)).
  - intro k. discriminate.
  - reflexivity.
Defined.

Section ValidatorReads.
Import Validator.

Lemma validateWorkouts_reads (now : nat -> Date)
    (ws ws' : list WorkoutData.t) :
  map Cases.validated ws = map Cases.validated ws' ->
  forall k, validateWorkouts now k ws = validateWorkouts now k ws'.
Proof.
  revert ws'. induction ws as [|w ws IH]; intros [|w' ws'] E k;
    try discriminate E; [reflexivity|].
  simpl in E. injection E as D C T E. simpl.
  rewrite D, T, (IH ws' E (S k)). reflexivity.
Qed.

Lemma fold_calories_reads (ws ws' : list WorkoutData.t) :
  map Cases.validated ws = map Cases.validated ws' ->
  forall acc,
    fold_left (fun a w => a + WorkoutData.calories w) ws acc
    = fold_left (fun a w => a + WorkoutData.calories w) ws' acc.
Proof.
  revert ws'. induction ws as [|w ws IH]; intros [|w' ws'] E acc;
    try discriminate E; [reflexivity|].
  simpl in E. injection E as D C T E. simpl.
  rewrite C. apply IH. exact E.
Qed.

Lemma validateHeartRates_reads (rs rs' : list HeartRateReading.t) :
  map HeartRateReading.bpm rs = map HeartRateReading.bpm rs' ->
  validateHeartRates rs = validateHeartRates rs'.
Proof.
  revert rs'. induction rs as [|r rs IH]; intros [|r' rs'] E;
    try discriminate E; [reflexivity|].
  simpl in E. injection E as B E. simpl.
  rewrite B, (IH rs' E). reflexivity.
Qed.

End ValidatorReads.

(** X4.  The validator reads the steps, the calories, the distance, the
    duration, calories and start of each workout and the rate of each
    heart-rate reading, and nothing else: two records that agree on
    these get the same outcome, whatever their day, device, collection
    time, workout types, workout distances, workout ends and sources and
    reading times are (so a workout that ends before it starts is not
    rejected for that). *)
Theorem X4_validator_reads (now : nat -> Date)
    (data data' : RawHealthData.t) :
  RawHealthData.steps data = RawHealthData.steps data' ->
  RawHealthData.calories data = RawHealthData.calories data' ->
  RawHealthData.distance data = RawHealthData.distance data' ->
  map Cases.validated (RawHealthData.workouts data)
  = map Cases.validated (RawHealthData.workouts data') ->
  map HeartRateReading.bpm (RawHealthData.heartRateReadings data)
  = map HeartRateReading.bpm (RawHealthData.heartRateReadings data') ->
  Validator.validateDataConsistency now data
  = Validator.validateDataConsistency now data'.
Proof.
  intros S C D W R.
  unfold Validator.validateDataConsistency, Validator.correlationCheck,
    Validator.caloriesCheck, Validator.distanceVariance,
    Validator.expectedDistance, Validator.workoutCalories.
  rewrite S, C, D, (fold_calories_reads _ _ W 0),
    (validateWorkouts_reads now _ _ W 0), (validateHeartRates_reads _ _ R).
  reflexivity.
Qed.

Lemma X4_validator_reads_witness :
  Validator.validateDataConsistency (Samples.clockAt 1000)
    (Samples.aggregated 1000)
  = Validator.validateDataConsistency (Samples.clockAt 1000)
      Cases.relabelled.
Proof.
  apply (X4_validator_reads (Samples.clockAt 1000)
           (Samples.aggregated 1000) Cases.relabelled); reflexivity.
Defined.

(** ** MetricAggregator: what a fetch returns *)

Section QueryFacts.
Import HealthKit.

Variable A : Type.
Variable key : A -> Date.
Variable order : SortOrder.

Lemma insert_perm (x : A) (l : list A) :
  Permutation (insert key order x l) (x :: l).
Proof.
  induction l as [|y l IH]; simpl; [reflexivity|].
  destruct (inOrder order (key x) (key y)); [reflexivity|].
  rewrite IH. apply perm_swap.
Qed.

(** Sorting keeps every sample, once. *)
Lemma sorted_perm (l : list A) : Permutation (sorted key order l) l.
Proof.
  induction l as [|x l IH]; simpl; [reflexivity|].
  rewrite insert_perm, IH. reflexivity.
Qed.

End QueryFacts.

Section FetchFacts.
Import HealthKit.

Variable startOfDay : Date -> Date.
Variable addingOneDay : Date -> Date.

Lemma fetchSamples_Ok (healthStore : HKHealthStore.t)
    (type : HKQuantityTypeIdentifier) (date : Date)
    (samples : list HKQuantitySample.t) :
  Manager.fetchSamples startOfDay addingOneDay healthStore type date
  = Ok samples ->
  samples
  = sorted HKQuantitySample.startDate forward
      (filter (Cases.ofDay startOfDay addingOneDay type date)
              (HKHealthStore.quantitySamples healthStore)).
Proof.
  unfold Manager.fetchSamples, quantityResult.
  destruct (HKHealthStore.failure healthStore (quantitySample type));
    [discriminate|].
  intro H. injection H as <-. reflexivity.
Qed.

Lemma fetchSamples_failure (healthStore : HKHealthStore.t)
    (type : HKQuantityTypeIdentifier) (date : Date) :
  Manager.fetchSamples startOfDay addingOneDay healthStore type date
  = match HKHealthStore.failure healthStore (quantitySample type) with
    | Some code => Throw (queryError code)
    | None =>
        Ok (sorted HKQuantitySample.startDate forward
              (filter (Cases.ofDay startOfDay addingOneDay type date)
                      (HKHealthStore.quantitySamples healthStore)))
    end.
Proof.
  unfold Manager.fetchSamples, quantityResult.
  destruct (HKHealthStore.failure healthStore (quantitySample type));
    reflexivity.
Qed.

Lemma sameType_eq (a b : HKQuantityTypeIdentifier) :
  sameType a b = true <-> a = b.
Proof. destruct a, b; simpl; split; congruence. Qed.

Lemma ofDay_iff (type : HKQuantityTypeIdentifier) (date : Date)
    (s : HKQuantitySample.t) :
  Cases.ofDay startOfDay addingOneDay type date s = true <->
  HKQuantitySample.quantityType s = type /\
  startOfDay date <= HKQuantitySample.startDate s /\
  HKQuantitySample.startDate s < addingOneDay (startOfDay date).
Proof.
  unfold Cases.ofDay, predicateForSamples.
  rewrite !andb_true_iff, sameType_eq, Qle_bool_iff, ltb_lt. tauto.
Qed.

End FetchFacts.

Lemma filter_perm {A : Type} (f : A -> bool) (l l' : list A) :
  Permutation l l' -> Permutation (filter f l) (filter f l').
Proof.
  induction 1 as [|x l l' _ IH|x y l|l l' l'' _ IH1 _ IH2]; simpl.
  - reflexivity.
  - destruct (f x); [apply perm_skip|]; exact IH.
  - destruct (f x), (f y); try reflexivity. apply perm_swap.
  - rewrite IH1. exact IH2.
Qed.

(** X5.  A fetch of quantity samples returns every sample of the store
    that has the type asked for and starts within the day (from the
    start of the day, before the start of the next), each as often as
    the store holds it, and no other sample. *)
Theorem X5_fetchSamples_complete (startOfDay addingOneDay : Date -> Date)
    (healthStore : HealthKit.HKHealthStore.t)
    (type : HealthKit.HKQuantityTypeIdentifier) (date : Date)
    (samples : list HealthKit.HKQuantitySample.t) :
  Manager.fetchSamples startOfDay addingOneDay healthStore type date
  = Ok samples ->
  Permutation samples
    (filter (Cases.ofDay startOfDay addingOneDay type date)
            (HealthKit.HKHealthStore.quantitySamples healthStore)) /\
  (forall s,
     In s samples <->
     In s (HealthKit.HKHealthStore.quantitySamples healthStore) /\
     HealthKit.HKQuantitySample.quantityType s = type /\
     startOfDay date <= HealthKit.HKQuantitySample.startDate s /\
     HealthKit.HKQuantitySample.startDate s
     < addingOneDay (startOfDay date)).
Proof.
  intro H. apply fetchSamples_Ok in H.
  assert (P : Permutation samples
                (filter (Cases.ofDay startOfDay addingOneDay type date)
                   (HealthKit.HKHealthStore.quantitySamples healthStore))).
  { rewrite H. apply sorted_perm. }
  split; [exact P|].
  intro s. rewrite <- ofDay_iff, <- filter_In. split.
  - apply Permutation_in. exact P.
  - apply Permutation_in. symmetry. exact P.
Qed.

Lemma X5_fetchSamples_complete_witness :
  Manager.fetchSamples Manager.utcStartOfDay Manager.utcAddingOneDay
    Cases.walk HealthKit.stepCount 0
  = Ok [Cases.stepsAt 100 200; Cases.stepsAt 900 300] /\
  Permutation [Cases.stepsAt 100 200; Cases.stepsAt 900 300]
    (filter (Cases.ofDay Manager.utcStartOfDay Manager.utcAddingOneDay
               HealthKit.stepCount 0)
            (HealthKit.HKHealthStore.quantitySamples Cases.walk)).
Proof.
  split.
  - reflexivity.
  - apply (X5_fetchSamples_complete Manager.utcStartOfDay
             Manager.utcAddingOneDay Cases.walk HealthKit.stepCount 0).
    reflexivity.
Defined.

(** ** The totals in double arithmetic *)

(** The total of the source is the fold of the quantities. *)
Lemma total_fold (samples : list IEEE.HKQuantitySample.t) :
  IEEE.total samples
  = fold_left Double.add (map IEEE.HKQuantitySample.quantity samples)
      (Double.finite 0).
Proof.
  unfold IEEE.total, IEEE.literal. generalize (Double.finite 0).
  induction samples as [|s samples IH]; intro acc; simpl; [reflexivity|].
  apply IH.
Qed.

Lemma sumZ_nonneg (counts : list Z) :
  Forall (fun n => 0 <= n)%Z counts -> (0 <= Cases.sumZ counts)%Z.
Proof.
  induction 1 as [|n counts Hn _ IH]; simpl; lia.
Qed.

Lemma sumZ_perm (l l' : list Z) :
  Permutation l l' -> Cases.sumZ l = Cases.sumZ l'.
Proof.
  induction 1 as [|x l l' _ IH|x y l|l l' l'' _ IH1 _ IH2]; simpl; lia.
Qed.

(** Whole, non-negative numbers that add up to less than [2 ^ 53] are
    added without rounding. *)
Lemma fold_whole (counts : list Z) :
  forall acc : Z,
    (0 <= acc)%Z ->
    Forall (fun n => 0 <= n)%Z counts ->
    (acc + Cases.sumZ counts < 2 ^ 53)%Z ->
    fold_left Double.add (map Double.ofZ counts) (Double.ofZ acc)
    = Double.ofZ (acc + Cases.sumZ counts).
Proof.
  induction counts as [|n counts IH]; intros acc A F B.
  - simpl. rewrite Z.add_0_r. reflexivity.
  - inversion F as [|? ? Hn F']; subst.
    pose proof (sumZ_nonneg counts F') as S.
    change (Cases.sumZ (n :: counts)) with (n + Cases.sumZ counts)%Z in *.
    cbn [map fold_left].
    rewrite add_whole by lia.
    rewrite IH by (try assumption; lia).
    f_equal. lia.
Qed.

Section FetchesInDoubles.

Variable startOfDay : Date -> Date.
Variable addingOneDay : Date -> Date.

(** What [fetchSamples] returns. *)
Lemma fetchSamples_outcome (healthStore : IEEE.HKHealthStore.t)
    (type : HealthKit.HKQuantityTypeIdentifier) (date : Date) :
  IEEE.fetchSamples startOfDay addingOneDay healthStore type date
  = match IEEE.HKHealthStore.failure healthStore
            (HealthKit.quantitySample type) with
    | Some code => Throw (queryError code)
    | None =>
        Ok (HealthKit.sorted IEEE.HKQuantitySample.startDate
              HealthKit.forward
              (Cases.held startOfDay addingOneDay healthStore type date))
    end.
Proof. reflexivity. Qed.

(** The total of a day of whole counts. *)
Lemma whole_total (healthStore : IEEE.HKHealthStore.t)
    (type : HealthKit.HKQuantityTypeIdentifier) (date : Date)
    (counts : list Z) :
  IEEE.HKHealthStore.failure healthStore (HealthKit.quantitySample type)
  = None ->
  map IEEE.HKQuantitySample.quantity
      (Cases.held startOfDay addingOneDay healthStore type date)
  = map Double.ofZ counts ->
  Forall (fun n => 0 <= n)%Z counts ->
  (Cases.sumZ counts < 2 ^ 53)%Z ->
  bind (IEEE.fetchSamples startOfDay addingOneDay healthStore type date)
       (fun samples => Ok (IEEE.total samples))
  = Ok (Double.ofZ (Cases.sumZ counts)).
Proof.
  intros A H F B. rewrite fetchSamples_outcome, A. cbn [bind]. f_equal.
  rewrite total_fold.
  assert (P : Permutation
                (map IEEE.HKQuantitySample.quantity
                   (HealthKit.sorted IEEE.HKQuantitySample.startDate
                      HealthKit.forward
                      (Cases.held startOfDay addingOneDay healthStore type
                         date)))
                (map Double.ofZ counts)).
  { rewrite <- H. apply Permutation_map, sorted_perm. }
  apply Permutation_map_inv in P. destruct P as (counts' & E & P).
  rewrite E.
  assert (F' : Forall (fun n => 0 <= n)%Z counts').
  { apply Forall_forall. intros n Hn.
    apply (proj1 (Forall_forall _ _) F).
    apply (Permutation_in _ (Permutation_sym P) Hn). }
  rewrite (sumZ_perm _ _ P) in B |- *.
  apply (fold_whole counts' 0 (Z.le_refl 0) F' B).
Qed.

End FetchesInDoubles.

(** X6.  The steps, the calories and the distance of a day are the sum
    of the quantities of the stored samples of their type that start
    within the day, whenever those quantities are whole numbers, none
    below zero, that add up to less than [2 ^ 53]: no addition rounds
    then, and the order in which the store holds the samples does not
    matter.  A day without such samples gives zero. *)
Theorem X6_whole_totals_are_sums (startOfDay addingOneDay : Date -> Date)
    (healthStore : IEEE.HKHealthStore.t) (date : Date) (counts : list Z) :
  Forall (fun n => 0 <= n)%Z counts ->
  (Cases.sumZ counts < 2 ^ 53)%Z ->
  let answers type :=
    IEEE.HKHealthStore.failure healthStore (HealthKit.quantitySample type)
    = None in
  let holds type :=
    map IEEE.HKQuantitySample.quantity
        (Cases.held startOfDay addingOneDay healthStore type date)
    = map Double.ofZ counts in
  (answers HealthKit.stepCount -> holds HealthKit.stepCount ->
   IEEE.fetchSteps startOfDay addingOneDay healthStore date
   = Ok (Double.ofZ (Cases.sumZ counts))) /\
  (answers HealthKit.activeEnergyBurned ->
   holds HealthKit.activeEnergyBurned ->
   IEEE.fetchCalories startOfDay addingOneDay healthStore date
   = Ok (Double.ofZ (Cases.sumZ counts))) /\
  (answers HealthKit.distanceWalkingRunning ->
   holds HealthKit.distanceWalkingRunning ->
   IEEE.fetchDistance startOfDay addingOneDay healthStore date
   = Ok (Double.ofZ (Cases.sumZ counts))).
Proof.
  intros F B answers holds. subst answers holds.
  repeat split; intros A H; apply whole_total; assumption.
Qed.

Lemma X6_whole_totals_are_sums_witness :
  IEEE.fetchSteps Manager.utcStartOfDay Manager.utcAddingOneDay
    Cases.stroll 0 = Ok (Double.ofZ 500) /\
  IEEE.fetchCalories Manager.utcStartOfDay Manager.utcAddingOneDay
    Cases.stroll 0 = Ok (Double.ofZ 0).
Proof.
  split.
  - apply (proj1 (X6_whole_totals_are_sums Manager.utcStartOfDay
                    Manager.utcAddingOneDay Cases.stroll 0 [300; 200]%Z
                    ltac:(repeat constructor; lia)
                    ltac:(vm_compute; reflexivity)));
      reflexivity.
  - apply (proj1 (proj2 (X6_whole_totals_are_sums Manager.utcStartOfDay
                           Manager.utcAddingOneDay Cases.stroll 0 []
                           ltac:(constructor) ltac:(vm_compute; reflexivity))));
      reflexivity.
Defined.

(** ** Stores that differ in the order of their samples *)

Section SortedOnce.

Variable A : Type.
Variable R : A -> A -> Prop.

(** Two sorted lists with the same elements are the same list, when
    only equal elements are in order both ways. *)
Lemma sorted_unique (l1 : list A) :
  forall l2,
    StronglySorted R l1 -> StronglySorted R l2 -> Permutation l1 l2 ->
    (forall a b, In a l1 -> In b l1 -> R a b -> R b a -> a = b) ->
    l1 = l2.
Proof.
  induction l1 as [|x t IH]; intros l2 S1 S2 P U.
  - apply Permutation_nil in P. symmetry. exact P.
  - destruct l2 as [|y t2].
    { apply Permutation_sym, Permutation_nil in P. discriminate P. }
    inversion S1 as [|? ? S1' F1]; subst.
    inversion S2 as [|? ? S2' F2]; subst.
    assert (E : x = y).
    { assert (Ix : In x (y :: t2))
        by (apply (Permutation_in _ P); left; reflexivity).
      assert (Iy : In y (x :: t))
        by (apply (Permutation_in _ (Permutation_sym P)); left; reflexivity).
      destruct Ix as [<-|Ix]; [reflexivity|].
      destruct Iy as [->|Iy]; [reflexivity|].
      apply U.
      - left. reflexivity.
      - right. exact Iy.
      - apply (proj1 (Forall_forall _ _) F1 y Iy).
      - apply (proj1 (Forall_forall _ _) F2 x Ix). }
    subst y. f_equal. apply IH; try assumption.
    + apply (Permutation_cons_inv P).
    + intros a b Ha Hb. apply U; right; assumption.
Qed.

End SortedOnce.

(** Sorting forgets the order of a list whose keys tell its elements
    apart. *)
Lemma sorted_order_free {A : Type} (key : A -> Date)
    (order : HealthKit.SortOrder) (l l' : list A) :
  Permutation l l' ->
  (forall a b, In a l -> In b l -> key a == key b -> a = b) ->
  HealthKit.sorted key order l = HealthKit.sorted key order l'.
Proof.
  intros P U.
  apply (sorted_unique A (HealthKit.before key order)).
  - apply sorted_sorted.
  - apply sorted_sorted.
  - rewrite !sorted_perm. exact P.
  - intros a b Ha Hb Rab Rba. apply U.
    + apply (Permutation_in _ (sorted_perm A key order l) Ha).
    + apply (Permutation_in _ (sorted_perm A key order l) Hb).
    + unfold HealthKit.before, HealthKit.inOrder in Rab, Rba.
      destruct order; apply Qle_bool_iff in Rab; apply Qle_bool_iff in Rba;
        apply Qle_antisym; assumption.
Qed.

Section OrderOfTheStore.

Variable startOfDay : Date -> Date.
Variable addingOneDay : Date -> Date.

Lemma matching_type (type : HealthKit.HKQuantityTypeIdentifier)
    (start finish : Date) (s : IEEE.HKQuantitySample.t) :
  IEEE.matching type start finish s = true ->
  IEEE.HKQuantitySample.quantityType s = type.
Proof.
  unfold IEEE.matching. intro H. apply andb_true_iff in H.
  apply sameType_eq, H.
Qed.

Lemma fetchSamples_order_free (healthStore healthStore' : IEEE.HKHealthStore.t)
    (type : HealthKit.HKQuantityTypeIdentifier) (date : Date) :
  Permutation (IEEE.HKHealthStore.quantitySamples healthStore)
              (IEEE.HKHealthStore.quantitySamples healthStore') ->
  IEEE.HKHealthStore.failure healthStore (HealthKit.quantitySample type)
  = IEEE.HKHealthStore.failure healthStore' (HealthKit.quantitySample type) ->
  (forall a b,
     In a (IEEE.HKHealthStore.quantitySamples healthStore) ->
     In b (IEEE.HKHealthStore.quantitySamples healthStore) ->
     IEEE.HKQuantitySample.quantityType a
     = IEEE.HKQuantitySample.quantityType b ->
     IEEE.HKQuantitySample.startDate a == IEEE.HKQuantitySample.startDate b ->
     a = b) ->
  IEEE.fetchSamples startOfDay addingOneDay healthStore type date
  = IEEE.fetchSamples startOfDay addingOneDay healthStore' type date.
Proof.
  intros P F U. rewrite !fetchSamples_outcome, <- F.
  destruct (IEEE.HKHealthStore.failure healthStore
              (HealthKit.quantitySample type)); [reflexivity|].
  f_equal. apply sorted_order_free.
  - apply filter_perm, P.
  - intros a b Ha Hb. unfold Cases.held in Ha, Hb.
    apply filter_In in Ha, Hb. destruct Ha as [Ia Ma], Hb as [Ib Mb].
    apply U; try assumption.
    rewrite (matching_type _ _ _ _ Ma), (matching_type _ _ _ _ Mb).
    reflexivity.
Qed.

End OrderOfTheStore.

(** X7.  When no two stored samples of one type start at the same
    time, the totals and the heart-rate readings do not depend on the
    order in which the store holds its samples.  The additions
    themselves depend on their order: 0.1, 0.2 and 0.3 add up to
    0.6000000000000001, and 0.3, 0.2 and 0.1 to 0.6. *)
Theorem X7_totals_ignore_store_order :
  (forall (startOfDay addingOneDay : Date -> Date)
          (healthStore healthStore' : IEEE.HKHealthStore.t) (date : Date),
     Permutation (IEEE.HKHealthStore.quantitySamples healthStore)
                 (IEEE.HKHealthStore.quantitySamples healthStore') ->
     (forall type,
        IEEE.HKHealthStore.failure healthStore type
        = IEEE.HKHealthStore.failure healthStore' type) ->
     (forall a b,
        In a (IEEE.HKHealthStore.quantitySamples healthStore) ->
        In b (IEEE.HKHealthStore.quantitySamples healthStore) ->
        IEEE.HKQuantitySample.quantityType a
        = IEEE.HKQuantitySample.quantityType b ->
        IEEE.HKQuantitySample.startDate a
        == IEEE.HKQuantitySample.startDate b ->
        a = b) ->
     IEEE.fetchSteps startOfDay addingOneDay healthStore date
     = IEEE.fetchSteps startOfDay addingOneDay healthStore' date /\
     IEEE.fetchCalories startOfDay addingOneDay healthStore date
     = IEEE.fetchCalories startOfDay addingOneDay healthStore' date /\
     IEEE.fetchDistance startOfDay addingOneDay healthStore date
     = IEEE.fetchDistance startOfDay addingOneDay healthStore' date /\
     IEEE.fetchHeartRateReadings startOfDay addingOneDay healthStore date
     = IEEE.fetchHeartRateReadings startOfDay addingOneDay healthStore' date)
  /\
  IEEE.total Cases.tenths
  = Double.round (6000000000000001 # 10000000000000000) /\
  IEEE.total (rev Cases.tenths) = Double.round (6 # 10) /\
  IEEE.total Cases.tenths <> IEEE.total (rev Cases.tenths).
Proof.
  split.
  - intros startOfDay addingOneDay healthStore healthStore' date P F U.
    unfold IEEE.fetchSteps, IEEE.fetchCalories, IEEE.fetchDistance,
      IEEE.fetchHeartRateReadings.
    rewrite !(fetchSamples_order_free startOfDay addingOneDay healthStore
                healthStore' _ date P (F _) U).
    repeat split.
  - split; [vm_compute; reflexivity|].
    split; [vm_compute; reflexivity|].
    vm_compute. discriminate.
Qed.

Lemma X7_totals_ignore_store_order_witness :
  IEEE.fetchSteps Manager.utcStartOfDay Manager.utcAddingOneDay
    Cases.stroll 0
  = IEEE.fetchSteps Manager.utcStartOfDay Manager.utcAddingOneDay
      Cases.strollShuffled 0.
Proof.
  assert (P : Permutation
                (IEEE.HKHealthStore.quantitySamples Cases.stroll)
                (IEEE.HKHealthStore.quantitySamples Cases.strollShuffled)).
  { apply NoDup_Permutation.
    - repeat constructor; simpl; intuition discriminate.
    - repeat constructor; simpl; intuition discriminate.
    - intro s; simpl; tauto. }
  assert (U : forall a b,
             In a (IEEE.HKHealthStore.quantitySamples Cases.stroll) ->
             In b (IEEE.HKHealthStore.quantitySamples Cases.stroll) ->
             IEEE.HKQuantitySample.quantityType a
             = IEEE.HKQuantitySample.quantityType b ->
             IEEE.HKQuantitySample.startDate a
             == IEEE.HKQuantitySample.startDate b ->
             a = b).
  { intros a b Ha Hb T D. simpl in Ha, Hb.
    repeat (destruct Ha as [<-|Ha]); try contradiction;
      repeat (destruct Hb as [<-|Hb]); try contradiction;
      try reflexivity; try discriminate T; discriminate D. }
  apply (proj1 X7_totals_ignore_store_order Manager.utcStartOfDay
           Manager.utcAddingOneDay Cases.stroll Cases.strollShuffled 0 P
           (fun _ => eq_refl) U).
Defined.

Section PipelineErrors.
Import HealthKit.

Variable startOfDay : Date -> Date.
Variable addingOneDay : Date -> Date.

Lemma fetchTotal_failure (healthStore : HKHealthStore.t)
    (type : HKQuantityTypeIdentifier) (date : Date) :
  bind (Manager.fetchSamples startOfDay addingOneDay healthStore type date)
       (fun samples => Ok (Manager.total samples))
  = match HKHealthStore.failure healthStore (quantitySample type) with
    | Some code => Throw (queryError code)
    | None =>
        Ok (Manager.total
              (sorted HKQuantitySample.startDate forward
                 (filter (Cases.ofDay startOfDay addingOneDay type date)
                         (HKHealthStore.quantitySamples healthStore))))
    end.
Proof.
  rewrite fetchSamples_failure.
  destruct (HKHealthStore.failure healthStore (quantitySample type));
    reflexivity.
Qed.

Lemma fetchWorkouts_failure (healthStore : HKHealthStore.t) (date : Date) :
  Manager.fetchWorkouts startOfDay addingOneDay healthStore date
  = match HKHealthStore.failure healthStore workout with
    | Some code => Throw (queryError code)
    | None =>
        Ok (map Manager.toWorkoutData
              (sorted HKWorkout.startDate reverse
                 (filter (fun w =>
                            predicateForSamples (startOfDay date)
                              (addingOneDay (startOfDay date))
                              (HKWorkout.startDate w))
                         (HKHealthStore.workouts healthStore))))
    end.
Proof.
  unfold Manager.fetchWorkouts, workoutResult.
  destruct (HKHealthStore.failure healthStore workout); reflexivity.
Qed.

Lemma fetchHeartRateReadings_failure (healthStore : HKHealthStore.t)
    (date : Date) :
  Manager.fetchHeartRateReadings startOfDay addingOneDay healthStore date
  = match HKHealthStore.failure healthStore (quantitySample heartRate) with
    | Some code => Throw (queryError code)
    | None =>
        Ok (map (fun sample =>
                   {| HeartRateReading.bpm := HKQuantitySample.quantity sample;
                      HeartRateReading.timestamp :=
                        HKQuantitySample.startDate sample |})
              (sorted HKQuantitySample.startDate forward
                 (filter (Cases.ofDay startOfDay addingOneDay heartRate date)
                         (HKHealthStore.quantitySamples healthStore))))
    end.
Proof.
  unfold Manager.fetchHeartRateReadings. rewrite fetchSamples_failure.
  destruct (HKHealthStore.failure healthStore (quantitySample heartRate));
    reflexivity.
Qed.

(** The aggregation fails with the first query error, and succeeds when
    no query fails. *)
Lemma aggregate_outcome (healthStore : nat -> HKHealthStore.t)
    (device : Manager.UIDevice.t) (now : nat -> Date) (date : Date) :
  match Cases.firstFailure (Cases.queryOutcomes healthStore) with
  | Some code =>
      Manager.aggregate startOfDay addingOneDay healthStore device now date
      = Throw (queryError code)
  | None =>
      exists rawData,
        Manager.aggregate startOfDay addingOneDay healthStore device now date
        = Ok rawData
  end.
Proof.
  unfold Manager.aggregate, Manager.fetchSteps, Manager.fetchCalories,
    Manager.fetchDistance, Cases.queryOutcomes.
  rewrite !fetchTotal_failure, fetchWorkouts_failure,
    fetchHeartRateReadings_failure.
  simpl.
  destruct (HKHealthStore.failure (healthStore 0%nat) _); [reflexivity|].
  destruct (HKHealthStore.failure (healthStore 1%nat) _); [reflexivity|].
  destruct (HKHealthStore.failure (healthStore 2%nat) _); [reflexivity|].
  destruct (HKHealthStore.failure (healthStore 3%nat) _); [reflexivity|].
  destruct (HKHealthStore.failure (healthStore 4%nat) _); [reflexivity|].
  simpl. eexists. reflexivity.
Qed.

End PipelineErrors.

(** X8.  When a HealthKit query fails, [fetchVerifiedHealthData] throws
    the error of the first failing query, in the order steps, energy,
    distance, workouts, heart rate, and nothing is validated or signed;
    when none fails, the record is aggregated.  Whatever it throws of
    the repository's own errors is an [inconsistentData]: it never
    throws [notAvailable] or [unauthorized]. *)
Theorem X8_first_query_error (startOfDay addingOneDay : Date -> Date)
    (encode : RawHealthData.t -> Data)
    (authenticationCode : Data -> Data -> Data)
    (base64EncodedString : Data -> string) (signingKey : string)
    (healthStore : nat -> HealthKit.HKHealthStore.t)
    (device : Manager.UIDevice.t) (now : nat -> Date) (date : Date) :
  match Cases.firstFailure (Cases.queryOutcomes healthStore) with
  | Some code =>
      Manager.fetchVerifiedHealthData startOfDay addingOneDay encode
        authenticationCode base64EncodedString signingKey
        healthStore device now date
      = Throw (queryError code)
  | None =>
      exists rawData,
        Manager.aggregate startOfDay addingOneDay healthStore device now date
        = Ok rawData
  end /\
  (forall e,
     Manager.fetchVerifiedHealthData startOfDay addingOneDay encode
       authenticationCode base64EncodedString signingKey
       healthStore device now date
     = Throw (healthKitError e) ->
     exists reason, e = inconsistentData reason).
Proof.
  pose proof (aggregate_outcome startOfDay addingOneDay healthStore device
                now date) as A.
  rewrite fetchVerifiedHealthData_stages.
  destruct (Cases.firstFailure (Cases.queryOutcomes healthStore)) as [code|].
  - rewrite A. split; [reflexivity|]. discriminate.
  - destruct A as [rawData A]. rewrite A. split; [exists rawData; reflexivity|].
    intros e H.
    destruct (Validator.validateDataConsistency (Manager.afterTimestamp now)
                rawData) as [[]|e0] eqn:V.
    + discriminate H.
    + destruct (validate_throw _ _ _ V) as (reason & -> & _).
      injection H as <-. exists reason. reflexivity.
Qed.

Lemma X8_first_query_error_witness :
  Manager.fetchVerifiedHealthData Manager.utcStartOfDay
    Manager.utcAddingOneDay Samples.plainEncode Samples.plainCode
    Samples.plainString "key" (fun _ => Cases.failing) Samples.phone
    (Samples.clockAt 1000) 0
  = Throw (queryError 7) /\
  (Manager.fetchVerifiedHealthData Manager.utcStartOfDay
     Manager.utcAddingOneDay Samples.plainEncode Samples.plainCode
     Samples.plainString "key" (fun _ => Samples.store) Samples.phone
     (Samples.clockAt 5) 0
   = Throw (healthKitError (inconsistentData Validator.reasonFuture)) /\
   exists reason,
     inconsistentData Validator.reasonFuture = inconsistentData reason).
Proof.
  split.
  - exact (proj1 (X8_first_query_error Manager.utcStartOfDay
                    Manager.utcAddingOneDay Samples.plainEncode
                    Samples.plainCode Samples.plainString "key"
                    (fun _ => Cases.failing) Samples.phone
                    (Samples.clockAt 1000) 0)).
  - split; [reflexivity|].
    apply (proj2 (X8_first_query_error Manager.utcStartOfDay
                    Manager.utcAddingOneDay Samples.plainEncode
                    Samples.plainCode Samples.plainString "key"
                    (fun _ => Samples.store) Samples.phone
                    (Samples.clockAt 5) 0)).
    reflexivity.
Defined.

(** X9.  Every heart-rate reading and every workout of the aggregated
    record starts within the day asked for: at or after the start of
    the day and before the start of the next. *)
Theorem X9_aggregated_within_day (startOfDay addingOneDay : Date -> Date)
    (healthStore : nat -> HealthKit.HKHealthStore.t)
    (device : Manager.UIDevice.t) (now : nat -> Date) (date : Date)
    (rawData : RawHealthData.t) :
  Manager.aggregate startOfDay addingOneDay healthStore device now date
  = Ok rawData ->
  (forall r, In r (RawHealthData.heartRateReadings rawData) ->
             startOfDay date <= HeartRateReading.timestamp r /\
             HeartRateReading.timestamp r < addingOneDay (startOfDay date)) /\
  (forall w, In w (RawHealthData.workouts rawData) ->
             startOfDay date <= WorkoutData.startDate w /\
             WorkoutData.startDate w < addingOneDay (startOfDay date)).
Proof.
  intro H. apply aggregate_Ok in H. destruct H as [W R]. split.
  - rewrite fetchHeartRateReadings_failure in R.
    destruct (HealthKit.HKHealthStore.failure _ _); [discriminate R|].
    injection R as R. rewrite <- R. intros r Hr.
    apply in_map_iff in Hr. destruct Hr as (s & <- & Hs). simpl.
    apply (Permutation_in _ (sorted_perm _ _ _ _)) in Hs.
    apply filter_In in Hs. destruct Hs as [_ Hs].
    apply ofDay_iff in Hs. tauto.
  - rewrite fetchWorkouts_failure in W.
    destruct (HealthKit.HKHealthStore.failure _ _); [discriminate W|].
    injection W as W. rewrite <- W. intros w Hw.
    apply in_map_iff in Hw. destruct Hw as (s & <- & Hs). simpl.
    apply (Permutation_in _ (sorted_perm _ _ _ _)) in Hs.
    apply filter_In in Hs. destruct Hs as [_ Hs].
    unfold HealthKit.predicateForSamples in Hs.
    rewrite andb_true_iff, Qle_bool_iff, ltb_lt in Hs. exact Hs.
Qed.

Lemma X9_aggregated_within_day_witness :
  Manager.aggregate Manager.utcStartOfDay Manager.utcAddingOneDay
    (fun _ => Samples.store) Samples.phone (Samples.clockAt 1000) 0
  = Ok (Samples.aggregated 1000) /\
  forall r, In r (RawHealthData.heartRateReadings (Samples.aggregated 1000)) ->
            Manager.utcStartOfDay 0 <= HeartRateReading.timestamp r /\
            HeartRateReading.timestamp r
            < Manager.utcAddingOneDay (Manager.utcStartOfDay 0).
Proof.
  split.
  - reflexivity.
  - apply (proj1 (X9_aggregated_within_day Manager.utcStartOfDay
                    Manager.utcAddingOneDay (fun _ => Samples.store)
                    Samples.phone (Samples.clockAt 1000) 0
                    (Samples.aggregated 1000) eq_refl)).
Defined.

(** ** HealthKitError *)

(** X10.  The description of an error tells the error: two errors with
    the same description are the same error, reason included. *)
Theorem X10_errorDescription_injective (e e' : HealthKitError) :
  errorDescription e = errorDescription e' -> e = e'.
Proof.
  destruct e as [|reason|], e' as [|reason'|]; simpl; intro H;
    try reflexivity; try discriminate H.
  injection H as H. rewrite H. reflexivity.
Qed.

Lemma X10_errorDescription_injective_witness :
  errorDescription (inconsistentData Validator.reasonSteps)
  = Some "Data validation failed: Unrealistic step count"%string /\
  inconsistentData Validator.reasonSteps
  = inconsistentData "Unrealistic step count".
Proof.
  split.
  - reflexivity.
  - apply (X10_errorDescription_injective
             (inconsistentData Validator.reasonSteps)
             (inconsistentData "Unrealistic step count")).
    reflexivity.
Defined.

(** ** PointsCalculator: rounding, order, range *)

Lemma floor_le (x : Q) : Num.floor x <= x.
Proof. apply Qfloor_le. Qed.

Lemma floor_lt (x : Q) : x < Num.floor x + 1.
Proof.
  unfold Num.floor. change (x < inject_Z (Qfloor x) + inject_Z 1).
  rewrite <- inject_Z_plus. apply Qlt_floor.
Qed.

Lemma floor_mono (x y : Q) : x <= y -> Num.floor x <= Num.floor y.
Proof.
  intro H. unfold Num.floor. rewrite <- Zle_Qle.
  apply Qfloor_resp_le. exact H.
Qed.

Lemma floor_whole (z : Z) (x : Q) :
  inject_Z z <= x -> x < inject_Z z + 1 -> Num.floor x == inject_Z z.
Proof.
  intros L U. unfold Num.floor.
  assert (A : (z <= Qfloor x)%Z).
  { rewrite <- (Qfloor_Z z). apply Qfloor_resp_le. exact L. }
  assert (B : (Qfloor x < z + 1)%Z).
  { rewrite Zlt_Qlt, inject_Z_plus. change (inject_Z 1) with 1.
    exact (Qle_lt_trans _ _ _ (Qfloor_le x) U). }
  assert (E : Qfloor x = z) by lia.
  rewrite E. reflexivity.
Qed.

Lemma floor_compat (x y : Q) : x == y -> Num.floor x == Num.floor y.
Proof. intro H. unfold Num.floor. rewrite H. reflexivity. Qed.

Lemma round_floor (x : Q) : Num.round x = Num.floor (x + (1 # 2)).
Proof. reflexivity. Qed.

(** [x || 0] gives back the number. *)
Lemma or_zero_same (x : Q) : Num.or_zero x == x.
Proof.
  unfold Num.or_zero. destruct (Num.eqb x 0) eqn:E; [|reflexivity].
  apply eqb_eq in E. symmetry. exact E.
Qed.

Lemma calculate_round (data : Points.HealthData) :
  Points.calculateHealthPoints data
  == Num.round (Cases.contributions data * 10) / 10.
Proof.
  unfold Points.calculateHealthPoints, Cases.contributions.
  rewrite !round_floor.
  apply Qmult_comp; [|reflexivity].
  apply floor_compat. lra.
Qed.

Lemma bonus_mono (a b : Points.HealthData) :
  Points.distance a <= Points.distance b ->
  Points.distanceBonusPoints a <= Points.distanceBonusPoints b.
Proof.
  intro H. unfold Points.distanceBonusPoints.
  destruct (Num.gtb (Points.distance a) 5) eqn:A;
    [apply gtb_lt in A|apply gtb_le in A];
    (destruct (Num.gtb (Points.distance b) 5) eqn:B;
     [apply gtb_lt in B|apply gtb_le in B]); lra.
Qed.

Lemma contributions_mono (a b : Points.HealthData) :
  Cases.noMoreThan a b -> Cases.contributions a <= Cases.contributions b.
Proof.
  intros (S & C & D & W). unfold Cases.contributions.
  assert (S' : Points.stepsPoints a <= Points.stepsPoints b).
  { apply floor_mono. unfold Qdiv. apply Qmult_le_compat_r;
      [exact S|discriminate]. }
  assert (C' : Points.caloriesPoints a <= Points.caloriesPoints b).
  { apply floor_mono. unfold Qdiv. apply Qmult_le_compat_r;
      [exact C|discriminate]. }
  assert (W' : Points.workoutPoints a <= Points.workoutPoints b).
  { unfold Points.workoutPoints. rewrite !or_zero_same. lra. }
  pose proof (bonus_mono a b D) as D'. lra.
Qed.

Lemma calculate_mono (a b : Points.HealthData) :
  Cases.noMoreThan a b ->
  Points.calculateHealthPoints a <= Points.calculateHealthPoints b.
Proof.
  intro H. rewrite !calculate_round, !round_floor.
  unfold Qdiv. apply Qmult_le_compat_r; [|discriminate].
  apply floor_mono. pose proof (contributions_mono a b H). lra.
Qed.

(** X11.  The sum of the contributions is rounded before
    [Math.round] sees it, and that can move the tenth: with 5.175 km
    and one workout the function returns 5.4, where the exact sum of
    the contributions of that input, just under 5.35, rounds to 5.3. *)
Theorem X11_rounded_sum_moves_the_tenth :
  Double.round (5175 # 1000) = Double.finite Cases.tieDistance /\
  IEEE.Points.calculateHealthPoints Cases.tie = Double.round (54 # 10) /\
  Points.calculateHealthPoints Cases.exactTie == 53 # 10.
Proof.
  split; [vm_compute; reflexivity|]. split; vm_compute; reflexivity.
Qed.

Lemma calculate_whole (data : Points.HealthData) :
  Cases.whole (Points.workouts data) ->
  Cases.whole (Points.distance data * 10) ->
  Points.calculateHealthPoints data == Cases.contributions data.
Proof.
  intros [w W] [d D].
  assert (K : exists z : Z, Cases.contributions data * 10 == inject_Z z).
  { pose proof (or_zero_same (Points.workouts data)) as O.
    unfold Cases.contributions, Points.stepsPoints, Points.caloriesPoints,
      Points.workoutPoints, Points.distanceBonusPoints, Num.floor.
    destruct (Num.gtb (Points.distance data) 5).
    - exists (Qfloor (Points.steps data / 1000) * 10
              + Qfloor (Points.calories data / 100) * 10
              + w * 50 + (d * 2 - 100))%Z.
      unfold Z.sub.
      rewrite !inject_Z_plus, !inject_Z_mult, inject_Z_opp.
      change (inject_Z 10) with 10. change (inject_Z 50) with 50.
      change (inject_Z 2) with 2. change (inject_Z 100) with 100. lra.
    - exists (Qfloor (Points.steps data / 1000) * 10
              + Qfloor (Points.calories data / 100) * 10
              + w * 50)%Z.
      rewrite !inject_Z_plus, !inject_Z_mult.
      change (inject_Z 10) with 10. change (inject_Z 50) with 50. lra. }
  destruct K as [z K].
  rewrite calculate_round, round_floor.
  rewrite (floor_whole z) by (rewrite K; lra).
  rewrite <- K. field.
Qed.

(** ** calculateHealthPoints in double arithmetic *)

Lemma same_eq (x y : Double.t) : Double.same x y = true -> x = y.
Proof.
  destruct x as [[a b]|s|], y as [[a' b']|s'|]; simpl; try discriminate.
  - intro H. apply andb_true_iff in H. destruct H as [N D].
    apply Z.eqb_eq in N. apply Pos.eqb_eq in D. subst. reflexivity.
  - intro H. apply Bool.eqb_prop in H. subst. reflexivity.
  - reflexivity.
Qed.

Lemma span_In (lo : Z) (n : nat) (z : Z) :
  (lo <= z < lo + Z.of_nat n)%Z -> In z (Cases.span lo n).
Proof.
  intro H. unfold Cases.span. apply in_map_iff.
  exists (Z.to_nat (z - lo)). split; [lia|].
  apply in_seq. lia.
Qed.

(** The quotients [steps / 1000] and [calories / 100] of a [mockData]
    are floored to the quotients of the whole numbers: every value is
    tried. *)
Lemma steps_quotient (s : Z) :
  (7000 <= s <= 11999)%Z ->
  Double.floor (Double.div (Double.ofZ s) (Double.finite 1000))
  = Double.ofZ (s / 1000).
Proof.
  intro H. apply same_eq.
  assert (A : forallb (Cases.quotientExact 1000) (Cases.span 7000 5000)
              = true) by (vm_compute; reflexivity).
  apply (proj1 (forallb_forall _ _) A s). apply span_In. lia.
Qed.

Lemma calories_quotient (c : Z) :
  (400 <= c <= 699)%Z ->
  Double.floor (Double.div (Double.ofZ c) (Double.finite 100))
  = Double.ofZ (c / 100).
Proof.
  intro H. apply same_eq.
  assert (A : forallb (Cases.quotientExact 100) (Cases.span 400 300)
              = true) by (vm_compute; reflexivity).
  apply (proj1 (forallb_forall _ _) A c). apply span_In. lia.
Qed.

Lemma floor_quotient (n : Z) (d : positive) :
  Qfloor (inject_Z n / (Zpos d # 1)) = (n / Zpos d)%Z.
Proof.
  unfold Qdiv, Qinv, Qmult, Qfloor, inject_Z. simpl.
  rewrite Z.mul_1_r. reflexivity.
Qed.

(** The points of a [mockData], in doubles and in exact numbers. *)
Lemma mock_points (s c d w : Z) :
  (7000 <= s <= 11999)%Z -> (400 <= c <= 699)%Z ->
  (5 <= d <= 7)%Z -> (1 <= w <= 2)%Z ->
  let points := (s / 1000 + c / 100 + w * 5 + (d - 5) * 2)%Z in
  IEEE.Points.calculateHealthPoints (Cases.mock s c d w)
  = Double.ofZ points /\
  Points.calculateHealthPoints (Cases.exactMock s c d w) == inject_Z points.
Proof.
  intros Hs Hc Hd Hw points. subst points.
  assert (A : (7 <= s / 1000 < 12)%Z).
  { split; [apply Z.div_le_lower_bound|apply Z.div_lt_upper_bound]; lia. }
  assert (B : (4 <= c / 100 < 7)%Z).
  { split; [apply Z.div_le_lower_bound|apply Z.div_lt_upper_bound]; lia. }
  split.
  - unfold IEEE.Points.calculateHealthPoints, Cases.mock, IEEE.literal.
    cbn [IEEE.Points.steps IEEE.Points.calories IEEE.Points.distance
         IEEE.Points.workouts].
    rewrite (steps_quotient s Hs), (calories_quotient c Hc).
    set (a := (s / 1000)%Z) in *. clearbody a.
    set (b := (c / 100)%Z) in *. clearbody b.
    assert (Ea : (a = 7 \/ a = 8 \/ a = 9 \/ a = 10 \/ a = 11)%Z) by lia.
    assert (Eb : (b = 4 \/ b = 5 \/ b = 6)%Z) by lia.
    assert (Ed : (d = 5 \/ d = 6 \/ d = 7)%Z) by lia.
    assert (Ew : (w = 1 \/ w = 2)%Z) by lia.
    destruct Ea as [-> | [-> | [-> | [-> | ->]]]];
      destruct Eb as [-> | [-> | ->]];
      destruct Ed as [-> | [-> | ->]];
      destruct Ew as [-> | ->];
      vm_compute; reflexivity.
  - unfold Points.calculateHealthPoints, Points.stepsPoints,
      Points.caloriesPoints, Points.workoutPoints,
      Points.distanceBonusPoints, Num.floor, Cases.exactMock.
    cbn [Points.steps Points.calories Points.distance Points.workouts].
    rewrite (floor_quotient s 1000), (floor_quotient c 100).
    set (a := (s / 1000)%Z) in *. clearbody a.
    set (b := (c / 100)%Z) in *. clearbody b.
    assert (Ea : (a = 7 \/ a = 8 \/ a = 9 \/ a = 10 \/ a = 11)%Z) by lia.
    assert (Eb : (b = 4 \/ b = 5 \/ b = 6)%Z) by lia.
    assert (Ed : (d = 5 \/ d = 6 \/ d = 7)%Z) by lia.
    assert (Ew : (w = 1 \/ w = 2)%Z) by lia.
    destruct Ea as [-> | [-> | [-> | [-> | ->]]]];
      destruct Eb as [-> | [-> | ->]];
      destruct Ed as [-> | [-> | ->]];
      destruct Ew as [-> | ->];
      vm_compute; reflexivity.
Qed.

(** X12.  On every [mockData] a sync can draw (whole numbers: 7000 to
    11999 steps, 400 to 699 calories, 5 to 7 km, 1 or 2 workouts) the
    rounding of the two quotients does not reach their floors, and the
    other operations are on whole numbers: the function returns the
    whole number [floor(steps / 1000) + floor(calories / 100)
    + 5 * workouts + 2 * (distance - 5)], as the exact computation
    does. *)
Theorem X12_mock_points_exact (s c d w : Z) :
  (7000 <= s <= 11999)%Z -> (400 <= c <= 699)%Z ->
  (5 <= d <= 7)%Z -> (1 <= w <= 2)%Z ->
  let points := (s / 1000 + c / 100 + w * 5 + (d - 5) * 2)%Z in
  IEEE.Points.calculateHealthPoints (Cases.mock s c d w)
  = Double.ofZ points /\
  Points.calculateHealthPoints (Cases.exactMock s c d w) == inject_Z points.
Proof. exact (mock_points s c d w). Qed.

Lemma X12_mock_points_exact_witness :
  IEEE.Points.calculateHealthPoints (Cases.mock 11999 699 7 2)
  = Double.ofZ 31.
Proof.
  apply (X12_mock_points_exact 11999 699 7 2); lia.
Defined.



Lemma draw_range (r n : Q) (z : Z) :
  0 <= r -> r < 1 -> n == inject_Z z -> 0 < n ->
  0 <= Num.floor (r * n) /\ Num.floor (r * n) <= n - 1.
Proof.
  intros L U N P. split.
  - change 0 with (Num.floor 0). apply floor_mono. nra.
  - assert (B : (Qfloor (r * n) < z)%Z).
    { rewrite Zlt_Qlt, <- N.
      apply (Qle_lt_trans _ _ _ (Qfloor_le (r * n))). nra. }
    assert (C : (Qfloor (r * n) <= z - 1)%Z) by lia.
    rewrite Zle_Qle in C. unfold Z.sub in C.
    rewrite inject_Z_plus, inject_Z_opp, <- N in C.
    unfold Num.floor. change (inject_Z 1) with 1 in C. lra.
Qed.

Lemma mock_data_range (random : nat -> Q) :
  Cases.unitDraws random ->
  Cases.noMoreThan Cases.leastMock (Sync.drawMockData random) /\
  Cases.noMoreThan (Sync.drawMockData random) Cases.greatestMock /\
  16 <= Points.calculateHealthPoints (Sync.drawMockData random) /\
  Points.calculateHealthPoints (Sync.drawMockData random) <= 31.
Proof.
  intro U.
  destruct (draw_range (random 0%nat) 5000 5000 (proj1 (U _)) (proj2 (U _)))
    as [S0 S1]; [reflexivity|reflexivity|].
  destruct (draw_range (random 1%nat) 300 300 (proj1 (U _)) (proj2 (U _)))
    as [C0 C1]; [reflexivity|reflexivity|].
  destruct (draw_range (random 2%nat) 3 3 (proj1 (U _)) (proj2 (U _)))
    as [D0 D1]; [reflexivity|reflexivity|].
  destruct (draw_range (random 3%nat) 2 2 (proj1 (U _)) (proj2 (U _)))
    as [W0 W1]; [reflexivity|reflexivity|].
  assert (L : Cases.noMoreThan Cases.leastMock (Sync.drawMockData random)).
  { unfold Cases.noMoreThan. simpl. repeat split; lra. }
  assert (G : Cases.noMoreThan (Sync.drawMockData random) Cases.greatestMock).
  { unfold Cases.noMoreThan. simpl. repeat split; lra. }
  split; [exact L|]. split; [exact G|]. split.
  - apply (Qle_trans _ (Points.calculateHealthPoints Cases.leastMock));
      [discriminate|apply calculate_mono, L].
  - apply (Qle_trans _ (Points.calculateHealthPoints Cases.greatestMock));
      [apply calculate_mono, G|discriminate].
Qed.

(** X14.  With draws of [Math.random()] in [[0, 1)], the [mockData] of
    a sync has 7000 to 11999 steps, 400 to 699 calories, 5 to 7 km and
    1 or 2 workouts, and it is worth between 16 and 31 points. *)
Theorem X14_mock_data_range (random : nat -> Q) :
  Cases.unitDraws random ->
  Cases.noMoreThan Cases.leastMock (Sync.drawMockData random) /\
  Cases.noMoreThan (Sync.drawMockData random) Cases.greatestMock /\
  16 <= Points.calculateHealthPoints (Sync.drawMockData random) /\
  Points.calculateHealthPoints (Sync.drawMockData random) <= 31.
Proof. apply mock_data_range. Qed.

Lemma X14_mock_data_range_witness :
  Cases.unitDraws Cases.halfDraws /\
  16 <= Points.calculateHealthPoints (Sync.drawMockData Cases.halfDraws).
Proof.
  assert (U : Cases.unitDraws Cases.halfDraws)
    by (intro k; split; [discriminate|reflexivity]).
  split; [exact U|].
  exact (proj1 (proj2 (proj2 (X14_mock_data_range Cases.halfDraws U)))).
Defined.

(** ** The mock data of a sync in double arithmetic *)

(** A draw of [Math.random()], scaled and floored. *)
Lemma draw_whole (q : Q) (n base : Z) :
  0 <= q -> q <= 1 - Double.halfUlp ->
  (1 <= n <= 2 ^ 20)%Z -> (0 <= base <= 2 ^ 20)%Z ->
  exists f : Z,
    (0 <= f < n)%Z /\
    Double.add (Double.floor (Double.mul (Double.finite q) (Double.ofZ n)))
               (Double.ofZ base)
    = Double.ofZ (f + base).
Proof.
  intros Q0 Q1 N Bs.
  assert (N1 : 1 <= inject_Z n).
  { change 1 with (inject_Z 1). rewrite <- Zle_Qle. lia. }
  assert (P : (2 ^ 20 < 2 ^ 53)%Z) by (apply Z.pow_lt_mono_r; lia).
  destruct (round_under (q * inject_Z n) n) as (v & E & V0 & V1).
  - apply Qmult_le_0_compat; lra.
  - lia.
  - rewrite (Qmult_comm q). apply Qmult_le_l; [lra|exact Q1].
  - exists (Qfloor v).
    assert (F0 : (0 <= Qfloor v)%Z).
    { change 0%Z with (Qfloor 0). apply Qfloor_resp_le. exact V0. }
    assert (F1 : (Qfloor v < n)%Z).
    { rewrite Zlt_Qlt. apply (Qle_lt_trans _ v); [apply Qfloor_le|exact V1]. }
    split; [lia|].
    unfold Double.mul, Double.ofZ at 1. rewrite E.
    cbn [Double.floor]. fold (Double.ofZ (Qfloor v)).
    apply add_whole. lia.
Qed.

(** X29.  With every draw of [Math.random()] a double in [[0, 1)], the
    [mockData] the code computes in doubles holds whole numbers: 7000
    to 11999 steps, 400 to 699 calories, 5 to 7 km and 1 or 2
    workouts, and its points are [floor(steps / 1000)
    + floor(calories / 100) + 5 * workouts + 2 * (distance - 5)].  The
    product of a draw is rounded before it is floored: a draw of 0.6
    gives 10000 steps, where the exact product floors to 9999. *)
Theorem X29_mock_data_in_doubles :
  (forall random : nat -> Q,
     (forall k, 0 <= random k /\ random k <= 1 - Double.halfUlp) ->
     exists s c d w : Z,
       IEEE.drawMockData (fun k => Double.finite (random k))
       = Cases.mock s c d w /\
       (7000 <= s <= 11999)%Z /\ (400 <= c <= 699)%Z /\
       (5 <= d <= 7)%Z /\ (1 <= w <= 2)%Z /\
       IEEE.Points.calculateHealthPoints
         (IEEE.drawMockData (fun k => Double.finite (random k)))
       = Double.ofZ (s / 1000 + c / 100 + w * 5 + (d - 5) * 2)) /\
  Double.round (6 # 10) = Double.finite Cases.sixTenths /\
  IEEE.Points.steps (IEEE.drawMockData (fun _ => Double.finite Cases.sixTenths))
  = Double.ofZ 10000 /\
  Points.steps (Sync.drawMockData (fun _ => Cases.sixTenths)) == 9999.
Proof.
  split.
  - intros random U.
    destruct (U 0%nat) as [A0 A1]. destruct (U 1%nat) as [B0 B1].
    destruct (U 2%nat) as [C0 C1]. destruct (U 3%nat) as [D0 D1].
    assert (P : (2 ^ 20 = 1048576)%Z) by reflexivity.
    destruct (draw_whole (random 0%nat) 5000 7000 A0 A1) as (s & Hs & Es);
      [lia|lia|].
    destruct (draw_whole (random 1%nat) 300 400 B0 B1) as (c & Hc & Ec);
      [lia|lia|].
    destruct (draw_whole (random 2%nat) 3 5 C0 C1) as (d & Hd & Ed);
      [lia|lia|].
    destruct (draw_whole (random 3%nat) 2 1 D0 D1) as (w & Hw & Ew);
      [lia|lia|].
    exists (s + 7000)%Z, (c + 400)%Z, (d + 5)%Z, (w + 1)%Z.
    assert (E : IEEE.drawMockData (fun k => Double.finite (random k))
                = Cases.mock (s + 7000) (c + 400) (d + 5) (w + 1)).
    2:{ split; [exact E|]. repeat (split; [lia|]). rewrite E.
        apply (mock_points (s + 7000) (c + 400) (d + 5) (w + 1)); lia. }
    unfold IEEE.drawMockData, Cases.mock, IEEE.literal.
    change (Double.finite 5000) with (Double.ofZ 5000).
    change (Double.finite 7000) with (Double.ofZ 7000).
    change (Double.finite 300) with (Double.ofZ 300).
    change (Double.finite 400) with (Double.ofZ 400).
    change (Double.finite 3) with (Double.ofZ 3).
    change (Double.finite 5) with (Double.ofZ 5).
    change (Double.finite 2) with (Double.ofZ 2).
    change (Double.finite 1) with (Double.ofZ 1).
    rewrite Es, Ec, Ed, Ew. reflexivity.
  - split; [vm_compute; reflexivity|]. split; vm_compute; reflexivity.
Qed.

Lemma X29_mock_data_in_doubles_witness :
  exists s c d w : Z,
    IEEE.drawMockData (fun k => Double.finite Cases.sixTenths)
    = Cases.mock s c d w /\
    (7000 <= s <= 11999)%Z /\ (400 <= c <= 699)%Z /\
    (5 <= d <= 7)%Z /\ (1 <= w <= 2)%Z /\
    IEEE.Points.calculateHealthPoints
      (IEEE.drawMockData (fun k => Double.finite Cases.sixTenths))
    = Double.ofZ (s / 1000 + c / 100 + w * 5 + (d - 5) * 2).
Proof.
  apply (proj1 X29_mock_data_in_doubles (fun _ => Cases.sixTenths)).
  intro k. split; [discriminate|]. vm_compute. discriminate.
Defined.

(** ** SyncCoordinator: scores along a run *)

Section ScoreFacts.
Import Sync.

Variable throws : External -> World -> bool.

(** A sync that is resumed adds its points to both scores, however it
    ends. *)
Lemma resume_scores (mock : Points.HealthData) (now : Date) (w : World) :
  userScore (state (fst (syncHealthData_resume throws mock now w)))
  = userScore (state w) + Points.calculateHealthPoints mock /\
  weekPoints (state (fst (syncHealthData_resume throws mock now w)))
  = weekPoints (state w) + Points.calculateHealthPoints mock.
Proof.
  rewrite resume_world.
  destruct (tryBlock_effect throws mock now w) as (U & W & _).
  destruct (tryCatchFinally_final (tryBlock throws mock now)
              (catchBlock throws) w) as (w1 & -> & [[-> _]|[-> _]]).
  - split; assumption.
  - change (state (setIsSyncing false
                     (fst (catchBlock throws
                             (fst (tryBlock throws mock now w))))))
      with (state (fst (catchBlock throws
                          (fst (tryBlock throws mock now w))))).
    rewrite (proj1 (catchBlock_effect throws _)). split; assumption.
Qed.

Lemma begin_state (random : nat -> Q) (w : World) :
  state (fst (syncHealthData_begin random w)) = state w.
Proof.
  unfold syncHealthData_begin. destruct (isSyncing _); reflexivity.
Qed.

Lemma fetchHealthStatus_state (response : StatusResponse) (now : Date)
    (w : World) :
  state (fetchHealthStatus_resume response now w) = state w.
Proof. destruct response; reflexivity. Qed.

(** What a step of the page does to the scores. *)
Lemma step_scores (p : Page) (e : Event) :
  state (world (step throws p e)) = state (world p) \/
  exists mock,
    In mock (inFlight p) /\
    userScore (state (world (step throws p e)))
    = userScore (state (world p)) + Points.calculateHealthPoints mock /\
    weekPoints (state (world (step throws p e)))
    = weekPoints (state (world p)) + Points.calculateHealthPoints mock.
Proof.
  destruct e as [random | k now | response now]; simpl.
  - left. pose proof (begin_state random (world p)) as B.
    destruct (syncHealthData_begin random (world p)) as [w [c|m]]; exact B.
  - destruct (nth_error (inFlight p) k) as [mock|] eqn:N;
      [|left; reflexivity].
    right. exists mock. split; [exact (nth_error_In _ _ N)|].
    apply resume_scores.
  - left. apply fetchHealthStatus_state.
Qed.


End ScoreFacts.





Section ScoreGrowth.
Import Sync.

Variable throws : External -> World -> bool.

(** The syncs in flight were drawn from draws in [[0, 1)]. *)
Lemma step_unit (p : Page) (e : Event) :
  Cases.unitEvent e ->
  Forall (fun m => 16 <= Points.calculateHealthPoints m) (inFlight p) ->
  Forall (fun m => 16 <= Points.calculateHealthPoints m)
         (inFlight (step throws p e)).
Proof.
  intros U F. destruct e as [random | k now | response now]; simpl.
  - unfold syncHealthData_begin.
    destruct (isSyncing (healthState (world p))); simpl; [exact F|].
    apply Forall_app. split; [exact F|].
    constructor; [|constructor].
    exact (proj1 (proj2 (proj2 (mock_data_range random U)))).
  - destruct (nth_error (inFlight p) k) eqn:N; simpl; [|exact F].
    clear N U. revert k. induction F as [|m l M F IH]; intro k.
    + destruct k; constructor.
    + destruct k; simpl; [exact F|]. constructor; [exact M|apply IH].
  - exact F.
Qed.

End ScoreGrowth.

(** X17.  When the draws of every call lie in [[0, 1)], neither the
    matchup score nor the week points ever go down along a run from the
    loaded page, whether the host functions ([saveState], [updateUI],
    [showToast]) return or throw.  The host functions are taken to
    leave the scores as they are. *)
Theorem X17_scores_never_go_down
    (throws : Sync.External -> Sync.World -> bool)
    (events : list Sync.Event) (app : Sync.AppState) :
  Forall Cases.unitEvent events ->
  Sync.userScore app
  <= Sync.userScore
       (Sync.state (Sync.world (Sync.run throws events (Sync.loaded app)))) /\
  Sync.weekPoints app
  <= Sync.weekPoints
       (Sync.state (Sync.world (Sync.run throws events (Sync.loaded app)))).
Proof.
  intro U.
  assert (G : forall p,
            Forall (fun m => 16 <= Points.calculateHealthPoints m)
                   (Sync.inFlight p) ->
            Sync.userScore (Sync.state (Sync.world p))
            <= Sync.userScore
                 (Sync.state (Sync.world (Sync.run throws events p))) /\
            Sync.weekPoints (Sync.state (Sync.world p))
            <= Sync.weekPoints
                 (Sync.state (Sync.world (Sync.run throws events p)))).
  { induction U as [|e events E _ IH]; intros p F.
    - split; apply Qle_refl.
    - change (Sync.run throws (e :: events) p)
        with (Sync.run throws events (Sync.step throws p e)).
      destruct (IH _ (step_unit throws p e E F)) as [A B].
      destruct (step_scores throws p e) as [S|(mock & M & S & W)].
      + rewrite S in A, B. split; assumption.
      + rewrite Forall_forall in F. pose proof (F mock M) as P.
        rewrite S in A. rewrite W in B. split; lra. }
  apply (G (Sync.loaded app)). constructor.
Qed.

Lemma X17_scores_never_go_down_witness :
  Forall Cases.unitEvent
    [Sync.syncRequested Samples.zeroDraws; Sync.timerFired 0 2000] /\
  Sync.userScore Samples.scores
  <= Sync.userScore
       (Sync.state
          (Sync.world
             (Sync.run Samples.storageFull
                [Sync.syncRequested Samples.zeroDraws; Sync.timerFired 0 2000]
                (Sync.loaded Samples.scores)))).
Proof.
  assert (U : Forall Cases.unitEvent
                [Sync.syncRequested Samples.zeroDraws;
                 Sync.timerFired 0 2000]).
  { constructor; [|constructor; [exact I|constructor]].
    intro k. split; [discriminate|reflexivity]. }
  split; [exact U|].
  exact (proj1 (X17_scores_never_go_down Samples.storageFull _
                  Samples.scores U)).
Defined.

(** ** The health card *)

Lemma bucket (u s : Z) (e : Q) :
  (0 < u)%Z ->
  inject_Z s * 1000 <= e -> e < (inject_Z s + 1) * 1000 ->
  inject_Z (s / u) * (inject_Z u * 1000) <= e /\
  e < (inject_Z (s / u) + 1) * (inject_Z u * 1000).
Proof.
  intros U L H.
  assert (A : (u * (s / u) <= s)%Z) by (apply Z.mul_div_le; exact U).
  assert (B : (s + 1 <= u * (s / u + 1))%Z).
  { pose proof (Z.mul_succ_div_gt s u U) as G. unfold Z.succ in G. lia. }
  rewrite Zle_Qle in A, B.
  rewrite inject_Z_mult in A.
  rewrite inject_Z_plus, inject_Z_mult, inject_Z_plus in B.
  change (inject_Z 1) with 1 in B.
  split; nra.
Qed.

Lemma seconds_bounds (e : Q) :
  inject_Z (Qfloor (e / 1000)) * 1000 <= e /\
  e < (inject_Z (Qfloor (e / 1000)) + 1) * 1000.
Proof.
  pose proof (floor_le (e / 1000)) as L.
  pose proof (floor_lt (e / 1000)) as U.
  unfold Num.floor in L, U.
  assert (E : e == e / 1000 * 1000) by field.
  split; lra.
Qed.

(** X18.  [formatTimeAgo] says "just now" for anything under a minute,
    a date in the future included; otherwise it counts whole minutes
    from 1 to 59, whole hours from 1 to 23 or at least one whole day,
    and the count is the number of whole units that have passed. *)
Theorem X18_timeAgo_counts (now date : Date) :
  match Card.timeAgo now (Some date) with
  | Card.blank => False
  | Card.justNow => now - date < 60000
  | Card.minutesAgo n =>
      (1 <= n <= 59)%Z /\
      inject_Z n * 60000 <= now - date /\
      now - date < (inject_Z n + 1) * 60000
  | Card.hoursAgo n =>
      (1 <= n <= 23)%Z /\
      inject_Z n * 3600000 <= now - date /\
      now - date < (inject_Z n + 1) * 3600000
  | Card.daysAgo n =>
      (1 <= n)%Z /\
      inject_Z n * 86400000 <= now - date /\
      now - date < (inject_Z n + 1) * 86400000
  end.
Proof.
  unfold Card.timeAgo.
  destruct (seconds_bounds (now - date)) as [L U].
  set (s := Qfloor ((now - date) / 1000)) in *.
  destruct (s <? 60)%Z eqn:A.
  { apply Z.ltb_lt in A.
    assert (A' : (s + 1 <= 60)%Z) by lia.
    rewrite Zle_Qle, inject_Z_plus in A'.
    change (inject_Z 1) with 1 in A'. change (inject_Z 60) with 60 in A'.
    lra. }
  apply Z.ltb_ge in A.
  destruct (s <? 3600)%Z eqn:B.
  { apply Z.ltb_lt in B. split.
    - split.
      + apply Z.div_le_lower_bound; lia.
      + assert (s / 60 < 60)%Z by (apply Z.div_lt_upper_bound; lia). lia.
    - destruct (bucket 60 s (now - date)) as [P R]; try assumption;
        [reflexivity|].
      change (inject_Z 60) with 60 in P, R. split; lra. }
  apply Z.ltb_ge in B.
  destruct (s <? 86400)%Z eqn:C.
  { apply Z.ltb_lt in C. split.
    - split.
      + apply Z.div_le_lower_bound; lia.
      + assert (s / 3600 < 24)%Z by (apply Z.div_lt_upper_bound; lia). lia.
    - destruct (bucket 3600 s (now - date)) as [P R]; try assumption;
        [reflexivity|].
      change (inject_Z 3600) with 3600 in P, R. split; lra. }
  apply Z.ltb_ge in C. split.
  - apply Z.div_le_lower_bound; lia.
  - destruct (bucket 86400 s (now - date)) as [P R]; try assumption;
      [reflexivity|].
    change (inject_Z 86400) with 86400 in P, R. split; lra.
Qed.

Section CardFacts.
Import Sync.

Variable throws : External -> World -> bool.

(** The [try] block stores the data and the points of the sync before
    anything in it can throw. *)
Lemma tryBlock_data (mock : Points.HealthData) (now : Date) (w : World) :
  data (healthState (fst (tryBlock throws mock now w))) = mockData mock /\
  points (healthState (fst (tryBlock throws mock now w)))
  = Points.calculateHealthPoints mock.
Proof.
  unfold tryBlock, seq, assign, call, updateHealthUI. simpl.
  repeat match goal with
         | |- context [throws ?f ?x] => destruct (throws f x); simpl
         end;
    split; reflexivity.
Qed.

Lemma resume_data (mock : Points.HealthData) (now : Date) (w : World) :
  data (healthState (fst (syncHealthData_resume throws mock now w)))
  = mockData mock /\
  points (healthState (fst (syncHealthData_resume throws mock now w)))
  = Points.calculateHealthPoints mock.
Proof.
  rewrite resume_world.
  destruct (tryBlock_data mock now w) as [D P].
  destruct (tryCatchFinally_final (tryBlock throws mock now)
              (catchBlock throws) w) as (w1 & -> & [[-> _]|[-> _]]).
  - split; assumption.
  - split; assumption.
Qed.

End CardFacts.

(** X19.  The card disables the sync button, and shows the syncing
    badge, in exactly the states in which a call of [syncHealthData]
    returns at once without starting a sync. *)
Theorem X19_button_follows_guard (now : Date) (random : nat -> Q)
    (w : Sync.World) :
  (Card.disabled (Card.render now (Sync.healthState w)) = true <->
   Sync.syncHealthData_begin random w = (w, Sync.settled Sync.fulfilled)) /\
  (Card.badge (Card.render now (Sync.healthState w)) = Card.badgeSyncing <->
   Sync.syncHealthData_begin random w = (w, Sync.settled Sync.fulfilled)).
Proof.
  unfold Card.render, Sync.syncHealthData_begin. simpl.
  destruct (Sync.isSyncing (Sync.healthState w)); simpl.
  - split; split; reflexivity.
  - split; split; try discriminate.
    destruct (Sync.status (Sync.healthState w)); discriminate.
Qed.

(** X20.  On the card drawn after a sync has completed, in whichever
    way, the points shown under the four metrics add up to the points
    of the sync, and these are shown as the bonus, when the workouts
    drawn are a whole number and the distance has at most one
    decimal (as the [mockData] of a sync has). *)
Theorem X20_card_adds_up (throws : Sync.External -> Sync.World -> bool)
    (mock : Points.HealthData) (now later : Date) (w : Sync.World) :
  Cases.whole (Points.workouts mock) ->
  Cases.whole (Points.distance mock * 10) ->
  0 < Points.calculateHealthPoints mock ->
  let card :=
    Card.render later
      (Sync.healthState (fst (Sync.syncHealthData_resume throws mock now w)))
  in
  Card.stepsPts card + Card.caloriesPts card + Card.distancePts card
  + Card.workoutPts card
  == Points.calculateHealthPoints mock /\
  Card.bonus card = Some (Points.calculateHealthPoints mock) /\
  Card.disabled card = false.
Proof.
  intros W D P card. subst card.
  destruct (resume_data throws mock now w) as [E F].
  pose proof (resume_isSyncing throws mock now w) as B.
  unfold Card.render. cbn [Card.stepsPts Card.caloriesPts Card.distancePts
    Card.workoutPts Card.bonus Card.disabled].
  rewrite E, F, B. cbn [Card.stepsOf Card.caloriesOf Card.distanceOf
    Card.workoutsTimesFive].
  split; [|split; [|reflexivity]].
  - pose proof (calculate_whole mock W D) as X.
    rewrite X. unfold Cases.contributions, Points.stepsPoints,
      Points.caloriesPoints, Points.workoutPoints,
      Points.distanceBonusPoints. lra.
  - apply gtb_lt in P. rewrite P. reflexivity.
Qed.

Lemma X20_card_adds_up_witness :
  Cases.whole (Points.workouts (Sync.drawMockData Samples.zeroDraws)) /\
  Cases.whole (Points.distance (Sync.drawMockData Samples.zeroDraws) * 10) /\
  0 < Points.calculateHealthPoints (Sync.drawMockData Samples.zeroDraws) /\
  Card.bonus
    (Card.render 9000
       (Sync.healthState (Samples.completedWorld Samples.storageFull)))
  = Some (Points.calculateHealthPoints (Sync.drawMockData Samples.zeroDraws)).
Proof.
  assert (W : Cases.whole
                (Points.workouts (Sync.drawMockData Samples.zeroDraws)))
    by (exists 1%Z; reflexivity).
  assert (D : Cases.whole
                (Points.distance (Sync.drawMockData Samples.zeroDraws) * 10))
    by (exists 50%Z; reflexivity).
  assert (P : 0 < Points.calculateHealthPoints
                    (Sync.drawMockData Samples.zeroDraws))
    by reflexivity.
  split; [exact W|]. split; [exact D|]. split; [exact P|].
  exact (proj1 (proj2 (X20_card_adds_up Samples.storageFull
                         (Sync.drawMockData Samples.zeroDraws) 2000 9000
                         (Samples.suspendedWorld Samples.storageFull)
                         W D P))).
Defined.

(** ** The API client *)

Section RequestFacts.

Variable Json : Type.
Variable detail : Json -> option string.
Variable emptyObject : Json.
Variable fetch : nat -> Api.Fetched Json.

(** The loop, iteration by iteration. *)
Lemma request_effects :
  snd (Api.request detail emptyObject fetch)
  = if Api.refused fetch 0 then
      Api.fetchCalled :: Api.waited 1000 ::
      (if Api.refused fetch 1 then
         Api.fetchCalled :: Api.waited 2000 ::
         (if Api.refused fetch 2
          then [Api.fetchCalled; Api.waited 4000]
          else [Api.fetchCalled])
       else [Api.fetchCalled])
    else [Api.fetchCalled].
Proof.
  unfold Api.request, Api.refused, Api.attempts.
  destruct (fetch 0) as [r0|m0]; [|reflexivity].
  destruct (Api.ok r0); [reflexivity|]. simpl.
  destruct (fetch 1) as [r1|m1]; [|reflexivity].
  destruct (Api.ok r1); [reflexivity|]. simpl.
  destruct (fetch 2) as [r2|m2]; [|reflexivity].
  destruct (Api.ok r2); reflexivity.
Qed.

(** How it settles: by the first call that is not answered with a
    refusal, or by the third. *)
Lemma request_settles :
  fst (Api.request detail emptyObject fetch)
  = let last k :=
      match fetch k with
      | Api.responded r => Api.settle detail emptyObject r
      | Api.failed message => Api.thrown message
      end in
    if Api.refused fetch 0 then
      if Api.refused fetch 1 then last 2%nat else last 1%nat
    else last 0%nat.
Proof.
  unfold Api.request, Api.refused, Api.attempts.
  destruct (fetch 0) as [r0|m0]; [|reflexivity].
  destruct (Api.ok r0); [reflexivity|]. simpl.
  destruct (fetch 1) as [r1|m1]; [|reflexivity].
  destruct (Api.ok r1); [reflexivity|]. simpl.
  destruct (fetch 2) as [r2|m2]; [|reflexivity].
  destruct (Api.ok r2); reflexivity.
Qed.

End RequestFacts.

(** X21.  [request] calls [fetch] at least once and at most three
    times; it waits one, two and four seconds after the first, second
    and third response that is not ok, the last wait coming before
    the error is thrown, so that it never waits more than seven
    seconds in all; and it does not wait at all after a response that
    is ok or after a failure of [fetch]. *)
Theorem X21_request_backoff (Json : Type) (detail : Json -> option string)
    (emptyObject : Json) (fetch : nat -> Api.Fetched Json) :
  let effects := snd (Api.request detail emptyObject fetch) in
  effects
  = (if Api.refused fetch 0 then
       Api.fetchCalled :: Api.waited 1000 ::
       (if Api.refused fetch 1 then
          Api.fetchCalled :: Api.waited 2000 ::
          (if Api.refused fetch 2
           then [Api.fetchCalled; Api.waited 4000]
           else [Api.fetchCalled])
        else [Api.fetchCalled])
     else [Api.fetchCalled]) /\
  (1 <= Api.fetches effects <= 3)%nat /\
  (0 <= Api.waiting effects <= 7000)%Z.
Proof.
  intro effects. subst effects. rewrite request_effects.
  split; [reflexivity|].
  destruct (Api.refused fetch 0), (Api.refused fetch 1),
    (Api.refused fetch 2); simpl; lia.
Qed.

(** X22.  [request] returns a value exactly when one of the first three
    calls of [fetch] is answered with an ok response, every call
    before it having been answered with a response that is not ok; the
    value is [{}] when that response has status 204 or a content
    length of zero, and its parsed body otherwise. *)
Theorem X22_request_returns (Json : Type) (detail : Json -> option string)
    (emptyObject : Json) (fetch : nat -> Api.Fetched Json) (value : Json) :
  fst (Api.request detail emptyObject fetch) = Api.returned value <->
  exists k r,
    (k <= 2)%nat /\
    (forall j, (j < k)%nat -> Api.refused fetch j = true) /\
    fetch k = Api.responded r /\
    Api.ok r = true /\
    (if (Api.status r =? 204)%Z || Api.contentLengthZero r
     then value = emptyObject
     else Api.json r = inl value).
Proof.
  rewrite request_settles.
  assert (L : forall k,
            match fetch k with
            | Api.responded r => Api.settle detail emptyObject r
            | Api.failed message => Api.thrown message
            end = Api.returned value <->
            Api.refused fetch k = false /\
            exists r, fetch k = Api.responded r /\ Api.ok r = true /\
                      (if (Api.status r =? 204)%Z || Api.contentLengthZero r
                       then value = emptyObject
                       else Api.json r = inl value)).
  { intro k. unfold Api.refused, Api.settle.
    destruct (fetch k) as [r|m].
    - destruct (Api.ok r) eqn:O; simpl.
      + destruct ((Api.status r =? 204)%Z || Api.contentLengthZero r)
          eqn:C.
        * split.
          -- intro H. injection H as <-. split; [reflexivity|].
             exists r. rewrite C, O. repeat split.
          -- intros (_ & r' & E & _ & V). injection E as <-.
             rewrite C in V. subst value. reflexivity.
        * split.
          -- intro H. split; [reflexivity|]. exists r. rewrite C, O.
             split; [reflexivity|]. split; [reflexivity|].
             destruct (Api.json r); [injection H as <-; reflexivity
                                    |discriminate H].
          -- intros (_ & r' & E & _ & V). injection E as <-.
             rewrite C in V. rewrite V. reflexivity.
      + split.
        * intro H. destruct (Api.json r); discriminate H.
        * intros [H _]. discriminate H.
    - split; [discriminate|]. intros (_ & r & E & _). discriminate E. }
  cbv zeta. split.
  - destruct (Api.refused fetch 0) eqn:R0.
    + destruct (Api.refused fetch 1) eqn:R1.
      * intro H. apply L in H. destruct H as (_ & r & E & O & V).
        exists 2%nat, r. split; [lia|]. split; [|tauto].
        intros j Hj. assert (j = 0 \/ j = 1)%nat as [-> | ->] by lia;
          assumption.
      * intro H. apply L in H. destruct H as (_ & r & E & O & V).
        exists 1%nat, r. split; [lia|]. split; [|tauto].
        intros j Hj. assert (j = 0)%nat as -> by lia. assumption.
    + intro H. apply L in H. destruct H as (_ & r & E & O & V).
      exists 0%nat, r. split; [lia|]. split; [|tauto].
      intros j Hj. lia.
  - intros (k & r & K & P & E & O & V).
    assert (N : Api.refused fetch k = false)
      by (unfold Api.refused; rewrite E, O; reflexivity).
    assert (k = 0 \/ k = 1 \/ k = 2)%nat as [-> | [-> | ->]] by lia.
    + rewrite N. apply L. split; [exact N|]. exists r. tauto.
    + rewrite (P 0%nat) by lia. rewrite N. apply L.
      split; [exact N|]. exists r. tauto.
    + rewrite (P 0%nat), (P 1%nat) by lia. apply L.
      split; [exact N|]. exists r. tauto.
Qed.

(** X23.  A failure of [fetch] itself is not retried: when a call of
    [fetch] fails after only refusals, [request] throws that failure
    at once.  After three responses that are not ok it throws the
    [detail] of the third response's body or, without one, "API
    Request Failed with status" and that response's status. *)
Theorem X23_request_throws (Json : Type) (detail : Json -> option string)
    (emptyObject : Json) (fetch : nat -> Api.Fetched Json) :
  (forall k message,
     (k <= 2)%nat ->
     (forall j, (j < k)%nat -> Api.refused fetch j = true) ->
     fetch k = Api.failed message ->
     fst (Api.request detail emptyObject fetch) = Api.thrown message /\
     Api.fetches (snd (Api.request detail emptyObject fetch)) = S k) /\
  (forall r errorData,
     (forall j, (j < 3)%nat -> Api.refused fetch j = true) ->
     fetch 2%nat = Api.responded r ->
     Api.json r = inl errorData ->
     fst (Api.request detail emptyObject fetch)
     = Api.thrown
         (match detail errorData with
          | Some message => message
          | None =>
              ("API Request Failed with status "
               ++ digits (Api.status r))%string
          end)).
Proof.
  split.
  - intros k message K P E.
    assert (N : Api.refused fetch k = false)
      by (unfold Api.refused; rewrite E; reflexivity).
    rewrite request_settles, request_effects. cbv zeta.
    assert (k = 0 \/ k = 1 \/ k = 2)%nat as [-> | [-> | ->]] by lia.
    + rewrite N, E. split; reflexivity.
    + rewrite (P 0%nat) by lia. rewrite N, E. split; reflexivity.
    + rewrite (P 0%nat), (P 1%nat) by lia. rewrite N, E. split; reflexivity.
  - intros r errorData P E J.
    rewrite request_settles. cbv zeta.
    rewrite (P 0%nat), (P 1%nat) by lia. rewrite E.
    pose proof (P 2%nat) as R. unfold Api.refused in R. rewrite E in R.
    unfold Api.settle. rewrite R by lia. rewrite J. reflexivity.
Qed.

Lemma X22_request_returns_witness :
  fst (Cases.ask Cases.recovering) = Api.returned (Some "hello"%string) /\
  exists k r,
    (k <= 2)%nat /\
    (forall j, (j < k)%nat -> Api.refused Cases.recovering j = true) /\
    Cases.recovering k = Api.responded r /\
    Api.ok r = true /\
    (if (Api.status r =? 204)%Z || Api.contentLengthZero r
     then Some "hello"%string = None
     else Api.json r = inl (Some "hello"%string)).
Proof.
  split.
  - reflexivity.
  - apply (proj1 (X22_request_returns (option string)
                    (fun d => Web.truthy d) None Cases.recovering
                    (Some "hello"%string))).
    reflexivity.
Defined.

Lemma X23_request_throws_witness :
  (fst (Cases.ask Cases.unplugged) = Api.thrown "Failed to fetch" /\
   Api.fetches (snd (Cases.ask Cases.unplugged)) = 2%nat) /\
  fst (Cases.ask Cases.down)
  = Api.thrown "API Request Failed with status 500".
Proof.
  split.
  - apply (proj1 (X23_request_throws (option string)
                    (fun d => Web.truthy d) None Cases.unplugged)
             1%nat "Failed to fetch"%string).
    + lia.
    + intros j Hj. assert (j = 0)%nat as -> by lia. reflexivity.
    + reflexivity.
  - apply (proj2 (X23_request_throws (option string)
                    (fun d => Web.truthy d) None Cases.down)
             Cases.broken None).
    + intros j Hj. reflexivity.
    + reflexivity.
    + reflexivity.
Defined.

(** ** The router and the authentication state *)

Lemma shown_one (auth : Web.Auth) (route : Web.Matched) :
  exists e,
    Web.shown 1 auth route = Some e /\
    (forall to, e <> Web.Navigate to) /\
    forall hops, Web.shown (S hops) auth route = Some e.
Proof.
  destruct auth as [[|] [|]], route; simpl;
    eexists; (split; [reflexivity|]); (split; [discriminate|]);
    intros [|hops]; reflexivity.
Qed.

(** X24.  Following [Navigate] elements never loops: from every route,
    in every authentication state, one hop at most leads to a page or
    to the spinner, and further hops change nothing; an unknown path
    ends on the landing page. *)
Theorem X24_navigation_settles (auth : Web.Auth) (route : Web.Matched) :
  (exists e,
     Web.shown 1 auth route = Some e /\
     (forall to, e <> Web.Navigate to) /\
     forall hops, Web.shown (S hops) auth route = Some e) /\
  Web.shown 1 auth Web.other = Some Web.Landing.
Proof.
  split; [apply shown_one|]. destruct auth as [[|] [|]]; reflexivity.
Qed.

(** X25.  Whatever the router ends on, a page for authenticated users
    (dashboard, league, matchup, insights) is on the screen only when
    the user is authenticated and the state has loaded, and the login
    and signup pages only when the user is not authenticated and the
    state has loaded. *)
Theorem X25_guards (hops : nat) (auth : Web.Auth) (route : Web.Matched)
    (e : Web.Element) :
  Web.shown hops auth route = Some e ->
  (Web.protected e = true ->
   Web.isAuthenticated auth = true /\ Web.loading auth = false) /\
  (e = Web.Login \/ e = Web.Signup ->
   Web.isAuthenticated auth = false /\ Web.loading auth = false).
Proof.
  intro H.
  assert (H1 : Web.shown 1 auth route = Some e).
  { destruct hops as [|hops].
    - destruct auth as [[|] [|]], route; simpl in H |- *;
        try discriminate H; exact H.
    - destruct (shown_one auth route) as (e' & S1 & _ & S).
      rewrite (S hops) in H. rewrite S1. exact H. }
  clear H.
  destruct auth as [[|] [|]], route; simpl in H1; injection H1 as <-;
    simpl;
    (split; [intro P; try discriminate P; split; reflexivity
            |intros [P|P]; try discriminate P; split; reflexivity]).
Qed.

Lemma X25_guards_witness :
  Web.shown 1 (Web.mkAuth false false) Web.dashboardPath = Some Web.Login /\
  Web.isAuthenticated (Web.mkAuth false false) = false /\
  Web.loading (Web.mkAuth false false) = false.
Proof.
  split.
  - reflexivity.
  - apply (proj2 (X25_guards 1 (Web.mkAuth false false) Web.dashboardPath
                    Web.Login eq_refl)).
    left. reflexivity.
Defined.

Lemma no_spinner (hops : nat) (auth : Web.Auth) (route : Web.Matched) :
  Web.loading auth = false ->
  Web.shown hops auth route <> Some Web.Spinner.
Proof.
  intro L. destruct auth as [a l]. simpl in L. subst l.
  destruct hops as [|hops].
  - destruct a, route; simpl; discriminate.
  - destruct (shown_one (Web.mkAuth a false) route) as (e & S1 & _ & S).
    rewrite (S hops). clear S.
    destruct a, route; simpl in S1; injection S1 as <-; discriminate.
Qed.

(** X26.  [login] and [register] return [true] exactly when their own
    request succeeds, whatever becomes of the request for the user that
    follows.  After a success the user is authenticated, and the token
    kept, exactly when that second request succeeds too: when it
    fails, [true] is returned all the same, with no user and the token
    just stored removed.  After a failure the token and the user are
    as before and the error is a message that is not empty. *)
Theorem X26_signIn_outcomes (fallback : string) (answer me : string + string)
    (p : Web.Provider) :
  fallback <> ""%string ->
  let next := fst (Web.signIn fallback answer me p) in
  (snd (Web.signIn fallback answer me p) = true <->
   exists access_token, answer = inl access_token) /\
  (forall access_token,
     answer = inl access_token ->
     Web.error next = None /\
     match me with
     | inl response =>
         Web.user next = Some response /\
         Web.token next = Some access_token
     | inr _ => Web.user next = None /\ Web.token next = None
     end) /\
  (forall message,
     answer = inr message ->
     Web.user next = Web.user p /\ Web.token next = Web.token p /\
     exists shownMessage,
       Web.error next = Some shownMessage /\ shownMessage <> ""%string).
Proof.
  intros F next. subst next.
  destruct answer as [t|m]; simpl.
  - split; [split; [intros _; exists t; reflexivity|reflexivity]|].
    split.
    + intros t' E. injection E as <-.
      destruct me; simpl; repeat split.
    + intros m E. discriminate E.
  - split; [split; [discriminate|intros [t E]; discriminate E]|].
    split.
    + intros t E. discriminate E.
    + intros m' E. injection E as <-.
      split; [reflexivity|]. split; [reflexivity|].
      destruct m as [|c m]; simpl.
      * exists fallback. split; [reflexivity|exact F].
      * exists (String c m). split; [reflexivity|discriminate].
Qed.

Lemma X26_signIn_outcomes_witness :
  "Login failed"%string <> ""%string /\
  snd (Web.login (inl "t0"%string) (inr "expired"%string)
         (Web.initial None)) = true /\
  Web.user (fst (Web.login (inl "t0"%string) (inr "expired"%string)
                   (Web.initial None))) = None /\
  Web.token (fst (Web.login (inl "t0"%string) (inr "expired"%string)
                    (Web.initial None))) = None.
Proof.
  assert (F : "Login failed"%string <> ""%string) by discriminate.
  split; [exact F|]. split; [reflexivity|].
  exact (proj2 (proj1 (proj2 (X26_signIn_outcomes "Login failed"
                                (inl "t0"%string) (inr "expired"%string)
                                (Web.initial None) F))
                  "t0"%string eq_refl)).
Defined.

(** X27.  After [logout] there is no token and no user, and once the
    state has loaded every route for authenticated users shows the
    login page. *)
Theorem X27_logout_locks (p : Web.Provider) (hops : nat) :
  Web.providerLoading p = false ->
  Web.token (Web.logout p) = None /\
  Web.isAuthenticated (Web.auth (Web.logout p)) = false /\
  forall route,
    In route [Web.dashboardPath; Web.leaguePath; Web.matchupPath;
              Web.insightsPath] ->
    Web.shown (S hops) (Web.auth (Web.logout p)) route = Some Web.Login.
Proof.
  intro L. split; [reflexivity|]. split; [reflexivity|].
  intros route R. unfold Web.auth, Web.logout. simpl. rewrite L.
  simpl in R.
  destruct R as [<-|[<-|[<-|[<-|[]]]]]; destruct hops; reflexivity.
Qed.

Lemma X27_logout_locks_witness :
  Web.providerLoading
    (fst (Web.login (inl "t0"%string) (inl "ada"%string)
            (Web.initial None))) = false /\
  Web.shown 1
    (Web.auth
       (Web.logout
          (fst (Web.login (inl "t0"%string) (inl "ada"%string)
                  (Web.initial None)))))
    Web.leaguePath
  = Some Web.Login.
Proof.
  split.
  - reflexivity.
  - apply (proj2 (proj2 (X27_logout_locks
                           (fst (Web.login (inl "t0"%string)
                                   (inl "ada"%string) (Web.initial None)))
                           0 eq_refl))).
    right. left. reflexivity.
Defined.

(** X28.  When the provider has mounted, the state has loaded, so no
    route shows the spinner any more.  The user is authenticated
    exactly when a token that is not empty was stored and the request
    for the user succeeded; a stored token whose request fails is
    removed, and without a token no user is set. *)
Theorem X28_mount_settles (stored : option string) (me : string + string) :
  let next := Web.mount me (Web.initial stored) in
  Web.providerLoading next = false /\
  (forall hops route,
     Web.shown hops (Web.auth next) route <> Some Web.Spinner) /\
  (Web.isAuthenticated (Web.auth next) = true <->
   (exists t, stored = Some t /\ t <> ""%string) /\
   exists response, me = inl response) /\
  (Web.isAuthenticated (Web.auth next) = false ->
   Web.token next = None \/ Web.token next = Some ""%string).
Proof.
  intro next. subst next.
  assert (L : Web.providerLoading (Web.mount me (Web.initial stored))
              = false).
  { unfold Web.mount. destruct (Web.truthy _); [destruct me|]; reflexivity. }
  split; [exact L|]. split.
  - intros hops route. apply no_spinner. exact L.
  - split.
    + unfold Web.mount, Web.initial, Web.truthy. simpl.
      destruct stored as [[|c t]|]; simpl.
      * split; [discriminate|]. intros [(t & E & N) _].
        injection E as <-. contradiction N; reflexivity.
      * destruct me as [u|m]; simpl.
        -- split; [intros _; split; [exists (String c t); split;
                                     [reflexivity|discriminate]
                                    |exists u; reflexivity]
                  |reflexivity].
        -- split; [discriminate|]. intros [_ [u E]]. discriminate E.
      * split; [discriminate|]. intros [(t & E & _) _]. discriminate E.
    + unfold Web.mount, Web.initial, Web.truthy. simpl.
      destruct stored as [[|c t]|]; simpl.
      * intros _. right. reflexivity.
      * destruct me as [u|m]; simpl; [discriminate|].
        intros _. left. reflexivity.
      * intros _. left. reflexivity.
Qed.

Lemma X28_mount_settles_witness :
  Web.isAuthenticated
    (Web.auth (Web.mount (inr "expired"%string)
                 (Web.initial (Some "t0"%string)))) = false /\
  (Web.token (Web.mount (inr "expired"%string)
                (Web.initial (Some "t0"%string))) = None \/
   Web.token (Web.mount (inr "expired"%string)
                (Web.initial (Some "t0"%string))) = Some ""%string).
Proof.
  split.
  - reflexivity.
  - apply (proj2 (proj2 (proj2 (X28_mount_settles (Some "t0"%string)
                                  (inr "expired"%string))))).
    reflexivity.
Defined.
